(** * 3D_Arm: grasping, physics and level evaluation

    A shallow embedding of the simulator core of the 3D_Arm repository:
    - [ObjectManager] (src/objectManager.js): the physics pass, the clamp
      test of the gripper, attaching and releasing, export and import;
    - [RobotArmSimulator] and [Simulator] (src/robotArm.js): the
      per-update pick-up and release decision, the reset of the arm and
      the frame loop;
    - [Storage] and [LevelManager] (src/storage.js): progress records,
      stored animations, imports, target evaluation, time limit and stars;
    - [LevelData] and [BackgroundEffects] (src/backgroundEffects.js): the
      table of levels and the particles of the home screen.

    JavaScript numbers are modelled by the real numbers [R]: sums, products,
    quotients, square roots and comparisons are the exact ones, and NaN,
    infinities and rounding are outside the model.  Comparisons of reals
    are decided by [Rlt_dec] and its kin, so the definitions do not
    evaluate by computation: concrete runs are derived by rewriting.  A
    property that is [undefined] in the source is [None] here.  A reference
    to a mesh of the registry is the mesh's id: [spawnObject] is the only
    writer of the [objects] map, it stores every mesh under its own
    [userData.id], and ids come from a counter that only grows.

    What the sources call in three.js (vectors, [degToRad], geometry
    parameters, colours) is modelled in [THREE] after that library; the
    scene graph is not modelled, and what [updateJoints] reads back from it
    is an argument ([RobotArmSimulator.Rig]).  [LevelManager.loadLevel]
    takes the level that [getLevelById] finds; the table of levels and
    [getLevelById] are in [LevelData] (the level data at the end of
    src/backgroundEffects.js).  Times ([performance.now()]) are arguments. *)

From Stdlib Require Import Reals Lra ZArith List Ascii String.
From stdpp Require Import base decidable option list gmap strings pretty.

Open Scope R_scope.

#[global] Instance Rlt_decision : RelDecision Rlt := Rlt_dec.
#[global] Instance Rle_decision : RelDecision Rle := Rle_dec.
#[global] Instance Rgt_decision : RelDecision Rgt := Rgt_dec.
#[global] Instance Rge_decision : RelDecision Rge := Rge_dec.
#[global] Instance Req_decision : EqDecision R := Req_dec_T.

(** ** JavaScript idioms *)
Module JS.

(** [a || d] where [a] is a number or [undefined] (or NaN, which is falsy as
    well): the falsy numbers are [undefined] and [0]. *)
Definition or_else (a : option R) (d : R) : R :=
  match a with
  | Some v => if decide (v = 0) then d else v
  | None => d
  end.

(** [!a] for a number or [undefined]. *)
Definition falsy (a : option R) : bool :=
  match a with
  | Some v => bool_decide (v = 0)
  | None => true
  end.

(** [!a] for an integer or [undefined]. *)
Definition falsyZ (a : option Z) : bool :=
  match a with
  | Some v => bool_decide (v = 0%Z)
  | None => true
  end.

(** The outcome of a call that may raise a TypeError (a property read on
    [undefined]). *)
Inductive completion (A : Type) : Type :=
| Normal (a : A)
| TypeError.
Arguments Normal {A} a.
Arguments TypeError {A}.

Definition bind {A B : Type} (c : completion A) (k : A -> completion B)
  : completion B :=
  match c with
  | Normal a => k a
  | TypeError => TypeError
  end.

(** [a || b] where both are numbers or [undefined]: [a] when it is truthy,
    else [b] as it is. *)
Definition or_value (a b : option R) : option R :=
  match a with
  | Some v => if decide (v = 0) then b else Some v
  | None => b
  end.

End JS.

#[global] Instance completion_bind : MBind JS.completion :=
  fun A B k c => JS.bind c k.
#[global] Instance completion_ret : MRet JS.completion := @JS.Normal.

(** ** The parts of three.js the simulator calls *)
Module THREE.

Record Vector3 : Type := Vec3 { x : R; y : R; z : R }.

Definition set_y (v : Vector3) (ny : R) : Vector3 := Vec3 (x v) ny (z v).

Definition length (v : Vector3) : R :=
  sqrt (x v * x v + y v * y v + z v * z v).

Definition subVectors (a b : Vector3) : Vector3 :=
  Vec3 (x a - x b) (y a - y b) (z a - z b).

Definition distanceToSquared (a v : Vector3) : R :=
  let dx := x a - x v in
  let dy := y a - y v in
  let dz := z a - z v in
  dx * dx + dy * dy + dz * dz.

Definition distanceTo (a v : Vector3) : R := sqrt (distanceToSquared a v).

Definition multiplyScalar (v : Vector3) (s : R) : Vector3 :=
  Vec3 (x v * s) (y v * s) (z v * s).

Definition divideScalar (v : Vector3) (s : R) : Vector3 :=
  multiplyScalar v (1 / s).

(** [normalize() { return this.divideScalar(this.length() || 1) }] *)
Definition normalize (v : Vector3) : Vector3 :=
  divideScalar v (JS.or_else (Some (length v)) 1).

Definition addScaledVector (a v : Vector3) (s : R) : Vector3 :=
  Vec3 (x a + x v * s) (y a + y v * s) (z a + z v * s).

(** [MathUtils.degToRad]: [degrees * DEG2RAD] with [DEG2RAD = Math.PI / 180]. *)
Definition degToRad (degrees : R) : R := degrees * (PI / 180).

(** The three geometries [spawnObject] builds, with their [parameters]. *)
Inductive Geometry : Type :=
| BoxGeometry (width height depth : R)
| SphereGeometry (radius : R) (widthSegments heightSegments : nat)
| CylinderGeometry (radiusTop radiusBottom height : R) (radialSegments : nat).

(** [geometry.parameters.width]: only a box has it. *)
Definition parameters_width (g : Geometry) : option R :=
  match g with
  | BoxGeometry w _ _ => Some w
  | _ => None
  end.

(** [geometry.parameters.radius]: only a sphere has it (a cylinder has
    [radiusTop] and [radiusBottom]). *)
Definition parameters_radius (g : Geometry) : option R :=
  match g with
  | SphereGeometry r _ _ => Some r
  | _ => None
  end.

(** A [MeshStandardMaterial]; colours are the 24-bit values of [Color.getHex]. *)
Record Material : Type := {
  color : N;
  metalness : R;
  roughness : R;
  emissive : N;
  emissiveIntensity : R
}.

(** One hexadecimal digit, lower case, as [Number.prototype.toString(16)]
    prints it. *)
Definition hexDigit (n : N) : string :=
  match n with
  | 0%N => "0" | 1%N => "1" | 2%N => "2" | 3%N => "3"
  | 4%N => "4" | 5%N => "5" | 6%N => "6" | 7%N => "7"
  | 8%N => "8" | 9%N => "9" | 10%N => "a" | 11%N => "b"
  | 12%N => "c" | 13%N => "d" | 14%N => "e" | _ => "f"
  end.

(** [Color.getHexString]: the six hexadecimal digits of the colour. *)
Definition getHexString (c : N) : string :=
  hexDigit (N.land (N.shiftr c 20) 15) +:+ hexDigit (N.land (N.shiftr c 16) 15) +:+
  hexDigit (N.land (N.shiftr c 12) 15) +:+ hexDigit (N.land (N.shiftr c 8) 15) +:+
  hexDigit (N.land (N.shiftr c 4) 15) +:+ hexDigit (N.land c 15).

(** [Vector3.toArray()] *)
Definition toArray (v : Vector3) : list R := [x v; y v; z v].

(** [new Vector3(...array)]: a coordinate the array does not give is 0, the
    default of the constructor. *)
Definition fromArray (l : list R) : Vector3 :=
  Vec3 (default 0 (l !! 0%nat)) (default 0 (l !! 1%nat)) (default 0 (l !! 2%nat)).

End THREE.

(** ** src/objectManager.js *)
Module ObjectManager.

(** [mesh.userData] as [spawnObject] writes it.  [size] is the property
    [updateJoints] reads from it: [spawnObject] does not write it.  The
    [spawned] time stamp is left out. *)
Record UserData : Type := {
  id : string;
  type : string;
  pickable : bool;
  velocity : THREE.Vector3;
  isStatic : bool;
  radius : R;
  onFloor : bool;
  size : option R
}.

Record Mesh : Type := {
  geometry : THREE.Geometry;
  material : THREE.Material;
  position : THREE.Vector3;
  userData : UserData
}.

(** A collision sphere of the arm. *)
Record Collider : Type := {
  collider_position : THREE.Vector3;
  collider_radius : R
}.

(** The scene node an object is attached to. *)
Inductive SceneNode : Type := GripperBase.

(** The manager: [objects] is the [Map], in insertion order. *)
Record t : Type := {
  objects : list (string * Mesh);
  nextId : nat;
  attachedObject : option string;
  attachPoint : option SceneNode;
  gravity : R
}.

Definition constructor : t :=
  {| objects := []; nextId := 1; attachedObject := None;
     attachPoint := None; gravity := -9.8 |}.

Definition set_position (p : THREE.Vector3) (m : Mesh) : Mesh :=
  {| geometry := geometry m; material := material m; position := p;
     userData := userData m |}.

Definition set_userData (u : UserData) (m : Mesh) : Mesh :=
  {| geometry := geometry m; material := material m; position := position m;
     userData := u |}.

Definition set_emissive (e : N) (i : R) (m : Mesh) : Mesh :=
  {| geometry := geometry m;
     material := {| THREE.color := THREE.color (material m);
                    THREE.metalness := THREE.metalness (material m);
                    THREE.roughness := THREE.roughness (material m);
                    THREE.emissive := e;
                    THREE.emissiveIntensity := i |};
     position := position m; userData := userData m |}.

Definition set_motion (v : THREE.Vector3) (f : bool) (u : UserData) : UserData :=
  {| id := id u; type := type u; pickable := pickable u; velocity := v;
     isStatic := isStatic u; radius := radius u; onFloor := f;
     size := size u |}.

Definition set_objects (l : list (string * Mesh)) (om : t) : t :=
  {| objects := l; nextId := nextId om; attachedObject := attachedObject om;
     attachPoint := attachPoint om; gravity := gravity om |}.

Definition set_attached (a : option string) (p : option SceneNode) (om : t) : t :=
  {| objects := objects om; nextId := nextId om; attachedObject := a;
     attachPoint := p; gravity := gravity om |}.

(** [this.objects.get(id)] *)
Fixpoint get (k : string) (l : list (string * Mesh)) : option Mesh :=
  match l with
  | [] => None
  | (k', m) :: l' => if decide (k' = k) then Some m else get k l'
  end.

(** A write through the reference [k]: the mesh stored under [k] becomes
    [f] of itself. *)
Definition modify (k : string) (f : Mesh -> Mesh) (l : list (string * Mesh))
  : list (string * Mesh) :=
  (fun e => if decide (fst e = k) then (fst e, f (snd e)) else e) <$> l.

(** [this.attachedObject && this.attachedObject.userData.id === id] *)
Definition isAttached (om : t) (k : string) : bool :=
  match attachedObject om with
  | Some a => bool_decide (a = k)
  | None => false
  end.

(** The body of the loop over [armColliders] in [update]. *)
Definition pushAway (obj : Mesh) (collider : Collider) : Mesh :=
  let u := userData obj in
  let dist := THREE.distanceTo (position obj) (collider_position collider) in
  let minDist := radius u + collider_radius collider in
  if decide (dist < minDist) then
    let pushDir :=
      THREE.normalize (THREE.subVectors (position obj) (collider_position collider)) in
    let pushDir :=
      if decide (THREE.y pushDir < 0) then THREE.set_y pushDir 0.1 else pushDir in
    let pushDir := THREE.normalize pushDir in
    let overlap := minDist - dist in
    set_userData
      (set_motion (THREE.addScaledVector (velocity u) pushDir 2.0) (onFloor u) u)
      (set_position (THREE.addScaledVector (position obj) pushDir (overlap * 1.5)) obj)
  else obj.

(** The body of the loop over [objects] in [update], for an object that is
    neither attached nor static: gravity, velocity, floor, arm. *)
Definition integrate (g dt : R) (armColliders : list Collider) (obj : Mesh) : Mesh :=
  let u := userData obj in
  let v1 :=
    if onFloor u then velocity u
    else THREE.set_y (velocity u) (THREE.y (velocity u) + g * dt) in
  let p1 := THREE.addScaledVector (position obj) v1 dt in
  let obj1 :=
    if decide (THREE.y p1 < radius u) then
      set_userData
        (set_motion (THREE.Vec3 (THREE.x v1 * 0.9) 0 (THREE.z v1 * 0.9)) true u)
        (set_position (THREE.set_y p1 (radius u)) obj)
    else
      set_userData (set_motion v1 false u) (set_position p1 obj) in
  if decide (0 < List.length armColliders)%nat
  then fold_left pushAway armColliders obj1
  else obj1.

(** [update(dt, armColliders = [])] *)
Definition update (dt : R) (armColliders : list Collider) (om : t) : t :=
  let dt := Rmin dt 0.05 in
  set_objects
    ((fun e =>
        if isAttached om (fst e) then e
        else if isStatic (userData (snd e)) then e
        else (fst e, integrate (gravity om) dt armColliders (snd e)))
       <$> objects om)
    om.

(** [this.objects.set(id, mesh)]: a new key goes last, an old one keeps its
    place. *)
Fixpoint set (k : string) (m : Mesh) (l : list (string * Mesh))
  : list (string * Mesh) :=
  match l with
  | [] => [(k, m)]
  | (k', m') :: l' => if decide (k' = k) then (k, m) :: l' else (k', m') :: set k m l'
  end.

(** [spawnObject(type, position, color, size)]; [color] is the value
    three.js reads from the colour string.  Returns the id and the mesh. *)
Definition spawnObject (ty : string) (pos : THREE.Vector3) (col : N) (sz : R)
    (om : t) : (string * Mesh) * t :=
  let k := "obj_" +:+ pretty (nextId om) in
  let geom :=
    if decide (ty = "sphere") then THREE.SphereGeometry (sz / 2) 32 32
    else if decide (ty = "cylinder") then THREE.CylinderGeometry (sz / 2) (sz / 2) sz 32
    else THREE.BoxGeometry sz sz sz in
  let rad := sz / 2 in
  let mesh :=
    {| geometry := geom;
       material := {| THREE.color := col; THREE.metalness := 0.3;
                      THREE.roughness := 0.4; THREE.emissive := 0%N;
                      THREE.emissiveIntensity := 1 |};
       position := pos;
       userData := {| id := k; type := ty; pickable := true;
                      velocity := THREE.Vec3 0 0 0; isStatic := false;
                      radius := rad; onFloor := false; size := None |} |} in
  ((k, mesh),
   {| objects := set k mesh (objects om); nextId := S (nextId om);
      attachedObject := attachedObject om; attachPoint := attachPoint om;
      gravity := gravity om |}).

(** [removeObject(id)] *)
Definition removeObject (k : string) (om : t) : t :=
  set_objects (filter (fun e => fst e <> k) (objects om)) om.

(** [clearAll()] *)
Definition clearAll (om : t) : t :=
  {| objects := []; nextId := nextId om; attachedObject := None;
     attachPoint := attachPoint om; gravity := gravity om |}.

(** The size the clamp test reads:
    [parameters.width || parameters.radius * 2 || 0.3]. *)
Definition objSize (obj : Mesh) : R :=
  JS.or_else (THREE.parameters_width (geometry obj))
    (JS.or_else ((fun r => r * 2) <$> THREE.parameters_radius (geometry obj))
       0.3).

(** The body of the loop of [checkClamping]; the state is
    [(closestObject, closestDistance)]. *)
Definition clampStep (om : t) (centerPos : THREE.Vector3) (gripperWidth : R)
    (best : option string * R) (e : string * Mesh) : option string * R :=
  if negb (pickable (userData (snd e))) then best
  else if isAttached om (fst e) then best
  else
    let distance := THREE.distanceTo centerPos (position (snd e)) in
    if decide (distance < snd best) then
      if decide (gripperWidth >= objSize (snd e) - 0.05 /\
                 gripperWidth <= objSize (snd e) + 0.2)
      then (Some (fst e), distance)
      else best
    else best.

(** [checkClamping(centerPos, gripperWidth, leftFingerPos, rightFingerPos)] *)
Definition checkClamping (centerPos : THREE.Vector3) (gripperWidth : R)
    (leftFingerPos rightFingerPos : THREE.Vector3) (om : t) : option string :=
  let best := fold_left (clampStep om centerPos gripperWidth) (objects om) (None, 1.0) in
  match fst best with
  | Some closestObject =>
      if decide (snd best < 0.3) then Some closestObject else None
  | None => None
  end.

(** [attachToGripper(object, attachPoint)] *)
Definition attachToGripper (object : option string) (point : SceneNode) (om : t)
  : bool * t :=
  match object with
  | None => (false, om)
  | Some k =>
      (true,
       set_objects (modify k (set_emissive 0xff6b35%N 0.3) (objects om))
         (set_attached (Some k) (Some point) om))
  end.

(** [releaseObject()] *)
Definition releaseObject (om : t) : t :=
  match attachedObject om with
  | Some k =>
      set_attached None None
        (set_objects
           (modify k
              (fun m =>
                 set_userData
                   (set_motion (THREE.Vec3 0 0 0) false (userData (set_emissive 0%N 0 m)))
                   (set_emissive 0%N 0 m))
              (objects om))
           om)
  | None => om
  end.

(** [updateAttachedObject(gripperWorldPosition)] *)
Definition updateAttachedObject (gripperWorldPosition : option THREE.Vector3)
    (om : t) : t :=
  match attachedObject om, gripperWorldPosition with
  | Some k, Some p =>
      set_objects
        (modify k (set_position (THREE.set_y p (THREE.y p + 0.3))) (objects om))
        om
  | _, _ => om
  end.

(** [getAllObjects()] *)
Definition getAllObjects (om : t) : list Mesh := snd <$> objects om.

(** The body of the loop of [checkPickup]. *)
Definition pickupStep (om : t) (gripperPosition : THREE.Vector3)
    (best : option string * R) (e : string * Mesh) : option string * R :=
  if negb (pickable (userData (snd e))) then best
  else if isAttached om (fst e) then best
  else
    let distance := THREE.distanceTo gripperPosition (position (snd e)) in
    if decide (distance < snd best) then (Some (fst e), distance) else best.

(** [checkPickup(gripperPosition, gripperAngle)], the legacy test. *)
Definition checkPickup (gripperPosition : THREE.Vector3) (gripperAngle : R)
    (om : t) : option string :=
  if decide (gripperAngle > 10) then None
  else
    let pickupRadius := 0.5 in
    fst (fold_left (pickupStep om gripperPosition) (objects om) (None, pickupRadius)).

(** An entry of the array [exportToJSON] returns. *)
Record ExportedObject : Type := {
  exported_id : string;
  exported_type : string;
  exported_position : list R;
  exported_color : string;
  exported_size : option R
}.

(** [exportToJSON()] *)
Definition exportToJSON (om : t) : list ExportedObject :=
  (fun e =>
     {| exported_id := fst e;
        exported_type := type (userData (snd e));
        exported_position := THREE.toArray (position (snd e));
        exported_color := "#" +:+ THREE.getHexString (THREE.color (material (snd e)));
        exported_size :=
          JS.or_value (THREE.parameters_width (geometry (snd e)))
            (THREE.parameters_radius (geometry (snd e))) |})
    <$> objects om.

(** [importFromJSON(data)]; [colorOf] is the value three.js reads from a
    colour string, and a size that is [undefined] takes the default 0.3 of
    [spawnObject]. *)
Definition importFromJSON (colorOf : string -> N) (data : list ExportedObject)
    (om : t) : t :=
  fold_left
    (fun om objData =>
       snd (spawnObject (exported_type objData)
              (THREE.fromArray (exported_position objData))
              (colorOf (exported_color objData))
              (default 0.3 (exported_size objData)) om))
    data (clearAll om).

End ObjectManager.

(** ** src/robotArm.js: the joint update *)
Module RobotArmSimulator.

Record Angles : Type := {
  base : R;
  shoulder : R;
  elbow : R;
  wristPitch : R;
  wristRoll : R;
  gripper : R
}.

(** The argument of [updateJoints]: an angle for each joint it names. *)
Record AngleUpdate : Type := {
  new_base : option R;
  new_shoulder : option R;
  new_elbow : option R;
  new_wristPitch : option R;
  new_wristRoll : option R;
  new_gripper : option R
}.

(** [{ ...this.angles, ...angles }] *)
Definition merge (a : Angles) (u : AngleUpdate) : Angles :=
  {| base := default (base a) (new_base u);
     shoulder := default (shoulder a) (new_shoulder u);
     elbow := default (elbow a) (new_elbow u);
     wristPitch := default (wristPitch a) (new_wristPitch u);
     wristRoll := default (wristRoll a) (new_wristRoll u);
     gripper := default (gripper a) (new_gripper u) |}.

(** What three.js computes from the scene graph once the rotations of the
    new angles are applied: [getGripperCenterPosition()] and the world
    positions of the two fingers. *)
Record Rig : Type := {
  gripperCenterPosition : THREE.Vector3;
  leftFingerWorldPosition : THREE.Vector3;
  rightFingerWorldPosition : THREE.Vector3
}.

Record t : Type := {
  angles : Angles;
  objectManager : option ObjectManager.t
}.

(** [currentGripperWidth] of [updateJoints], the value of [getGripperWidth()]. *)
Definition gripperWidth (a : Angles) : R :=
  let openDistance := THREE.degToRad (gripper a) * 0.4 in
  0.16 + openDistance * 2.

(** Step 2 of the object-manager block of [updateJoints]. *)
Definition pickUp (rig : Rig) (a : Angles) (om : ObjectManager.t) : ObjectManager.t :=
  match ObjectManager.attachedObject om with
  | None =>
      if decide (gripper a < 40 /\ gripper a > 0) then
        match ObjectManager.checkClamping (gripperCenterPosition rig) (gripperWidth a)
                (leftFingerWorldPosition rig) (rightFingerWorldPosition rig) om with
        | Some nearbyObject =>
            snd (ObjectManager.attachToGripper (Some nearbyObject)
                   ObjectManager.GripperBase om)
        | None => om
        end
      else om
  | Some _ => om
  end.

(** Step 3: [attachedObject.userData.size || 0.3] against the width. *)
Definition autoRelease (a : Angles) (om : ObjectManager.t) : ObjectManager.t :=
  match ObjectManager.attachedObject om with
  | Some k =>
      let objSize :=
        JS.or_else
          (ObjectManager.get k (ObjectManager.objects om)
             ≫= (fun m => ObjectManager.size (ObjectManager.userData m)))
          0.3 in
      if decide (gripperWidth a > objSize + 0.1)
      then ObjectManager.releaseObject om
      else om
  | None => om
  end.

(** [updateJoints(angles)]: the merge of the angles and the object-manager
    block; the rotations written to the scene graph are read back as [rig]. *)
Definition updateJoints (rig : Rig) (u : AngleUpdate) (s : t) : t :=
  let a := merge (angles s) u in
  {| angles := a;
     objectManager :=
       match objectManager s with
       | Some om =>
           let gripperPos := gripperCenterPosition rig in
           Some (ObjectManager.updateAttachedObject (Some gripperPos)
                   (autoRelease a (pickUp rig a om)))
       | None => None
       end |}.

(** [resetPosition()] *)
Definition resetPosition (rig : Rig) (s : t) : t :=
  updateJoints rig
    {| new_base := Some 0; new_shoulder := Some 0; new_elbow := Some 0;
       new_wristPitch := Some 0; new_wristRoll := Some 0; new_gripper := Some 0 |}
    s.

(** [clearObjects()] *)
Definition clearObjects (s : t) : t :=
  {| angles := angles s;
     objectManager := ObjectManager.clearAll <$> objectManager s |}.

(** [spawnTestObjects()]; the colours are '#ff6b35', '#ff4757', '#ffa502'. *)
Definition spawnTestObjects (s : t) : t :=
  {| angles := angles s;
     objectManager :=
       (fun om =>
          let om1 := snd (ObjectManager.spawnObject "cube" (THREE.Vec3 2 0.15 0)
                            0xff6b35%N 0.3 om) in
          let om2 := snd (ObjectManager.spawnObject "sphere" (THREE.Vec3 (-2) 0.2 1)
                            0xff4757%N 0.2 om1) in
          snd (ObjectManager.spawnObject "cube" (THREE.Vec3 0 0.15 (-2))
                 0xffa502%N 0.3 om2))
         <$> objectManager s |}.

End RobotArmSimulator.

(** ** src/storage.js: the progress store *)
Module Storage.

Record Progress : Type := {
  unlockedLevels : list Z;
  completedLevels : list Z;
  levelStars : gmap Z Z;
  levelBestTimes : gmap Z R
}.

Record Preferences : Type := {
  soundEnabled : bool;
  musicEnabled : bool;
  difficulty : string
}.

(** The stored record; animations and scenes are kept as their JSON text,
    [lastUpdated] is left out. *)
Record Data : Type := {
  version : string;
  progress : Progress;
  animations : list string;
  sandboxScenes : list string;
  preferences : Preferences
}.

(** The item of [localStorage] under the storage key, parsed: [None] when
    there is none or it is no JSON. *)
Definition LocalStorage : Type := option Data.

Definition this_version : string := "1.0".

Definition getDefaultData : Data :=
  {| version := this_version;
     progress := {| unlockedLevels := [0%Z]; completedLevels := [];
                    levelStars := ∅; levelBestTimes := ∅ |};
     animations := [];
     sandboxScenes := [];
     preferences := {| soundEnabled := true; musicEnabled := true;
                       difficulty := "normal" |} |}.

(** [loadAll()] *)
Definition loadAll (ls : LocalStorage) : Data :=
  match ls with
  | Some parsed =>
      if decide (version parsed = this_version) then parsed else getDefaultData
  | None => getDefaultData
  end.

(** [saveAll(data)]; [writable] is false when [setItem] throws.  The
    [lastUpdated] stamp that the source renews on every save is not part
    of [Data]. *)
Definition saveAll (writable : bool) (data : Data) (ls : LocalStorage)
  : bool * LocalStorage :=
  if writable then
    (true,
     Some {| version := this_version; progress := progress data;
             animations := animations data; sandboxScenes := sandboxScenes data;
             preferences := preferences data |})
  else (false, ls).

(** [a < b] and [a > b] where [a] may be [undefined]: false then. *)
Definition ltZ (a : option Z) (b : Z) : bool :=
  match a with Some v => bool_decide (v < b)%Z | None => false end.

Definition gtR (a : option R) (b : R) : bool :=
  match a with Some v => bool_decide (v > b) | None => false end.

(** [list.includes(x) ? list : list.push(x)] *)
Definition pushNew (x : Z) (l : list Z) : list Z :=
  if decide (x ∈ l) then l else l ++ [x].

(** [saveProgress(levelId, stars, time)]: returns [data.progress] and the
    new content of the store. *)
Definition saveProgress (writable : bool) (levelId stars : Z) (time : R)
    (ls : LocalStorage) : Progress * LocalStorage :=
  let data := loadAll ls in
  let p := progress data in
  let levelStars' :=
    if JS.falsyZ (levelStars p !! levelId) || ltZ (levelStars p !! levelId) stars
    then <[levelId := stars]> (levelStars p) else levelStars p in
  let levelBestTimes' :=
    if JS.falsy (levelBestTimes p !! levelId) || gtR (levelBestTimes p !! levelId) time
    then <[levelId := time]> (levelBestTimes p) else levelBestTimes p in
  let completedLevels' := pushNew levelId (completedLevels p) in
  let nextLevelId := (levelId + 1)%Z in
  let unlockedLevels' :=
    if decide (nextLevelId <= 10)%Z then pushNew nextLevelId (unlockedLevels p)
    else unlockedLevels p in
  let p' := {| unlockedLevels := unlockedLevels'; completedLevels := completedLevels';
               levelStars := levelStars'; levelBestTimes := levelBestTimes' |} in
  let data' := {| version := version data; progress := p';
                  animations := animations data;
                  sandboxScenes := sandboxScenes data;
                  preferences := preferences data |} in
  (p', snd (saveAll writable data' ls)).

(** [loadProgress()] *)
Definition loadProgress (ls : LocalStorage) : Progress := progress (loadAll ls).

(** What [importAll] is given, parsed: the two properties it tests may be
    missing, the others are taken as present. *)
Record ImportData : Type := {
  import_version : option string;
  import_progress : option Progress;
  import_animations : list string;
  import_sandboxScenes : list string;
  import_preferences : Preferences
}.

(** [importAll(jsonData)]; [jsonData] is [None] when it is a string that is
    no JSON.  The result of [saveAll] is not looked at. *)
Definition importAll (writable : bool) (jsonData : option ImportData)
    (ls : LocalStorage) : bool * LocalStorage :=
  match jsonData with
  | Some data =>
      match import_version data, import_progress data with
      | Some v, Some p =>
          if decide (v = "") then (false, ls)
          else
            (true,
             snd (saveAll writable
                    {| version := v; progress := p;
                       animations := import_animations data;
                       sandboxScenes := import_sandboxScenes data;
                       preferences := import_preferences data |}
                    ls))
      | _, _ => (false, ls)
      end
  | None => (false, ls)
  end.

(** The replacement or the push of [saveAnimation]: [nameOf] reads the
    [name] of a stored entry; the entry at the first index with the name is
    replaced, and without such an index the entry goes last. *)
Fixpoint upsert (nameOf : string -> string) (name entry : string) (l : list string)
  : list string :=
  match l with
  | [] => [entry]
  | a :: l' =>
      if decide (nameOf a = name) then entry :: l'
      else a :: upsert nameOf name entry l'
  end.

(** [saveAnimation(name, animationData)]; [animation] is the entry
    [{ name, data, created }] the function builds. *)
Definition saveAnimation (nameOf : string -> string) (writable : bool)
    (name animation : string) (ls : LocalStorage) : bool * LocalStorage :=
  let data := loadAll ls in
  (true,
   snd (saveAll writable
          {| version := version data; progress := progress data;
             animations := upsert nameOf name animation (animations data);
             sandboxScenes := sandboxScenes data;
             preferences := preferences data |}
          ls)).

(** [loadAnimations()] *)
Definition loadAnimations (ls : LocalStorage) : list string := animations (loadAll ls).

(** [deleteAnimation(name)] *)
Definition deleteAnimation (nameOf : string -> string) (writable : bool)
    (name : string) (ls : LocalStorage) : LocalStorage :=
  let data := loadAll ls in
  snd (saveAll writable
         {| version := version data; progress := progress data;
            animations := filter (fun a => nameOf a <> name) (animations data);
            sandboxScenes := sandboxScenes data;
            preferences := preferences data |}
         ls).

(** [resetAll()]: the default data, and the store without the item. *)
Definition resetAll (ls : LocalStorage) : Data * LocalStorage :=
  (getDefaultData, None).

End Storage.

(** ** src/storage.js: the level manager *)
Module LevelManager.

(** An entry of a level's [objects]; the colour is the value three.js reads
    from the colour string. *)
Record ObjectData : Type := {
  object_type : string;
  object_position : THREE.Vector3;
  object_color : N;
  object_size : R
}.

(** An entry of a level's [targets]. *)
Record TargetData : Type := {
  position : THREE.Vector3;
  size : R;
  accepts : option (list string);
  requiredColor : option string;
  stackable : option bool
}.

(** [stars: { time: [t0, t1, t2] }] *)
Record StarData : Type := { time : option (list R) }.

(** A level of the table of levels ([LevelData.LEVELS] below; [loadLevel]
    takes the entry found).
    The name, description, difficulty and obstacles have no part in the
    evaluation and are left out. *)
Record Level : Type := {
  id : Z;
  objects : list ObjectData;
  targets : list TargetData;
  timeLimit : option R;
  stars : option StarData
}.

(** A target mesh: its position and its [userData] (the target's entry and
    its index). *)
Record TargetMesh : Type := {
  mesh_position : THREE.Vector3;
  targetIndex : nat;
  userData : TargetData
}.

(** An entry of [targetStates]; [object] is a reference to a mesh. *)
Record TargetState : Type := {
  filled : bool;
  object : option string
}.

Record t : Type := {
  currentLevel : option Level;
  levelStartTime : R;
  elapsedTime : R;
  isActive : bool;
  targetMeshes : list TargetMesh;
  targetStates : list TargetState
}.

Definition constructor : t :=
  {| currentLevel := None; levelStartTime := 0; elapsedTime := 0;
     isActive := false; targetMeshes := []; targetStates := [] |}.

(** The frame result of [update]. *)
Inductive FrameResult : Type :=
| playing (time : R)
| completed (time : R) (stars : Z)
| failed (reason : string).

Definition set_elapsedTime (e : R) (lm : t) : t :=
  {| currentLevel := currentLevel lm; levelStartTime := levelStartTime lm;
     elapsedTime := e; isActive := isActive lm;
     targetMeshes := targetMeshes lm; targetStates := targetStates lm |}.

Definition set_targetStates (s : list TargetState) (lm : t) : t :=
  {| currentLevel := currentLevel lm; levelStartTime := levelStartTime lm;
     elapsedTime := elapsedTime lm; isActive := isActive lm;
     targetMeshes := targetMeshes lm; targetStates := s |}.

(** [createTarget(targetData, index)]: one more mesh and one more state. *)
Definition createTarget (targetData : TargetData) (index : nat) (lm : t) : t :=
  {| currentLevel := currentLevel lm; levelStartTime := levelStartTime lm;
     elapsedTime := elapsedTime lm; isActive := isActive lm;
     targetMeshes :=
       targetMeshes lm ++
       [{| mesh_position := position targetData; targetIndex := index;
           userData := targetData |}];
     targetStates := targetStates lm ++ [{| filled := false; object := None |}] |}.

(** [levelData.targets.forEach((target, index) => this.createTarget(target, index))] *)
Fixpoint createTargets (l : list TargetData) (index : nat) (lm : t) : t :=
  match l with
  | [] => lm
  | target :: l' => createTargets l' (S index) (createTarget target index lm)
  end.

(** [levelData.objects.forEach(obj => this.objectManager.spawnObject(...))] *)
Fixpoint spawnObjects (l : list ObjectData) (om : ObjectManager.t) : ObjectManager.t :=
  match l with
  | [] => om
  | obj :: l' =>
      spawnObjects l'
        (snd (ObjectManager.spawnObject (object_type obj) (object_position obj)
                (object_color obj) (object_size obj) om))
  end.

(** [loadLevel(levelId)], with [levelData] the entry [getLevelById(levelId)]
    finds and [now] the value of [performance.now()]. *)
Definition loadLevel (levelData : option Level) (now : R)
    (om : ObjectManager.t) (lm : t) : bool * ObjectManager.t * t :=
  match levelData with
  | None => (false, om, lm)
  | Some level =>
      (true,
       spawnObjects (objects level) (ObjectManager.clearAll om),
       createTargets (targets level) 0
         {| currentLevel := Some level; levelStartTime := now; elapsedTime := 0;
            isActive := true; targetMeshes := []; targetStates := [] |})
  end.

(** [String.prototype.toLowerCase] on the letters A to Z. *)
Definition lowerAscii (c : ascii) : ascii :=
  let n := Ascii.N_of_ascii c in
  if (65 <=? n)%N && (n <=? 90)%N then Ascii.ascii_of_N (n + 32) else c.

Fixpoint toLowerCase (s : string) : string :=
  match s with
  | EmptyString => EmptyString
  | String c s' => String (lowerAscii c) (toLowerCase s')
  end.

(** The tests of the inner loop of [updateTargetStates] for one object and
    one target: true when the target is given to the object, false when the
    loop goes on to the next target. *)
Definition fits (obj : ObjectManager.Mesh) (target : TargetMesh) : bool :=
  let distance := THREE.distanceTo (ObjectManager.position obj) (mesh_position target) in
  if decide (distance < size (userData target)) then
    match accepts (userData target) with
    | Some accepted =>
        if decide (ObjectManager.type (ObjectManager.userData obj) ∈ accepted) then
          match requiredColor (userData target) with
          | Some required =>
              if decide (required = "") then true
              else
                let objColor :=
                  "#" +:+ THREE.getHexString
                            (THREE.color (ObjectManager.material obj)) in
                if decide (toLowerCase objColor <> toLowerCase required)
                then false else true
          | None => true
          end
        else false
    | None => false
    end
  else false.

(** The inner loop, from index [i] on: the first target that fits is
    marked and ends the loop ([break]). *)
Fixpoint scanTargets (obj : ObjectManager.Mesh) (i : nat)
    (meshes : list TargetMesh) (states : list TargetState)
  : JS.completion (list TargetState) :=
  match meshes with
  | [] => JS.Normal states
  | target :: meshes' =>
      if fits obj target then
        match states !! i with
        | Some _ =>
            JS.Normal
              (<[i := {| filled := true;
                         object := Some (ObjectManager.id (ObjectManager.userData obj)) |}]>
                 states)
        | None => JS.TypeError
        end
      else scanTargets obj (S i) meshes' states
  end.

(** [objects.forEach(obj => ...)] *)
Fixpoint scanObjects (objs : list ObjectManager.Mesh) (meshes : list TargetMesh)
    (states : list TargetState) : JS.completion (list TargetState) :=
  match objs with
  | [] => JS.Normal states
  | obj :: objs' =>
      states' ← scanTargets obj 0 meshes states;
      scanObjects objs' meshes states'
  end.

(** [updateTargetStates()] *)
Definition updateTargetStates (om : ObjectManager.t) (lm : t) : JS.completion t :=
  let objs := ObjectManager.getAllObjects om in
  let reset := (fun _ => {| filled := false; object := None |}) <$> targetStates lm in
  states ← scanObjects objs (targetMeshes lm) reset;
  JS.Normal (set_targetStates states lm).

(** The loop of [checkWinCondition] over the indices of [targetMeshes],
    from [i] on. *)
Fixpoint allFilled (i : nat) (meshes : list TargetMesh) (states : list TargetState)
  : JS.completion bool :=
  match meshes with
  | [] => JS.Normal true
  | _ :: meshes' =>
      match states !! i with
      | Some state => if filled state then allFilled (S i) meshes' states
                      else JS.Normal false
      | None => JS.TypeError
      end
  end.

(** [checkWinCondition()] *)
Definition checkWinCondition (om : ObjectManager.t) (lm : t)
  : JS.completion (bool * t) :=
  match currentLevel lm with
  | None => JS.Normal (false, lm)
  | Some _ =>
      lm' ← updateTargetStates om lm;
      win ← allFilled 0 (targetMeshes lm') (targetStates lm');
      JS.Normal (win, lm')
  end.

(** [a <= b] and [a > b] where [b] may be [undefined]: false then. *)
Definition leR (a : R) (b : option R) : bool :=
  match b with Some v => bool_decide (a <= v) | None => false end.

Definition gtR (a : R) (b : option R) : bool :=
  match b with Some v => bool_decide (a > v) | None => false end.

(** [calculateStars()] *)
Definition calculateStars (lm : t) : Z :=
  match currentLevel lm with
  | None => 1
  | Some level =>
      match stars level with
      | None => 1
      | Some starData =>
          match time starData with
          | None => 1
          | Some thresholds =>
              if leR (elapsedTime lm) (thresholds !! 0%nat) then 3
              else if leR (elapsedTime lm) (thresholds !! 1%nat) then 2
              else if leR (elapsedTime lm) (thresholds !! 2%nat) then 1
              else 1
          end
      end
  end%Z.

(** [update()], with [now] the value of [performance.now()]: the result
    ([None] is [null]) and the manager after the call. *)
Definition update (now : R) (om : ObjectManager.t) (lm : t)
  : JS.completion (option FrameResult * t) :=
  match isActive lm, currentLevel lm with
  | true, Some level =>
      let lm1 := set_elapsedTime ((now - levelStartTime lm) / 1000) lm in
      if negb (JS.falsy (timeLimit level)) && gtR (elapsedTime lm1) (timeLimit level)
      then JS.Normal (Some (failed "timeout"), lm1)
      else
        '(win, lm2) ← checkWinCondition om lm1;
        if win : bool
        then JS.Normal (Some (completed (elapsedTime lm2) (calculateStars lm2)), lm2)
        else JS.Normal (Some (playing (elapsedTime lm2)), lm2)
  | _, _ => JS.Normal (None, lm)
  end.

(** [completeLevel()]: the summary ([None] when no level is loaded), the
    store and the manager after the call. *)
Definition completeLevel (writable : bool) (ls : Storage.LocalStorage) (lm : t)
  : option (Z * Z * R) * Storage.LocalStorage * t :=
  match currentLevel lm with
  | None => (None, ls, lm)
  | Some level =>
      let stars := calculateStars lm in
      let levelId := id level in
      (Some (levelId, stars, elapsedTime lm),
       snd (Storage.saveProgress writable levelId stars (elapsedTime lm) ls),
       {| currentLevel := currentLevel lm; levelStartTime := levelStartTime lm;
          elapsedTime := elapsedTime lm; isActive := false;
          targetMeshes := targetMeshes lm; targetStates := targetStates lm |})
  end.

(** [clearTargets()] *)
Definition clearTargets (lm : t) : t :=
  {| currentLevel := currentLevel lm; levelStartTime := levelStartTime lm;
     elapsedTime := elapsedTime lm; isActive := isActive lm;
     targetMeshes := []; targetStates := [] |}.

(** [exitLevel()] *)
Definition exitLevel (om : ObjectManager.t) (lm : t) : ObjectManager.t * t :=
  (ObjectManager.clearAll om,
   clearTargets
     {| currentLevel := None; levelStartTime := levelStartTime lm;
        elapsedTime := elapsedTime lm; isActive := false;
        targetMeshes := targetMeshes lm; targetStates := targetStates lm |}).

End LevelManager.

(** ** The level data (at the end of src/backgroundEffects.js) *)
Module LevelData.

(** An entry of [objects] and an entry of [targets], as the table writes
    them; the colour of a target zone is a matter of display and left out. *)
Definition item (ty : string) (px py pz : R) (col : N) (sz : R)
  : LevelManager.ObjectData :=
  {| LevelManager.object_type := ty;
     LevelManager.object_position := THREE.Vec3 px py pz;
     LevelManager.object_color := col; LevelManager.object_size := sz |}.

Definition zone (px py pz sz : R) (accepted : list string)
    (required : option string) (stack : option bool) : LevelManager.TargetData :=
  {| LevelManager.position := THREE.Vec3 px py pz; LevelManager.size := sz;
     LevelManager.accepts := Some accepted;
     LevelManager.requiredColor := required; LevelManager.stackable := stack |}.

Definition level (n : Z) (objs : list LevelManager.ObjectData)
    (zones : list LevelManager.TargetData) (limit : option R)
    (thresholds : option (list R)) : LevelManager.Level :=
  {| LevelManager.id := n; LevelManager.objects := objs;
     LevelManager.targets := zones; LevelManager.timeLimit := limit;
     LevelManager.stars :=
       (fun l => {| LevelManager.time := Some l |}) <$> thresholds |}.

(** [LEVELS]: the tutorial and the ten levels. *)
Definition LEVELS : list LevelManager.Level :=
  [ level 0
      [item "cube" 2 0.15 0 0xff6b35 0.3]
      [zone (-2) 0.15 0 0.5 ["cube"] None None]
      None None;
    level 1
      [item "cube" 1.5 0.15 1 0xff6b35 0.3]
      [zone (-1.5) 0.15 (-1) 0.5 ["cube"] None None]
      (Some 120) (Some [60; 90; 120]);
    level 2
      [item "cube" 2 0.15 0 0xff6b35 0.3; item "cube" 2 0.15 2 0xff4757 0.3]
      [zone (-2) 0.15 0 0.5 ["cube"] None None;
       zone (-2) 0.15 2 0.5 ["cube"] None None]
      (Some 180) (Some [90; 130; 180]);
    level 3
      [item "sphere" 2.5 0.2 0 0xffa502 0.2]
      [zone (-2.5) 0.2 0 0.3 ["sphere"] None None]
      (Some 90) (Some [45; 65; 90]);
    level 4
      [item "cube" 1 0.15 1 0xff6b35 0.3; item "cube" 2 0.15 (-1) 0xff4757 0.3;
       item "cube" 1.5 0.15 0 0xff6b35 0.3]
      [zone (-2) 0.15 1 0.5 ["cube"] (Some "#ff6b35") None;
       zone (-1) 0.15 1 0.5 ["cube"] (Some "#ff6b35") None;
       zone (-2) 0.15 (-1) 0.5 ["cube"] (Some "#ff4757") None]
      (Some 200) (Some [100; 150; 200]);
    level 5
      [item "cube" 2 0.15 1 0xff6b35 0.3; item "sphere" 2 0.2 (-1) 0xff4757 0.2;
       item "cube" 2 0.15 0 0xffa502 0.3; item "sphere" 1 0.2 0 0xff6348 0.2]
      [zone (-2) 0.15 1 0.5 ["cube"] None None;
       zone (-2) 0.15 0 0.5 ["cube"] None None;
       zone (-2) 0.2 (-1) 0.4 ["sphere"] None None;
       zone (-1) 0.2 (-1) 0.4 ["sphere"] None None]
      (Some 240) (Some [120; 180; 240]);
    level 6
      [item "cube" 2 0.15 0 0xff6b35 0.3; item "cube" 2 0.15 1 0xff4757 0.3;
       item "cube" 2 0.15 (-1) 0xffa502 0.3]
      [zone (-2) 0.15 0 0.5 ["cube"] None (Some true);
       zone (-2) 0.45 0 0.5 ["cube"] None (Some true);
       zone (-2) 0.75 0 0.5 ["cube"] None (Some true)]
      (Some 300) (Some [150; 225; 300]);
    level 7
      [item "cube" 3 0.15 0 0xff6b35 0.3]
      [zone (-3) 0.15 0 0.5 ["cube"] None None]
      (Some 180) (Some [90; 135; 180]);
    level 8
      [item "cube" 2.5 0.15 1.5 0xff6b35 0.3; item "sphere" 2.5 0.2 (-1.5) 0xff4757 0.2;
       item "cube" 1.5 0.15 0 0xff6b35 0.3; item "sphere" 2 0.2 1 0xff4757 0.2]
      [zone (-2) 0.15 1 0.5 ["cube"] None None;
       zone (-2) 0.15 0 0.5 ["cube"] None None;
       zone (-2) 0.2 (-1) 0.4 ["sphere"] None None;
       zone (-1) 0.2 (-1) 0.4 ["sphere"] None None]
      (Some 120) (Some [60; 90; 120]);
    level 9
      [item "cube" 2 0.15 2 0xff6b35 0.3; item "sphere" 2 0.2 1 0xff6b35 0.2;
       item "cube" 2 0.15 0 0xff4757 0.3; item "sphere" 2 0.2 (-1) 0xff4757 0.2;
       item "cube" 2 0.15 (-2) 0xffa502 0.3]
      [zone (-2) 0.15 2 0.5 ["cube"] (Some "#ff6b35") None;
       zone (-2) 0.2 1 0.4 ["sphere"] (Some "#ff6b35") None;
       zone (-2) 0.15 0 0.5 ["cube"] (Some "#ff4757") None;
       zone (-2) 0.2 (-1) 0.4 ["sphere"] (Some "#ff4757") None;
       zone (-2) 0.15 (-2) 0.5 ["cube"] (Some "#ffa502") None]
      (Some 300) (Some [150; 225; 300]);
    level 10
      [item "cube" 3 0.15 2 0xff6b35 0.3; item "sphere" 3 0.2 1 0xff4757 0.2;
       item "cube" 3 0.15 0 0xffa502 0.3; item "sphere" 3 0.2 (-1) 0xff6348 0.2;
       item "cube" 3 0.15 (-2) 0xff6b35 0.3; item "sphere" 2 0.2 0 0xff4757 0.2]
      [zone (-3) 0.15 1 0.5 ["cube"] (Some "#ff6b35") (Some true);
       zone (-3) 0.45 1 0.5 ["cube"] (Some "#ff6b35") (Some true);
       zone (-3) 0.15 0 0.5 ["cube"] (Some "#ffa502") None;
       zone (-3) 0.2 (-1) 0.4 ["sphere"] (Some "#ff4757") None;
       zone (-2) 0.2 (-1) 0.4 ["sphere"] (Some "#ff4757") None;
       zone (-3) 0.2 (-2) 0.4 ["sphere"] (Some "#ff6348") None]
      (Some 360) (Some [180; 270; 360]) ].

(** [getLevelById(id)]: the first level with that id, [None] for [undefined]. *)
Definition getLevelById (n : Z) : option LevelManager.Level :=
  List.find (fun l => bool_decide (LevelManager.id l = n)) LEVELS.

(** [getTotalLevels()] *)
Definition getTotalLevels : nat := List.length LEVELS.

(** [LevelManager.loadLevel(levelId)] as the source calls it, through
    [getLevelById]. *)
Definition loadLevel (levelId : Z) (now : R) (om : ObjectManager.t)
    (lm : LevelManager.t) : bool * ObjectManager.t * LevelManager.t :=
  LevelManager.loadLevel (getLevelById levelId) now om lm.

End LevelData.

(** ** src/robotArm.js: the frame loop *)
Module Simulator.

(** The parts of the simulator a frame works on: the one object manager
    that the simulator and its level manager share, the level manager and
    the store. *)
Record t : Type := {
  objectManager : ObjectManager.t;
  levelManager : LevelManager.t;
  storage : Storage.LocalStorage
}.

(** One call of [animate()] on an active simulator: the physics pass with
    the fixed step 0.016 and the colliders [getColliders()] returns, then
    the level manager; rendering is left out. *)
Definition animate (now : R) (armColliders : list ObjectManager.Collider)
    (writable : bool) (w : t) : JS.completion t :=
  let om := ObjectManager.update 0.016 armColliders (objectManager w) in
  if LevelManager.isActive (levelManager w) then
    '(levelStatus, lm) ← LevelManager.update now om (levelManager w);
    match levelStatus with
    | Some (LevelManager.completed _ _) =>
        JS.Normal
          {| objectManager := om;
             levelManager := snd (LevelManager.completeLevel writable (storage w) lm);
             storage := snd (fst (LevelManager.completeLevel writable (storage w) lm)) |}
    | _ => JS.Normal {| objectManager := om; levelManager := lm; storage := storage w |}
    end
  else
    JS.Normal
      {| objectManager := om; levelManager := levelManager w; storage := storage w |}.

End Simulator.

(** ** src/backgroundEffects.js: the particles *)
Module BackgroundEffects.




End BackgroundEffects.

(** ** Notions the properties below are stated with *)
Module Props.

(** Any number of physics steps with no arm colliders, one elapsed time
    per step. *)
Definition steps (dts : list R) (om : ObjectManager.t) : ObjectManager.t :=
  fold_left (fun om dt => ObjectManager.update dt [] om) dts om.

(** The keys of the registry are pairwise distinct, as the keys of a [Map]
    are, and every mesh is stored under its own id. *)
Definition wf (om : ObjectManager.t) : Prop :=
  NoDup (fst <$> ObjectManager.objects om) /\
  Forall (fun e => ObjectManager.id (ObjectManager.userData (snd e)) = fst e)
    (ObjectManager.objects om).

(** The ids the counter has not reached are not in use. *)
Definition fresh (om : ObjectManager.t) : Prop :=
  forall n : nat, (ObjectManager.nextId om <= n)%nat ->
    "obj_" +:+ pretty n ∉ fst <$> ObjectManager.objects om.

(** No object is recorded for two targets. *)
Definition exclusive (states : list LevelManager.TargetState) : Prop :=
  forall (i j : nat) (si sj : LevelManager.TargetState) (k : string),
    states !! i = Some si -> states !! j = Some sj ->
    LevelManager.object si = Some k -> LevelManager.object sj = Some k -> i = j.

(** Every object recorded for a target is one of [seen]. *)
Definition recorded (states : list LevelManager.TargetState) (seen : list string) : Prop :=
  forall (i : nat) (si : LevelManager.TargetState) (k : string),
    states !! i = Some si -> LevelManager.object si = Some k -> k ∈ seen.

(** A target marked filled names the object that fills it. *)
Definition attributed (states : list LevelManager.TargetState) : Prop :=
  forall (i : nat) (si : LevelManager.TargetState),
    states !! i = Some si -> LevelManager.filled si = true ->
    exists k, LevelManager.object si = Some k.

(** The ids of a list of meshes. *)
Definition ids (objs : list ObjectManager.Mesh) : list string :=
  (fun m => ObjectManager.id (ObjectManager.userData m)) <$> objs.

(** An entry of the registry passes the tests of [checkClamping] that do
    not look at the distance. *)
Definition clampable (om : ObjectManager.t) (gw : R) (e : string * ObjectManager.Mesh)
  : Prop :=
  ObjectManager.pickable (ObjectManager.userData (snd e)) = true /\
  ObjectManager.isAttached om (fst e) = false /\
  ObjectManager.objSize (snd e) - 0.05 <= gw <= ObjectManager.objSize (snd e) + 0.2.

(** An entry of the registry is pickable and not held. *)
Definition loose (om : ObjectManager.t) (e : string * ObjectManager.Mesh) : Prop :=
  ObjectManager.pickable (ObjectManager.userData (snd e)) = true /\
  ObjectManager.isAttached om (fst e) = false.

(** No mesh of the registry has a [userData.size]. *)
Definition unsized (om : ObjectManager.t) : Prop :=
  Forall (fun e => ObjectManager.size (ObjectManager.userData (snd e)) = None)
    (ObjectManager.objects om).

(** What every manager built by the methods of [ObjectManager] satisfies:
    the registry is a map from ids to their meshes, the counter is ahead of
    every id in use, gravity has the value the constructor gave it and no
    mesh has a [userData.size]. *)
Definition sound (om : ObjectManager.t) : Prop :=
  wf om /\ fresh om /\ ObjectManager.gravity om = -9.8 /\ unsized om.

(** The managers the methods of [ObjectManager] build from a new one. *)
Inductive reachable : ObjectManager.t -> Prop :=
| reach_constructor : reachable ObjectManager.constructor
| reach_spawnObject ty p col sz om :
    reachable om -> reachable (snd (ObjectManager.spawnObject ty p col sz om))
| reach_removeObject k om :
    reachable om -> reachable (ObjectManager.removeObject k om)
| reach_clearAll om :
    reachable om -> reachable (ObjectManager.clearAll om)
| reach_update dt cs om :
    reachable om -> reachable (ObjectManager.update dt cs om)
| reach_attachToGripper k point om :
    reachable om ->
    reachable (snd (ObjectManager.attachToGripper (Some k) point om))
| reach_releaseObject om :
    reachable om -> reachable (ObjectManager.releaseObject om)
| reach_updateAttachedObject p om :
    reachable om -> reachable (ObjectManager.updateAttachedObject p om)
| reach_importFromJSON colorOf data om :
    reachable om -> reachable (ObjectManager.importFromJSON colorOf data om).

(** The mesh [spawnObject] makes when the counter of ids is at [n]. *)
Definition spawned (n : nat) (ty : string) (p : THREE.Vector3) (col : N) (sz : R)
  : ObjectManager.Mesh :=
  snd (fst (ObjectManager.spawnObject ty p col sz
              {| ObjectManager.objects := []; ObjectManager.nextId := n;
                 ObjectManager.attachedObject := None;
                 ObjectManager.attachPoint := None;
                 ObjectManager.gravity := -9.8 |})).

(** What [importFromJSON] makes, with the counter of ids at [n], of the
    entry [exportToJSON] writes for [e]. *)
Definition reimported (colorOf : string -> N) (n : nat)
    (e : string * ObjectManager.Mesh) : string * ObjectManager.Mesh :=
  ("obj_" +:+ pretty n,
   spawned n (ObjectManager.type (ObjectManager.userData (snd e)))
     (ObjectManager.position (snd e))
     (colorOf ("#" +:+ THREE.getHexString
                 (THREE.color (ObjectManager.material (snd e)))))
     (default 0.3
        (JS.or_value (THREE.parameters_width (ObjectManager.geometry (snd e)))
           (THREE.parameters_radius (ObjectManager.geometry (snd e)))))).

(** The store after a sequence of [saveProgress] calls, each with its
    level, stars and time and with whether the write succeeds, from an
    empty [localStorage]. *)
Definition saves (calls : list (bool * Z * Z * R)) : Storage.LocalStorage :=
  fold_left
    (fun ls '(writable, levelId, stars, time) =>
       snd (Storage.saveProgress writable levelId stars time ls))
    calls None.



(** The unlocked levels are level 0 and the successors, up to 10, of the
    completed levels, and neither list has a level twice. *)
Definition unlocked_by_completion (p : Storage.Progress) : Prop :=
  (forall x, x ∈ Storage.unlockedLevels p
             <-> x = 0%Z \/
                 exists c, c ∈ Storage.completedLevels p /\ x = (c + 1)%Z /\ (x <= 10)%Z) /\
  NoDup (Storage.unlockedLevels p) /\ NoDup (Storage.completedLevels p).

(** Target [i] is the first of [meshes] that [obj] fits. *)
Definition first_fit (obj : ObjectManager.Mesh) (meshes : list LevelManager.TargetMesh)
    (i : nat) : Prop :=
  exists target,
    meshes !! i = Some target /\ LevelManager.fits obj target = true /\
    forall j tj, (j < i)%nat -> meshes !! j = Some tj -> LevelManager.fits obj tj = false.

(** A run of frames, each with its time stamp and the colliders of the
    arm in that frame. *)
Fixpoint frames (writable : bool) (fs : list (R * list ObjectManager.Collider))
    (w : Simulator.t) : JS.completion Simulator.t :=
  match fs with
  | [] => JS.Normal w
  | (now, armColliders) :: fs' =>
      w' ← Simulator.animate now armColliders writable w;
      frames writable fs' w'
  end.

(** Two meshes differ at most in position, velocity and floor flag. *)
Definition same_body (m m' : ObjectManager.Mesh) : Prop :=
  ObjectManager.geometry m' = ObjectManager.geometry m /\
  ObjectManager.material m' = ObjectManager.material m /\
  ObjectManager.id (ObjectManager.userData m') = ObjectManager.id (ObjectManager.userData m) /\
  ObjectManager.type (ObjectManager.userData m')
    = ObjectManager.type (ObjectManager.userData m) /\
  ObjectManager.pickable (ObjectManager.userData m')
    = ObjectManager.pickable (ObjectManager.userData m) /\
  ObjectManager.isStatic (ObjectManager.userData m')
    = ObjectManager.isStatic (ObjectManager.userData m) /\
  ObjectManager.radius (ObjectManager.userData m')
    = ObjectManager.radius (ObjectManager.userData m) /\
  ObjectManager.size (ObjectManager.userData m')
    = ObjectManager.size (ObjectManager.userData m).

End Props.

(** ** States used as concrete inputs *)
Module Examples.

Definition orange : N := 0xff6b35.

(** The first mesh [spawnObject] makes on a fresh manager, of type [ty]
    with geometry [geom], at [p], of size [s]. *)
Definition firstMesh (ty : string) (geom : THREE.Geometry) (p : THREE.Vector3)
    (s : R) : ObjectManager.Mesh :=
  {| ObjectManager.geometry := geom;
     ObjectManager.material :=
       {| THREE.color := orange; THREE.metalness := 0.3; THREE.roughness := 0.4;
          THREE.emissive := 0%N; THREE.emissiveIntensity := 1 |};
     ObjectManager.position := p;
     ObjectManager.userData :=
       {| ObjectManager.id := "obj_1"; ObjectManager.type := ty;
          ObjectManager.pickable := true;
          ObjectManager.velocity := THREE.Vec3 0 0 0;
          ObjectManager.isStatic := false; ObjectManager.radius := s / 2;
          ObjectManager.onFloor := false; ObjectManager.size := None |} |}.

Definition cube (p : THREE.Vector3) (s : R) : ObjectManager.Mesh :=
  firstMesh "cube" (THREE.BoxGeometry s s s) p s.

Definition sphere (p : THREE.Vector3) (s : R) : ObjectManager.Mesh :=
  firstMesh "sphere" (THREE.SphereGeometry (s / 2) 32 32) p s.

(** A manager that holds the one mesh [m], nothing attached. *)
Definition holding (m : ObjectManager.Mesh) : ObjectManager.t :=
  {| ObjectManager.objects := [("obj_1", m)]; ObjectManager.nextId := 2;
     ObjectManager.attachedObject := None; ObjectManager.attachPoint := None;
     ObjectManager.gravity := -9.8 |}.

(** The same with the mesh in the gripper. *)
Definition gripping (m : ObjectManager.Mesh) : ObjectManager.t :=
  {| ObjectManager.objects := [("obj_1", m)]; ObjectManager.nextId := 2;
     ObjectManager.attachedObject := Some "obj_1";
     ObjectManager.attachPoint := Some ObjectManager.GripperBase;
     ObjectManager.gravity := -9.8 |}.

(** The gripper centre at the origin. *)
Definition rig0 : RobotArmSimulator.Rig :=
  {| RobotArmSimulator.gripperCenterPosition := THREE.Vec3 0 0 0;
     RobotArmSimulator.leftFingerWorldPosition := THREE.Vec3 (-0.2) 0 0;
     RobotArmSimulator.rightFingerWorldPosition := THREE.Vec3 0.2 0 0 |}.

Definition angles0 : RobotArmSimulator.Angles :=
  {| RobotArmSimulator.base := 0; RobotArmSimulator.shoulder := 0;
     RobotArmSimulator.elbow := 0; RobotArmSimulator.wristPitch := 0;
     RobotArmSimulator.wristRoll := 0; RobotArmSimulator.gripper := 0 |}.

(** [updateJoints({ gripper: g })] *)
Definition gripperTo (g : R) : RobotArmSimulator.AngleUpdate :=
  {| RobotArmSimulator.new_base := None; RobotArmSimulator.new_shoulder := None;
     RobotArmSimulator.new_elbow := None; RobotArmSimulator.new_wristPitch := None;
     RobotArmSimulator.new_wristRoll := None; RobotArmSimulator.new_gripper := Some g |}.

Definition simulator (om : ObjectManager.t) : RobotArmSimulator.t :=
  {| RobotArmSimulator.angles := angles0; RobotArmSimulator.objectManager := Some om |}.

(** A cube of size 0.3 at [p] that the physics pass leaves alone. *)
Definition staticCube (p : THREE.Vector3) : ObjectManager.Mesh :=
  ObjectManager.set_userData
    {| ObjectManager.id := "obj_1"; ObjectManager.type := "cube";
       ObjectManager.pickable := true;
       ObjectManager.velocity := THREE.Vec3 0 0 0;
       ObjectManager.isStatic := true; ObjectManager.radius := 0.3 / 2;
       ObjectManager.onFloor := true; ObjectManager.size := None |}
    (cube p 0.3).

(** A collision sphere of the arm at the origin. *)
Definition armSphere : ObjectManager.Collider :=
  {| ObjectManager.collider_position := THREE.Vec3 0 0 0;
     ObjectManager.collider_radius := 0.8 |}.

(** A target that takes orange cubes within 0.5 of [p]. *)
Definition cubeTarget (p : THREE.Vector3) : LevelManager.TargetData :=
  {| LevelManager.position := p; LevelManager.size := 0.5;
     LevelManager.accepts := Some ["cube"];
     LevelManager.requiredColor := Some "#FF6B35";
     LevelManager.stackable := None |}.

(** A level of one cube and one target, with a limit of 180 seconds and
    the star thresholds 60, 90 and 120 seconds; the cube starts on the
    target. *)
Definition timedLevel : LevelManager.Level :=
  {| LevelManager.id := 1;
     LevelManager.objects :=
       [{| LevelManager.object_type := "cube";
           LevelManager.object_position := THREE.Vec3 0 0.15 0;
           LevelManager.object_color := orange;
           LevelManager.object_size := 0.3 |}];
     LevelManager.targets := [cubeTarget (THREE.Vec3 0 0.15 0)];
     LevelManager.timeLimit := Some 180;
     LevelManager.stars := Some {| LevelManager.time := Some [60; 90; 120] |} |}.

(** The manager [loadLevel] leaves for [timedLevel] loaded at time 0. *)
Definition timedManager : LevelManager.t :=
  {| LevelManager.currentLevel := Some timedLevel;
     LevelManager.levelStartTime := 0;
     LevelManager.elapsedTime := 0;
     LevelManager.isActive := true;
     LevelManager.targetMeshes :=
       [{| LevelManager.mesh_position := THREE.Vec3 0 0.15 0;
           LevelManager.targetIndex := 0;
           LevelManager.userData := cubeTarget (THREE.Vec3 0 0.15 0) |}];
     LevelManager.targetStates :=
       [{| LevelManager.filled := false; LevelManager.object := None |}] |}.

(** Two targets at the same place, one cube in both. *)
Definition twoTargets : LevelManager.t :=
  {| LevelManager.currentLevel := None;
     LevelManager.levelStartTime := 0;
     LevelManager.elapsedTime := 0;
     LevelManager.isActive := true;
     LevelManager.targetMeshes :=
       [{| LevelManager.mesh_position := THREE.Vec3 0 0.15 0;
           LevelManager.targetIndex := 0;
           LevelManager.userData := cubeTarget (THREE.Vec3 0 0.15 0) |};
        {| LevelManager.mesh_position := THREE.Vec3 0 0.15 0;
           LevelManager.targetIndex := 1;
           LevelManager.userData := cubeTarget (THREE.Vec3 0 0.15 0) |}];
     LevelManager.targetStates :=
       [{| LevelManager.filled := false; LevelManager.object := None |};
        {| LevelManager.filled := false; LevelManager.object := None |}] |}.

End Examples.

(** * Properties *)

(** ** Real arithmetic behind the vector operations *)

Lemma PI_bounds : 3 < PI <= 7 / 2.
Proof.
  split.
  - pose proof PI2_3_2. lra.
  - pose proof (PI_ineq 1) as [_ H].
    unfold sum_f_R0, tg_alt, PI_tg in H. simpl in H. lra.
Qed.

Lemma norm_divisor_pos (v : THREE.Vector3) :
  0 < JS.or_else (Some (THREE.length v)) 1.
Proof.
  unfold JS.or_else. case_decide; [lra|].
  pose proof (sqrt_pos (THREE.x v * THREE.x v + THREE.y v * THREE.y v
                        + THREE.z v * THREE.z v)).
  unfold THREE.length in *. lra.
Qed.

Lemma normalize_y_nonneg (v : THREE.Vector3) :
  0 <= THREE.y v -> 0 <= THREE.y (THREE.normalize v).
Proof.
  intros Hy. unfold THREE.normalize, THREE.divideScalar, THREE.multiplyScalar.
  cbn [THREE.y]. pose proof (norm_divisor_pos v) as Hpos.
  apply Rmult_le_pos; [assumption|].
  apply Rlt_le. unfold Rdiv. rewrite Rmult_1_l. now apply Rinv_0_lt_compat.
Qed.

Lemma distanceTo_self (p : THREE.Vector3) : THREE.distanceTo p p = 0.
Proof.
  unfold THREE.distanceTo, THREE.distanceToSquared. cbn zeta.
  replace (_ + _ + _) with 0 by ring. apply sqrt_0.
Qed.

Lemma distanceTo_along_x (a b h d : R) :
  b <= a -> THREE.distanceTo (THREE.Vec3 b h d) (THREE.Vec3 a h d) = a - b.
Proof.
  intros Hab. unfold THREE.distanceTo, THREE.distanceToSquared. cbn [THREE.x THREE.y THREE.z].
  replace (_ + _ + _) with ((a - b) * (a - b)) by ring.
  apply sqrt_square. lra.
Qed.

(** ** The physics pass *)

Lemma pushAway_keeps (obj : ObjectManager.Mesh) (c : ObjectManager.Collider) :
  ObjectManager.radius (ObjectManager.userData (ObjectManager.pushAway obj c))
    = ObjectManager.radius (ObjectManager.userData obj) /\
  THREE.y (ObjectManager.position obj)
    <= THREE.y (ObjectManager.position (ObjectManager.pushAway obj c)).
Proof.
  unfold ObjectManager.pushAway. cbn zeta.
  destruct (decide (_ < _)) as [Hd|Hd]; [|split; [reflexivity|lra]].
  split; [reflexivity|]. cbn [ObjectManager.position ObjectManager.set_userData
    ObjectManager.set_position THREE.addScaledVector THREE.y].
  match goal with |- _ <= _ + THREE.y (THREE.normalize ?d) * _ =>
    assert (0 <= THREE.y (THREE.normalize d)) as Hn
  end.
  { apply normalize_y_nonneg. case_decide; cbn [THREE.set_y THREE.y]; lra. }
  nra.
Qed.

Lemma pushAway_all_keeps (cs : list ObjectManager.Collider) (obj : ObjectManager.Mesh) :
  ObjectManager.radius (ObjectManager.userData (fold_left ObjectManager.pushAway cs obj))
    = ObjectManager.radius (ObjectManager.userData obj) /\
  THREE.y (ObjectManager.position obj)
    <= THREE.y (ObjectManager.position (fold_left ObjectManager.pushAway cs obj)).
Proof.
  revert obj. induction cs as [|c cs IH]; intros obj; cbn [fold_left].
  - split; [reflexivity|lra].
  - destruct (IH (ObjectManager.pushAway obj c)) as [Hr Hy].
    destruct (pushAway_keeps obj c) as [Hr' Hy'].
    split; [congruence|lra].
Qed.

Lemma integrate_above_floor (g dt : R) (cs : list ObjectManager.Collider)
    (obj : ObjectManager.Mesh) :
  let obj' := ObjectManager.integrate g dt cs obj in
  ObjectManager.radius (ObjectManager.userData obj')
    = ObjectManager.radius (ObjectManager.userData obj) /\
  ObjectManager.radius (ObjectManager.userData obj')
    <= THREE.y (ObjectManager.position obj').
Proof.
  unfold ObjectManager.integrate. cbn zeta.
  set (v1 := if ObjectManager.onFloor _ then _ else _).
  set (p1 := THREE.addScaledVector _ v1 dt).
  match goal with |- context [if decide (THREE.y p1 < ?r) then ?a else ?b] =>
    set (obj1 := if decide (THREE.y p1 < r) then a else b)
  end.
  assert (ObjectManager.radius (ObjectManager.userData obj1)
            = ObjectManager.radius (ObjectManager.userData obj) /\
          ObjectManager.radius (ObjectManager.userData obj)
            <= THREE.y (ObjectManager.position obj1)) as [Hr Hy].
  { subst obj1.
    case_decide;
      cbn [ObjectManager.position ObjectManager.userData ObjectManager.radius
           ObjectManager.set_userData ObjectManager.set_position
           ObjectManager.set_motion THREE.set_y THREE.y];
      split; try reflexivity; lra. }
  case_decide.
  - destruct (pushAway_all_keeps cs obj1) as [Hr' Hy']. split; [congruence|].
    rewrite Hr', Hr. lra.
  - split; [assumption|]. rewrite Hr. lra.
Qed.

Lemma pushAway_static (obj : ObjectManager.Mesh) (c : ObjectManager.Collider) :
  ObjectManager.isStatic (ObjectManager.userData (ObjectManager.pushAway obj c))
    = ObjectManager.isStatic (ObjectManager.userData obj).
Proof. unfold ObjectManager.pushAway. cbn zeta. case_decide; reflexivity. Qed.

Lemma pushAway_all_static (cs : list ObjectManager.Collider) (obj : ObjectManager.Mesh) :
  ObjectManager.isStatic (ObjectManager.userData (fold_left ObjectManager.pushAway cs obj))
    = ObjectManager.isStatic (ObjectManager.userData obj).
Proof.
  revert obj. induction cs as [|c cs IH]; intros obj; cbn [fold_left]; [reflexivity|].
  now rewrite IH, pushAway_static.
Qed.

Lemma integrate_static (g dt : R) (cs : list ObjectManager.Collider)
    (obj : ObjectManager.Mesh) :
  ObjectManager.isStatic (ObjectManager.userData (ObjectManager.integrate g dt cs obj))
    = ObjectManager.isStatic (ObjectManager.userData obj).
Proof.
  unfold ObjectManager.integrate. cbn zeta.
  repeat case_decide; rewrite ?pushAway_all_static; reflexivity.
Qed.

Lemma isAttached_update (dt : R) (cs : list ObjectManager.Collider)
    (om : ObjectManager.t) (k : string) :
  ObjectManager.isAttached (ObjectManager.update dt cs om) k
    = ObjectManager.isAttached om k.
Proof. reflexivity. Qed.

(** What [update] does to the mesh stored under [k]. *)
Lemma get_update (dt : R) (cs : list ObjectManager.Collider) (om : ObjectManager.t)
    (k : string) :
  ObjectManager.get k (ObjectManager.objects (ObjectManager.update dt cs om))
  = (fun obj =>
       if ObjectManager.isAttached om k then obj
       else if ObjectManager.isStatic (ObjectManager.userData obj) then obj
       else ObjectManager.integrate (ObjectManager.gravity om) (Rmin dt 0.05) cs obj)
    <$> ObjectManager.get k (ObjectManager.objects om).
Proof.
  unfold ObjectManager.update. cbn [ObjectManager.objects ObjectManager.set_objects].
  induction (ObjectManager.objects om) as [|[k' m] l IH]; [reflexivity|].
  rewrite fmap_cons. cbn [fst snd].
  destruct (ObjectManager.isAttached om k') eqn:Ha;
    [|destruct (ObjectManager.isStatic (ObjectManager.userData m)) eqn:Hs];
    cbn [ObjectManager.get]; case_decide; subst; rewrite ?Ha, ?Hs; auto;
    cbn [fmap option_fmap option_map]; rewrite ?Hs; reflexivity.
Qed.

(** One update leaves an object that rests on the floor where it is. *)
Lemma integrate_rest (g dt : R) (obj : ObjectManager.Mesh) :
  g <= 0 ->
  THREE.y (ObjectManager.position obj) = ObjectManager.radius (ObjectManager.userData obj) ->
  THREE.y (ObjectManager.velocity (ObjectManager.userData obj)) = 0 ->
  let obj' := ObjectManager.integrate g dt [] obj in
  ObjectManager.radius (ObjectManager.userData obj')
    = ObjectManager.radius (ObjectManager.userData obj) /\
  THREE.y (ObjectManager.position obj') = ObjectManager.radius (ObjectManager.userData obj') /\
  THREE.y (ObjectManager.velocity (ObjectManager.userData obj')) = 0.
Proof.
  intros Hg Hy Hv. unfold ObjectManager.integrate. cbn zeta.
  destruct (decide (0 < List.length [])%nat) as [Hl|_]; [cbn in Hl; lia|].
  destruct (ObjectManager.onFloor (ObjectManager.userData obj));
    case_decide as Hfloor;
    cbn [ObjectManager.position ObjectManager.userData ObjectManager.radius
         ObjectManager.velocity ObjectManager.set_userData ObjectManager.set_position
         ObjectManager.set_motion THREE.set_y THREE.addScaledVector THREE.y] in *;
    rewrite ?Hv in *; repeat split; try reflexivity; try lra.
  - assert (g * dt * dt = 0) as H0 by nra. nra.
  - assert (g * dt * dt = 0) as H0 by nra.
    destruct (Rmult_integral _ _ H0) as [H1|H1]; [lra|]. subst dt. lra.
Qed.

Lemma steps_rest (dts : list R) (om : ObjectManager.t) (k : string)
    (obj : ObjectManager.Mesh) :
  ObjectManager.gravity om <= 0 ->
  ObjectManager.get k (ObjectManager.objects om) = Some obj ->
  ObjectManager.isAttached om k = false ->
  ObjectManager.isStatic (ObjectManager.userData obj) = false ->
  THREE.y (ObjectManager.position obj) = ObjectManager.radius (ObjectManager.userData obj) ->
  THREE.y (ObjectManager.velocity (ObjectManager.userData obj)) = 0 ->
  exists obj',
    ObjectManager.get k (ObjectManager.objects (Props.steps dts om)) = Some obj' /\
    ObjectManager.radius (ObjectManager.userData obj')
      = ObjectManager.radius (ObjectManager.userData obj) /\
    THREE.y (ObjectManager.position obj')
      = ObjectManager.radius (ObjectManager.userData obj').
Proof.
  revert om obj. induction dts as [|dt dts IH]; intros om obj Hg Hget Ha Hs Hy Hv.
  - exists obj. cbn. auto.
  - unfold Props.steps. cbn [fold_left]. fold (Props.steps dts (ObjectManager.update dt [] om)).
    pose proof (integrate_rest (ObjectManager.gravity om) (Rmin dt 0.05) obj Hg Hy Hv)
      as (Hr' & Hy' & Hv').
    destruct (IH (ObjectManager.update dt [] om)
                (ObjectManager.integrate (ObjectManager.gravity om) (Rmin dt 0.05) [] obj))
      as (obj' & Hget' & Hrad & Hpos); auto.
    + rewrite get_update, Hget. cbn. now rewrite Ha, Hs.
    + now rewrite integrate_static.
    + exists obj'. repeat split; auto. congruence.
Qed.

(** ** Claims on the physics pass *)

(** C4: for every registry state, every set of arm colliders and every
    elapsed time [dt >= 0.05], one physics update with [dt] gives exactly
    the state that one update with 0.05 gives; in particular an update with
    [dt = 1.0] equals an update with [dt = 0.05]. *)
Theorem C4_update_clamps_dt (om : ObjectManager.t)
    (armColliders : list ObjectManager.Collider) (dt : R) :
  0.05 <= dt ->
  ObjectManager.update dt armColliders om = ObjectManager.update 0.05 armColliders om /\
  ObjectManager.update 1.0 armColliders om = ObjectManager.update 0.05 armColliders om.
Proof.
  intros Hdt. unfold ObjectManager.update. cbn zeta.
  rewrite (Rmin_right dt 0.05) by assumption.
  rewrite (Rmin_right 1.0 0.05) by lra.
  rewrite (Rmin_left 0.05 0.05) by lra.
  split; reflexivity.
Qed.

(** C4 at an elapsed time of 0.5 seconds, a cube above the floor and one arm
    sphere. *)
Lemma C4_update_clamps_dt_witness :
  0.05 <= 0.5 /\
  ObjectManager.update 0.5 [Examples.armSphere]
    (Examples.holding (Examples.cube (THREE.Vec3 0.5 2 0) 0.3))
  = ObjectManager.update 0.05 [Examples.armSphere]
      (Examples.holding (Examples.cube (THREE.Vec3 0.5 2 0) 0.3)).
Proof.
  split; [lra|].
  apply (C4_update_clamps_dt
           (Examples.holding (Examples.cube (THREE.Vec3 0.5 2 0) 0.3))
           [Examples.armSphere] 0.5).
  lra.
Defined.

(** C5: a free, non-static object at rest on the floor (its [position.y]
    equal to its radius, its velocity (0,0,0)) has, after any number of
    physics updates with no arm colliders, a [position.y] that is still
    exactly its radius.  The gravity is the one the constructor sets. *)
Theorem C5_rest_stays_on_floor (dts : list R) (om : ObjectManager.t) (k : string)
    (obj : ObjectManager.Mesh) :
  ObjectManager.gravity om = -9.8 ->
  ObjectManager.get k (ObjectManager.objects om) = Some obj ->
  ObjectManager.isAttached om k = false ->
  ObjectManager.isStatic (ObjectManager.userData obj) = false ->
  THREE.y (ObjectManager.position obj) = ObjectManager.radius (ObjectManager.userData obj) ->
  ObjectManager.velocity (ObjectManager.userData obj) = THREE.Vec3 0 0 0 ->
  exists obj',
    ObjectManager.get k (ObjectManager.objects (Props.steps dts om)) = Some obj' /\
    ObjectManager.radius (ObjectManager.userData obj')
      = ObjectManager.radius (ObjectManager.userData obj) /\
    THREE.y (ObjectManager.position obj')
      = ObjectManager.radius (ObjectManager.userData obj').
Proof.
  intros Hg Hget Ha Hs Hy Hv.
  apply steps_rest; auto; [lra | now rewrite Hv].
Qed.

(** C5 at a cube of size 0.3 resting at height 0.15, through four updates
    with elapsed times 0.016, 0.016, 1 and 0. *)
Lemma C5_rest_stays_on_floor_witness :
  exists obj',
    ObjectManager.get "obj_1"
      (ObjectManager.objects
         (Props.steps [0.016; 0.016; 1; 0]
            (Examples.holding (Examples.cube (THREE.Vec3 2 (0.3 / 2) 0) 0.3))))
    = Some obj' /\
    ObjectManager.radius (ObjectManager.userData obj') = 0.3 / 2 /\
    THREE.y (ObjectManager.position obj')
      = ObjectManager.radius (ObjectManager.userData obj').
Proof.
  apply (C5_rest_stays_on_floor [0.016; 0.016; 1; 0]
           (Examples.holding (Examples.cube (THREE.Vec3 2 (0.3 / 2) 0) 0.3))
           "obj_1" (Examples.cube (THREE.Vec3 2 (0.3 / 2) 0) 0.3));
    reflexivity.
Defined.

(** C10: after every physics update, every object that is neither attached
    nor static has [position.y >= radius]: the floor clamp comes first, and
    the push of an arm collider never has a negative vertical component. *)
Theorem C10_objects_stay_above_floor (om : ObjectManager.t) (dt : R)
    (armColliders : list ObjectManager.Collider) (k : string)
    (obj : ObjectManager.Mesh) :
  (k, obj) ∈ ObjectManager.objects (ObjectManager.update dt armColliders om) ->
  ObjectManager.isAttached (ObjectManager.update dt armColliders om) k = false ->
  ObjectManager.isStatic (ObjectManager.userData obj) = false ->
  ObjectManager.radius (ObjectManager.userData obj)
    <= THREE.y (ObjectManager.position obj).
Proof.
  intros Hin Ha Hs. rewrite isAttached_update in Ha.
  unfold ObjectManager.update in Hin.
  cbn [ObjectManager.objects ObjectManager.set_objects] in Hin.
  apply list_elem_of_fmap in Hin as ([k' m] & Heq & _). cbn [fst snd] in Heq.
  destruct (ObjectManager.isAttached om k') eqn:Ha'.
  { injection Heq as -> ->. congruence. }
  destruct (ObjectManager.isStatic (ObjectManager.userData m)) eqn:Hs'.
  { injection Heq as -> ->. congruence. }
  injection Heq as -> ->.
  apply (integrate_above_floor (ObjectManager.gravity om) (Rmin dt 0.05) armColliders m).
Qed.

(** C10 at a cube that starts below its radius, inside an arm sphere. *)
Lemma C10_objects_stay_above_floor_witness :
  let om := Examples.holding (Examples.cube (THREE.Vec3 0.5 0.1 0) 0.3) in
  let obj' :=
    ObjectManager.integrate (-9.8) (Rmin 0.016 0.05) [Examples.armSphere]
      (Examples.cube (THREE.Vec3 0.5 0.1 0) 0.3) in
  ObjectManager.radius (ObjectManager.userData obj')
    <= THREE.y (ObjectManager.position obj').
Proof.
  intros om obj'.
  apply (C10_objects_stay_above_floor om 0.016 [Examples.armSphere] "obj_1" obj').
  - apply list_elem_of_here.
  - reflexivity.
  - unfold obj'. now rewrite integrate_static.
Defined.

(** ** The registry as a map *)

Lemma get_of_elem (l : list (string * ObjectManager.Mesh)) (k : string)
    (obj : ObjectManager.Mesh) :
  NoDup (fst <$> l) -> (k, obj) ∈ l -> ObjectManager.get k l = Some obj.
Proof.
  induction l as [|[k' m] l IH]; intros Hnd Hin.
  - now apply elem_of_nil in Hin.
  - rewrite fmap_cons in Hnd. apply NoDup_cons in Hnd as [Hk Hnd].
    cbn [ObjectManager.get]. apply elem_of_cons in Hin as [Heq|Hin].
    + injection Heq as -> ->. now rewrite decide_True.
    + rewrite decide_False; [now apply IH|].
      intros ->. apply Hk. cbn [fst].
      change k with (fst (k, obj)). now apply list_elem_of_fmap_2.
Qed.

Lemma get_modify (k k' : string) (f : ObjectManager.Mesh -> ObjectManager.Mesh)
    (l : list (string * ObjectManager.Mesh)) :
  ObjectManager.get k' (ObjectManager.modify k f l)
  = (fun m => if decide (k' = k) then f m else m) <$> ObjectManager.get k' l.
Proof.
  unfold ObjectManager.modify.
  induction l as [|[k0 m] l IH]; [reflexivity|].
  rewrite fmap_cons. cbn [fst snd].
  destruct (decide (k0 = k)) as [->|Hne]; cbn [ObjectManager.get fst snd];
    destruct (decide (_ = k')) as [->|Hne']; cbn [fmap option_fmap option_map]; auto.
  - now rewrite decide_True.
  - now rewrite decide_False.
Qed.

(** ** The registry stays a map from ids to their meshes *)

Lemma wf_constructor : Props.wf ObjectManager.constructor /\ Props.fresh ObjectManager.constructor.
Proof.
  split; [split; constructor|]. intros n _. apply not_elem_of_nil.
Qed.

Lemma set_new (k : string) (m : ObjectManager.Mesh) (l : list (string * ObjectManager.Mesh)) :
  k ∉ fst <$> l -> ObjectManager.set k m l = l ++ [(k, m)].
Proof.
  induction l as [|[k' m'] l IH]; intros Hk; cbn [ObjectManager.set]; [reflexivity|].
  rewrite fmap_cons in Hk. apply not_elem_of_cons in Hk as [Hne Hk].
  rewrite decide_False by (cbn [fst] in Hne; congruence).
  now rewrite IH.
Qed.

Lemma spawnObject_wf (ty : string) (p : THREE.Vector3) (col : N) (sz : R)
    (om : ObjectManager.t) :
  Props.wf om -> Props.fresh om ->
  Props.wf (snd (ObjectManager.spawnObject ty p col sz om)) /\
  Props.fresh (snd (ObjectManager.spawnObject ty p col sz om)).
Proof.
  intros [Hnd Hid] Hfresh. unfold ObjectManager.spawnObject. cbn zeta. cbn [snd].
  set (k := "obj_" +:+ pretty (ObjectManager.nextId om)).
  assert (k ∉ fst <$> ObjectManager.objects om) as Hk by (apply Hfresh; lia).
  unfold Props.wf, Props.fresh. cbn [ObjectManager.objects ObjectManager.nextId].
  rewrite set_new by assumption. rewrite fmap_app. cbn [fmap list_fmap fst].
  repeat split.
  - apply NoDup_app. repeat split; auto.
    + intros x Hx Hx'. apply list_elem_of_singleton in Hx'. congruence.
    + apply NoDup_singleton.
  - apply Forall_app. split; [assumption|]. repeat constructor.
  - intros n Hn Hin. apply elem_of_app in Hin as [Hin|Hin].
    + revert Hin. apply Hfresh. lia.
    + apply list_elem_of_singleton in Hin. unfold k in Hin.
      apply (inj (String.app "obj_")) in Hin. apply (inj pretty) in Hin. lia.
Qed.

Lemma pushAway_id (obj : ObjectManager.Mesh) (c : ObjectManager.Collider) :
  ObjectManager.id (ObjectManager.userData (ObjectManager.pushAway obj c))
    = ObjectManager.id (ObjectManager.userData obj).
Proof. unfold ObjectManager.pushAway. cbn zeta. case_decide; reflexivity. Qed.

Lemma integrate_id (g dt : R) (cs : list ObjectManager.Collider) (obj : ObjectManager.Mesh) :
  ObjectManager.id (ObjectManager.userData (ObjectManager.integrate g dt cs obj))
    = ObjectManager.id (ObjectManager.userData obj).
Proof.
  assert (forall o, ObjectManager.id
                      (ObjectManager.userData (fold_left ObjectManager.pushAway cs o))
                    = ObjectManager.id (ObjectManager.userData o)) as Hfold.
  { induction cs as [|c cs IH]; intros o; cbn [fold_left]; [reflexivity|].
    now rewrite IH, pushAway_id. }
  unfold ObjectManager.integrate. cbn zeta.
  repeat case_decide; rewrite ?Hfold; reflexivity.
Qed.

(** A pass that keeps every key and every id keeps the registry a map. *)
Lemma wf_fmap (f : string * ObjectManager.Mesh -> string * ObjectManager.Mesh)
    (l : list (string * ObjectManager.Mesh)) :
  (forall e, fst (f e) = fst e /\
             ObjectManager.id (ObjectManager.userData (snd (f e)))
               = ObjectManager.id (ObjectManager.userData (snd e))) ->
  NoDup (fst <$> l) /\
  Forall (fun e => ObjectManager.id (ObjectManager.userData (snd e)) = fst e) l ->
  NoDup (fst <$> (f <$> l)) /\
  Forall (fun e => ObjectManager.id (ObjectManager.userData (snd e)) = fst e) (f <$> l).
Proof.
  intros Hf [Hnd Hid]. split.
  - rewrite <- list_fmap_compose.
    replace (fst ∘ f <$> l) with (fst <$> l); [assumption|].
    apply list_fmap_ext. intros i e _. cbn. now destruct (Hf e) as [-> _].
  - apply Forall_fmap. eapply Forall_impl; [exact Hid|].
    intros e He. cbn. destruct (Hf e) as [-> ->]. exact He.
Qed.

Lemma update_wf (dt : R) (cs : list ObjectManager.Collider) (om : ObjectManager.t) :
  Props.wf om -> Props.wf (ObjectManager.update dt cs om).
Proof.
  intros Hwf. unfold Props.wf, ObjectManager.update.
  cbn [ObjectManager.objects ObjectManager.set_objects].
  apply wf_fmap; [|exact Hwf]. intros e.
  destruct (ObjectManager.isAttached om (fst e)); [auto|].
  destruct (ObjectManager.isStatic _); [auto|].
  cbn [fst snd]. split; [reflexivity|apply integrate_id].
Qed.

Lemma modify_wf (k : string) (f : ObjectManager.Mesh -> ObjectManager.Mesh)
    (l : list (string * ObjectManager.Mesh)) :
  (forall m, ObjectManager.id (ObjectManager.userData (f m))
             = ObjectManager.id (ObjectManager.userData m)) ->
  NoDup (fst <$> l) /\
  Forall (fun e => ObjectManager.id (ObjectManager.userData (snd e)) = fst e) l ->
  NoDup (fst <$> ObjectManager.modify k f l) /\
  Forall (fun e => ObjectManager.id (ObjectManager.userData (snd e)) = fst e)
    (ObjectManager.modify k f l).
Proof.
  intros Hf. apply wf_fmap. intros e. case_decide; cbn [fst snd]; auto.
Qed.

Lemma updateJoints_wf (rig : RobotArmSimulator.Rig) (u : RobotArmSimulator.AngleUpdate)
    (s : RobotArmSimulator.t) (om om' : ObjectManager.t) :
  RobotArmSimulator.objectManager s = Some om ->
  RobotArmSimulator.objectManager (RobotArmSimulator.updateJoints rig u s) = Some om' ->
  Props.wf om -> Props.wf om'.
Proof.
  intros Hom. unfold RobotArmSimulator.updateJoints.
  cbn [RobotArmSimulator.objectManager]. rewrite Hom. intros [= <-] Hwf.
  assert (Props.wf (RobotArmSimulator.pickUp rig
                      (RobotArmSimulator.merge (RobotArmSimulator.angles s) u) om)) as H1.
  { unfold RobotArmSimulator.pickUp.
    destruct (ObjectManager.attachedObject om); [assumption|].
    case_decide; [|assumption].
    destruct (ObjectManager.checkClamping _ _ _ _ om); [|assumption].
    apply modify_wf; [reflexivity|exact Hwf]. }
  assert (Props.wf (RobotArmSimulator.autoRelease
                      (RobotArmSimulator.merge (RobotArmSimulator.angles s) u)
                      (RobotArmSimulator.pickUp rig
                         (RobotArmSimulator.merge (RobotArmSimulator.angles s) u) om)))
    as H2.
  { unfold RobotArmSimulator.autoRelease.
    destruct (ObjectManager.attachedObject _) eqn:Ha; [|assumption].
    cbn zeta. case_decide; [|assumption].
    unfold ObjectManager.releaseObject. rewrite Ha.
    apply modify_wf; [reflexivity|exact H1]. }
  unfold ObjectManager.updateAttachedObject.
  destruct (ObjectManager.attachedObject _); [|assumption].
  apply modify_wf; [reflexivity|exact H2].
Qed.

(** ** The clamp test *)

(** The candidate the loop of [checkClamping] holds is always an entry of
    the registry that passed every test, at the distance recorded. *)
Lemma clampStep_sound (om : ObjectManager.t) (c : THREE.Vector3) (gw : R)
    (best : option string * R) (e : string * ObjectManager.Mesh) (k : string) :
  e ∈ ObjectManager.objects om ->
  (fst best = Some k ->
   exists obj, (k, obj) ∈ ObjectManager.objects om /\
     ObjectManager.pickable (ObjectManager.userData obj) = true /\
     THREE.distanceTo c (ObjectManager.position obj) = snd best /\
     ObjectManager.objSize obj - 0.05 <= gw <= ObjectManager.objSize obj + 0.2) ->
  fst (ObjectManager.clampStep om c gw best e) = Some k ->
  exists obj, (k, obj) ∈ ObjectManager.objects om /\
    ObjectManager.pickable (ObjectManager.userData obj) = true /\
    THREE.distanceTo c (ObjectManager.position obj)
      = snd (ObjectManager.clampStep om c gw best e) /\
    ObjectManager.objSize obj - 0.05 <= gw <= ObjectManager.objSize obj + 0.2.
Proof.
  intros Hin Hbest. unfold ObjectManager.clampStep. cbn zeta.
  destruct (ObjectManager.pickable (ObjectManager.userData (snd e))) eqn:Hp;
    cbn [negb]; [|exact Hbest].
  destruct (ObjectManager.isAttached om (fst e)); [exact Hbest|].
  case_decide as Hd; [|exact Hbest].
  case_decide as Hb; [|exact Hbest].
  cbn [fst snd]. intros [= <-]. exists (snd e).
  destruct e as [k' m]. cbn [fst snd] in *.
  repeat split; auto; lra.
Qed.

Lemma clampLoop_sound (om : ObjectManager.t) (c : THREE.Vector3) (gw : R)
    (l : list (string * ObjectManager.Mesh)) (best : option string * R) (k : string) :
  (forall e, e ∈ l -> e ∈ ObjectManager.objects om) ->
  (fst best = Some k ->
   exists obj, (k, obj) ∈ ObjectManager.objects om /\
     ObjectManager.pickable (ObjectManager.userData obj) = true /\
     THREE.distanceTo c (ObjectManager.position obj) = snd best /\
     ObjectManager.objSize obj - 0.05 <= gw <= ObjectManager.objSize obj + 0.2) ->
  fst (fold_left (ObjectManager.clampStep om c gw) l best) = Some k ->
  exists obj, (k, obj) ∈ ObjectManager.objects om /\
    ObjectManager.pickable (ObjectManager.userData obj) = true /\
    THREE.distanceTo c (ObjectManager.position obj)
      = snd (fold_left (ObjectManager.clampStep om c gw) l best) /\
    ObjectManager.objSize obj - 0.05 <= gw <= ObjectManager.objSize obj + 0.2.
Proof.
  revert best. induction l as [|e l IH]; intros best Hl Hbest; cbn [fold_left].
  - exact Hbest.
  - apply IH.
    + intros e' He'. apply Hl. now apply list_elem_of_further.
    + apply clampStep_sound; [|exact Hbest]. apply Hl. apply list_elem_of_here.
Qed.

(** What [checkClamping] returns is a pickable entry of the registry, closer
    than 0.3 to the centre, whose size the gripper width fits. *)
Lemma checkClamping_sound (om : ObjectManager.t) (c lf rf : THREE.Vector3) (gw : R)
    (k : string) :
  ObjectManager.checkClamping c gw lf rf om = Some k ->
  exists obj, (k, obj) ∈ ObjectManager.objects om /\
    ObjectManager.pickable (ObjectManager.userData obj) = true /\
    THREE.distanceTo c (ObjectManager.position obj) < 0.3 /\
    ObjectManager.objSize obj - 0.05 <= gw <= ObjectManager.objSize obj + 0.2.
Proof.
  unfold ObjectManager.checkClamping. cbn zeta.
  destruct (fst (fold_left _ _ _)) as [k'|] eqn:Hfst; [|discriminate].
  case_decide as Hd; [|discriminate]. intros [= ->].
  destruct (clampLoop_sound om c gw (ObjectManager.objects om) (None, 1.0) k)
    as (obj & Hin & Hp & Hdist & Hband); auto; try discriminate.
  exists obj. repeat split; auto; lra.
Qed.

(** The clamp test on a registry of one pickable mesh, nothing attached. *)
Lemma checkClamping_holding (m : ObjectManager.Mesh) (c lf rf : THREE.Vector3) (gw : R) :
  ObjectManager.pickable (ObjectManager.userData m) = true ->
  ObjectManager.checkClamping c gw lf rf (Examples.holding m)
  = if decide (THREE.distanceTo c (ObjectManager.position m) < 0.3 /\
               ObjectManager.objSize m - 0.05 <= gw <= ObjectManager.objSize m + 0.2)
    then Some "obj_1" else None.
Proof.
  intros Hp. unfold ObjectManager.checkClamping, Examples.holding.
  cbn [ObjectManager.objects fold_left]. unfold ObjectManager.clampStep.
  cbn [fst snd ObjectManager.isAttached ObjectManager.attachedObject].
  rewrite Hp. cbn [negb ObjectManager.isAttached ObjectManager.attachedObject].
  unfold ObjectManager.isAttached. cbn [ObjectManager.attachedObject].
  repeat case_decide; cbn [fst snd] in *; try reflexivity;
    repeat case_decide; try reflexivity; exfalso; lra.
Qed.

(** ** The joint update *)

Lemma pickUp_attached (rig : RobotArmSimulator.Rig) (a : RobotArmSimulator.Angles)
    (om : ObjectManager.t) :
  ObjectManager.attachedObject om = None ->
  0 < RobotArmSimulator.gripper a < 40 ->
  ObjectManager.attachedObject (RobotArmSimulator.pickUp rig a om)
  = ObjectManager.checkClamping (RobotArmSimulator.gripperCenterPosition rig)
      (RobotArmSimulator.gripperWidth a)
      (RobotArmSimulator.leftFingerWorldPosition rig)
      (RobotArmSimulator.rightFingerWorldPosition rig) om.
Proof.
  intros Hfree Hg. unfold RobotArmSimulator.pickUp. rewrite Hfree.
  rewrite decide_True by lra.
  destruct (ObjectManager.checkClamping _ _ _ _ om); [reflexivity|assumption].
Qed.

(** [userData.size] of the mesh under [k], the property the release test reads. *)
Lemma pickUp_size (rig : RobotArmSimulator.Rig) (a : RobotArmSimulator.Angles)
    (om : ObjectManager.t) (k : string) :
  (ObjectManager.get k (ObjectManager.objects (RobotArmSimulator.pickUp rig a om))
     ≫= fun m => ObjectManager.size (ObjectManager.userData m))
  = (ObjectManager.get k (ObjectManager.objects om)
       ≫= fun m => ObjectManager.size (ObjectManager.userData m)).
Proof.
  unfold RobotArmSimulator.pickUp.
  destruct (ObjectManager.attachedObject om); [reflexivity|].
  case_decide; [|reflexivity].
  destruct (ObjectManager.checkClamping _ _ _ _ om) as [k'|]; [|reflexivity].
  cbn [snd ObjectManager.attachToGripper ObjectManager.objects ObjectManager.set_objects].
  rewrite get_modify.
  destruct (ObjectManager.get k (ObjectManager.objects om)); [|reflexivity].
  cbn. case_decide; reflexivity.
Qed.

Lemma autoRelease_attached (a : RobotArmSimulator.Angles) (om : ObjectManager.t) :
  ObjectManager.attachedObject (RobotArmSimulator.autoRelease a om)
  = match ObjectManager.attachedObject om with
    | Some k =>
        if decide (RobotArmSimulator.gripperWidth a
                   > JS.or_else
                       (ObjectManager.get k (ObjectManager.objects om)
                          ≫= fun m => ObjectManager.size (ObjectManager.userData m))
                       0.3 + 0.1)
        then None else Some k
    | None => None
    end.
Proof.
  unfold RobotArmSimulator.autoRelease.
  destruct (ObjectManager.attachedObject om) as [k|] eqn:Ha; [|assumption].
  cbn zeta. case_decide; [|assumption].
  unfold ObjectManager.releaseObject. now rewrite Ha.
Qed.

Lemma updateAttachedObject_attached (p : option THREE.Vector3) (om : ObjectManager.t) :
  ObjectManager.attachedObject (ObjectManager.updateAttachedObject p om)
  = ObjectManager.attachedObject om.
Proof.
  unfold ObjectManager.updateAttachedObject.
  destruct (ObjectManager.attachedObject om) eqn:Ha, p; auto.
Qed.

(** The attachment after a joint update, by the attachment before it. *)
Lemma updateJoints_attached (rig : RobotArmSimulator.Rig)
    (u : RobotArmSimulator.AngleUpdate) (s : RobotArmSimulator.t)
    (om : ObjectManager.t) :
  RobotArmSimulator.objectManager s = Some om ->
  let a := RobotArmSimulator.merge (RobotArmSimulator.angles s) u in
  let released k :=
    if decide (RobotArmSimulator.gripperWidth a
               > JS.or_else
                   (ObjectManager.get k (ObjectManager.objects om)
                      ≫= fun m => ObjectManager.size (ObjectManager.userData m))
                   0.3 + 0.1)
    then None else Some k in
  ObjectManager.attachedObject
    <$> RobotArmSimulator.objectManager (RobotArmSimulator.updateJoints rig u s)
  = Some
      match ObjectManager.attachedObject om with
      | Some k => released k
      | None =>
          if decide (0 < RobotArmSimulator.gripper a < 40) then
            match ObjectManager.checkClamping
                    (RobotArmSimulator.gripperCenterPosition rig)
                    (RobotArmSimulator.gripperWidth a)
                    (RobotArmSimulator.leftFingerWorldPosition rig)
                    (RobotArmSimulator.rightFingerWorldPosition rig) om with
            | Some k => released k
            | None => None
            end
          else None
      end.
Proof.
  intros Hom a released. unfold RobotArmSimulator.updateJoints.
  cbn [RobotArmSimulator.objectManager]. rewrite Hom. cbn [fmap option_fmap option_map].
  f_equal. rewrite updateAttachedObject_attached, autoRelease_attached.
  fold a.
  destruct (ObjectManager.attachedObject om) as [k|] eqn:Ha.
  - assert (RobotArmSimulator.pickUp rig a om = om) as ->
      by (unfold RobotArmSimulator.pickUp; now rewrite Ha).
    now rewrite Ha.
  - case_decide as Hg.
    + rewrite pickUp_attached by assumption.
      destruct (ObjectManager.checkClamping _ _ _ _ om); [|reflexivity].
      now rewrite pickUp_size.
    + assert (RobotArmSimulator.pickUp rig a om = om) as ->
        by (unfold RobotArmSimulator.pickUp; rewrite Ha; now rewrite decide_False by lra).
      now rewrite Ha.
Qed.

(** ** The concrete states *)

Lemma gripper_gripperTo (g : R) :
  RobotArmSimulator.gripper (RobotArmSimulator.merge Examples.angles0 (Examples.gripperTo g))
  = g.
Proof. reflexivity. Qed.

Lemma gripperWidth_gripperTo (g : R) :
  RobotArmSimulator.gripperWidth
    (RobotArmSimulator.merge Examples.angles0 (Examples.gripperTo g))
  = 0.16 + g * (PI / 180) * 0.4 * 2.
Proof. reflexivity. Qed.

Lemma objSize_cube (p : THREE.Vector3) (s : R) :
  s <> 0 -> ObjectManager.objSize (Examples.cube p s) = s.
Proof.
  intros Hs. unfold ObjectManager.objSize, Examples.cube, Examples.firstMesh.
  cbn [ObjectManager.geometry THREE.parameters_width JS.or_else].
  now rewrite decide_False.
Qed.

Lemma objSize_sphere (p : THREE.Vector3) (s : R) :
  s <> 0 -> ObjectManager.objSize (Examples.sphere p s) = s.
Proof.
  intros Hs. unfold ObjectManager.objSize, Examples.sphere, Examples.firstMesh.
  cbn [ObjectManager.geometry THREE.parameters_width THREE.parameters_radius
       JS.or_else fmap option_fmap option_map].
  rewrite decide_False by lra. lra.
Qed.

(** The example states are what [spawnObject] builds on a fresh manager. *)
Lemma spawn_cube (p : THREE.Vector3) (s : R) :
  ObjectManager.spawnObject "cube" p Examples.orange s ObjectManager.constructor
  = (("obj_1", Examples.cube p s), Examples.holding (Examples.cube p s)).
Proof. reflexivity. Qed.

Lemma spawn_sphere (p : THREE.Vector3) (s : R) :
  ObjectManager.spawnObject "sphere" p Examples.orange s ObjectManager.constructor
  = (("obj_1", Examples.sphere p s), Examples.holding (Examples.sphere p s)).
Proof. reflexivity. Qed.

(** A joint update that sets the gripper to [g] degrees on a registry of
    one free mesh, as [spawnObject] makes it, with the gripper centre at the
    origin: the mesh is attached after the update when the clamp test takes
    it and the width does not exceed 0.3 + 0.1. *)
Lemma updateJoints_holding (m : ObjectManager.Mesh) (g : R) :
  ObjectManager.pickable (ObjectManager.userData m) = true ->
  ObjectManager.size (ObjectManager.userData m) = None ->
  0 < g < 40 ->
  let gw := 0.16 + g * (PI / 180) * 0.4 * 2 in
  ObjectManager.attachedObject
    <$> RobotArmSimulator.objectManager
          (RobotArmSimulator.updateJoints Examples.rig0 (Examples.gripperTo g)
             (Examples.simulator (Examples.holding m)))
  = Some
      (if decide (THREE.distanceTo (THREE.Vec3 0 0 0) (ObjectManager.position m) < 0.3 /\
                  ObjectManager.objSize m - 0.05 <= gw <= ObjectManager.objSize m + 0.2)
       then if decide (gw > 0.3 + 0.1) then None else Some "obj_1"
       else None).
Proof.
  intros Hp Hsize Hg gw.
  rewrite (updateJoints_attached Examples.rig0 (Examples.gripperTo g)
             (Examples.simulator (Examples.holding m)) (Examples.holding m) eq_refl).
  cbn zeta. f_equal.
  change (ObjectManager.attachedObject (Examples.holding m)) with (@None string).
  cbn match.
  change (RobotArmSimulator.angles (Examples.simulator (Examples.holding m)))
    with Examples.angles0.
  rewrite gripper_gripperTo, gripperWidth_gripperTo. fold gw.
  rewrite decide_True by assumption.
  rewrite checkClamping_holding by assumption.
  change (RobotArmSimulator.gripperCenterPosition Examples.rig0) with (THREE.Vec3 0 0 0).
  case_decide; [|reflexivity].
  change (JS.or_else _ 0.3)
    with (JS.or_else (ObjectManager.size (ObjectManager.userData m)) 0.3).
  now rewrite Hsize.
Qed.

(** ** Claims on grasping *)

(** C1 as stated fails: with the gripper at 10 degrees (a width of about
    0.30) a pickable cube of size 0.12 at distance 0.1 from the gripper
    centre is attached by the update, although 0.12 is outside
    [gripperWidth - 0.05, gripperWidth + 0.2]. *)
Lemma C1_counterexample :
  let m := Examples.cube (THREE.Vec3 0.1 0 0) 0.12 in
  let s := Examples.simulator (Examples.holding m) in
  let u := Examples.gripperTo 10 in
  let a := RobotArmSimulator.merge (RobotArmSimulator.angles s) u in
  let gw := RobotArmSimulator.gripperWidth a in
  ObjectManager.attachedObject (Examples.holding m) = None /\
  0 < RobotArmSimulator.gripper a < 40 /\
  ObjectManager.pickable (ObjectManager.userData m) = true /\
  ObjectManager.objSize m = 0.12 /\
  ~ (gw - 0.05 <= 0.12 <= gw + 0.2) /\
  ObjectManager.attachedObject
    <$> RobotArmSimulator.objectManager
          (RobotArmSimulator.updateJoints Examples.rig0 u s)
  = Some (Some "obj_1").
Proof.
  intros m s u a gw. pose proof PI_bounds as [Hlo Hhi].
  assert (gw = 0.16 + 10 * (PI / 180) * 0.4 * 2) as Hgw by reflexivity.
  assert (RobotArmSimulator.gripper a = 10) as Hg by reflexivity.
  assert (ObjectManager.objSize m = 0.12) as Hsize by (apply objSize_cube; lra).
  repeat split; try reflexivity; try lra.
  unfold s, u. rewrite updateJoints_holding by (try reflexivity; lra).
  rewrite Hsize.
  replace (THREE.distanceTo _ _) with (0.1 - 0)
    by (symmetry; apply (distanceTo_along_x 0.1 0 0 0); lra).
  rewrite decide_True by lra. now rewrite decide_False by lra.
Qed.

(** C1, amended: in a frame with nothing attached and the gripper angle
    strictly between 0 and 40 degrees, an object is kept as candidate only
    if it is pickable, unattached, closer to the gripper centre than the
    current best distance, and of a size within
    [gripperWidth - 0.2, gripperWidth + 0.05] (the gripper up to 0.2 wider
    or up to 0.05 narrower than the object); a pickable object whose size
    is outside that band is not attached in this frame.  The size is the
    one the clamp test reads from the geometry. *)
Theorem C1_clamp_band (rig : RobotArmSimulator.Rig) (u : RobotArmSimulator.AngleUpdate)
    (s : RobotArmSimulator.t) (om : ObjectManager.t) :
  RobotArmSimulator.objectManager s = Some om ->
  ObjectManager.attachedObject om = None ->
  Props.wf om ->
  0 < RobotArmSimulator.gripper (RobotArmSimulator.merge (RobotArmSimulator.angles s) u) < 40 ->
  let gw :=
    RobotArmSimulator.gripperWidth
      (RobotArmSimulator.merge (RobotArmSimulator.angles s) u) in
  let c := RobotArmSimulator.gripperCenterPosition rig in
  (forall best e,
     ObjectManager.clampStep om c gw best e <> best ->
     ObjectManager.pickable (ObjectManager.userData (snd e)) = true /\
     ObjectManager.isAttached om (fst e) = false /\
     THREE.distanceTo c (ObjectManager.position (snd e)) < snd best /\
     gw - 0.2 <= ObjectManager.objSize (snd e) <= gw + 0.05) /\
  (forall k obj,
     (k, obj) ∈ ObjectManager.objects om ->
     ObjectManager.pickable (ObjectManager.userData obj) = true ->
     ~ (gw - 0.2 <= ObjectManager.objSize obj <= gw + 0.05) ->
     ObjectManager.attachedObject
       (RobotArmSimulator.pickUp rig
          (RobotArmSimulator.merge (RobotArmSimulator.angles s) u) om)
     <> Some k /\
     ObjectManager.attachedObject
       <$> RobotArmSimulator.objectManager (RobotArmSimulator.updateJoints rig u s)
     <> Some (Some k)).
Proof.
  intros Hom Hfree [Hnd _] Hg gw c. split.
  - intros best e. unfold ObjectManager.clampStep. cbn zeta.
    destruct (ObjectManager.pickable (ObjectManager.userData (snd e)));
      cbn [negb]; [|congruence].
    destruct (ObjectManager.isAttached om (fst e)); [congruence|].
    case_decide as Hd; [|congruence].
    case_decide as Hb; [|congruence].
    intros _. repeat split; auto; lra.
  - intros k obj Hin Hp Hband.
    assert (ObjectManager.checkClamping c gw
              (RobotArmSimulator.leftFingerWorldPosition rig)
              (RobotArmSimulator.rightFingerWorldPosition rig) om <> Some k) as Hcc.
    { intros Hcc.
      apply checkClamping_sound in Hcc as (obj' & Hin' & _ & _ & Hband').
      apply (get_of_elem _ _ _ Hnd) in Hin, Hin'.
      assert (obj' = obj) as -> by congruence. lra. }
    split.
    + now rewrite pickUp_attached.
    + rewrite (updateJoints_attached rig u s om Hom). cbn zeta. rewrite Hfree.
      rewrite decide_True by lra. fold gw. fold c.
      destruct (ObjectManager.checkClamping c gw _ _ om) as [k'|]; [|congruence].
      case_decide; congruence.
Qed.

(** C1, amended, at 10 degrees and a cube of size 0.5: not attached. *)
Lemma C1_clamp_band_witness :
  ObjectManager.attachedObject
    <$> RobotArmSimulator.objectManager
          (RobotArmSimulator.updateJoints Examples.rig0 (Examples.gripperTo 10)
             (Examples.simulator
                (Examples.holding (Examples.cube (THREE.Vec3 0.1 0 0) 0.5))))
  <> Some (Some "obj_1").
Proof.
  pose proof PI_bounds as [Hlo Hhi].
  assert (Props.wf (Examples.holding (Examples.cube (THREE.Vec3 0.1 0 0) 0.5))) as Hwf.
  { split; [apply NoDup_singleton|]. repeat constructor. }
  assert (0 < 10 < 40) as Hg by lra.
  refine (proj2 (proj2 (C1_clamp_band Examples.rig0 (Examples.gripperTo 10)
                  (Examples.simulator
                     (Examples.holding (Examples.cube (THREE.Vec3 0.1 0 0) 0.5)))
                  (Examples.holding (Examples.cube (THREE.Vec3 0.1 0 0) 0.5))
                  eq_refl eq_refl Hwf Hg)
           "obj_1" (Examples.cube (THREE.Vec3 0.1 0 0) 0.5) _ _ _)).
  - apply list_elem_of_here.
  - reflexivity.
  - rewrite objSize_cube by lra.
    change (RobotArmSimulator.gripperWidth _) with (0.16 + 10 * (PI / 180) * 0.4 * 2).
    lra.
Defined.

(** C2 as stated fails: with the gripper at 20 degrees the cube of size
    0.3 at distance 0.1 is picked up by step 2 of the update, and step 3 of
    the same update releases it, because the width at 20 degrees exceeds
    0.3 + 0.1; after the update nothing is attached.  At distance 0.5
    nothing is attached either. *)
Lemma C2_counterexample :
  let near := Examples.holding (Examples.cube (THREE.Vec3 0.1 0 0) 0.3) in
  let far := Examples.holding (Examples.cube (THREE.Vec3 0.5 0 0) 0.3) in
  let u := Examples.gripperTo 20 in
  let a := RobotArmSimulator.merge Examples.angles0 u in
  ObjectManager.attachedObject (RobotArmSimulator.pickUp Examples.rig0 a near)
    = Some "obj_1" /\
  RobotArmSimulator.gripperWidth a > 0.3 + 0.1 /\
  ObjectManager.attachedObject
    <$> RobotArmSimulator.objectManager
          (RobotArmSimulator.updateJoints Examples.rig0 u (Examples.simulator near))
    = Some None /\
  ObjectManager.attachedObject
    <$> RobotArmSimulator.objectManager
          (RobotArmSimulator.updateJoints Examples.rig0 u (Examples.simulator far))
    = Some None.
Proof.
  intros near far u a. pose proof PI_bounds as [Hlo Hhi].
  assert (RobotArmSimulator.gripperWidth a = 0.16 + 20 * (PI / 180) * 0.4 * 2)
    as Hgw by reflexivity.
  assert (RobotArmSimulator.gripper a = 20) as Hg by reflexivity.
  split; [|split; [lra|split]].
  - rewrite pickUp_attached by (try reflexivity; lra).
    unfold near. rewrite checkClamping_holding by reflexivity.
    change (RobotArmSimulator.gripperCenterPosition Examples.rig0) with (THREE.Vec3 0 0 0).
    replace (THREE.distanceTo _ _) with (0.1 - 0)
      by (symmetry; apply (distanceTo_along_x 0.1 0 0 0); lra).
    rewrite objSize_cube by lra. now rewrite decide_True by lra.
  - unfold near, u. rewrite updateJoints_holding by (try reflexivity; lra).
    replace (THREE.distanceTo _ _) with (0.1 - 0)
      by (symmetry; apply (distanceTo_along_x 0.1 0 0 0); lra).
    rewrite objSize_cube by lra.
    rewrite decide_True by lra. now rewrite decide_True by lra.
  - unfold far, u. rewrite updateJoints_holding by (try reflexivity; lra).
    replace (THREE.distanceTo _ _) with (0.5 - 0)
      by (symmetry; apply (distanceTo_along_x 0.5 0 0 0); lra).
    now rewrite decide_False by lra.
Qed.

(** The release test of [updateJoints] for a held object: it is released
    exactly when the width exceeds [userData.size || 0.3] plus 0.1. *)
Lemma updateJoints_release_test (rig : RobotArmSimulator.Rig)
    (u : RobotArmSimulator.AngleUpdate) (s : RobotArmSimulator.t)
    (om : ObjectManager.t) (k : string) :
  RobotArmSimulator.objectManager s = Some om ->
  ObjectManager.attachedObject om = Some k ->
  ObjectManager.attachedObject
    <$> RobotArmSimulator.objectManager (RobotArmSimulator.updateJoints rig u s)
  = Some
      (if decide
            (RobotArmSimulator.gripperWidth
               (RobotArmSimulator.merge (RobotArmSimulator.angles s) u)
             > JS.or_else
                 (ObjectManager.get k (ObjectManager.objects om)
                    ≫= fun m => ObjectManager.size (ObjectManager.userData m))
                 0.3 + 0.1)
       then None else Some k).
Proof.
  intros Hom Ha. rewrite (updateJoints_attached rig u s om Hom). cbn zeta.
  now rewrite Ha.
Qed.

(** On release the velocity of the object is (0, 0, 0) and it is subject to
    the physics pass again. *)
Lemma releaseObject_velocity (om : ObjectManager.t) (k : string) (m : ObjectManager.Mesh) :
  ObjectManager.attachedObject om = Some k ->
  ObjectManager.get k (ObjectManager.objects om) = Some m ->
  exists m',
    ObjectManager.get k (ObjectManager.objects (ObjectManager.releaseObject om)) = Some m' /\
    ObjectManager.velocity (ObjectManager.userData m') = THREE.Vec3 0 0 0 /\
    ObjectManager.onFloor (ObjectManager.userData m') = false /\
    ObjectManager.attachedObject (ObjectManager.releaseObject om) = None.
Proof.
  intros Ha Hget. unfold ObjectManager.releaseObject. rewrite Ha.
  cbn [ObjectManager.objects ObjectManager.set_attached ObjectManager.set_objects
       ObjectManager.attachedObject].
  rewrite get_modify, Hget. cbn [fmap option_fmap option_map].
  rewrite decide_True by reflexivity. eexists. split; [reflexivity|]. auto.
Qed.

(** A joint update that releases: nothing is attached after it and the
    released object has velocity (0, 0, 0). *)
Lemma updateJoints_release_velocity (rig : RobotArmSimulator.Rig)
    (u : RobotArmSimulator.AngleUpdate) (s : RobotArmSimulator.t)
    (om : ObjectManager.t) (k : string) (m : ObjectManager.Mesh) :
  RobotArmSimulator.objectManager s = Some om ->
  ObjectManager.attachedObject om = Some k ->
  ObjectManager.get k (ObjectManager.objects om) = Some m ->
  RobotArmSimulator.gripperWidth (RobotArmSimulator.merge (RobotArmSimulator.angles s) u)
    > JS.or_else (ObjectManager.size (ObjectManager.userData m)) 0.3 + 0.1 ->
  exists om' m',
    RobotArmSimulator.objectManager (RobotArmSimulator.updateJoints rig u s) = Some om' /\
    ObjectManager.attachedObject om' = None /\
    ObjectManager.get k (ObjectManager.objects om') = Some m' /\
    ObjectManager.velocity (ObjectManager.userData m') = THREE.Vec3 0 0 0.
Proof.
  intros Hom Ha Hget Hgw.
  destruct (releaseObject_velocity om k m Ha Hget) as (m' & Hget' & Hv & _ & Hnone).
  exists (ObjectManager.releaseObject om), m'. repeat split; auto.
  unfold RobotArmSimulator.updateJoints. cbn [RobotArmSimulator.objectManager].
  rewrite Hom. f_equal.
  assert (RobotArmSimulator.pickUp rig
            (RobotArmSimulator.merge (RobotArmSimulator.angles s) u) om = om) as ->
    by (unfold RobotArmSimulator.pickUp; now rewrite Ha).
  unfold RobotArmSimulator.autoRelease. rewrite Ha. cbn zeta.
  rewrite Hget. cbn [mbind option_bind].
  rewrite decide_True by assumption.
  unfold ObjectManager.updateAttachedObject. now rewrite Hnone.
Qed.

Lemma size_of_gripping (m : ObjectManager.Mesh) :
  ObjectManager.size (ObjectManager.userData m) = None ->
  JS.or_else
    (ObjectManager.get "obj_1" (ObjectManager.objects (Examples.gripping m))
       ≫= fun m => ObjectManager.size (ObjectManager.userData m))
    0.3 = 0.3.
Proof.
  intros Hs.
  change (JS.or_else (ObjectManager.size (ObjectManager.userData m)) 0.3 = 0.3).
  now rewrite Hs.
Qed.

(** C3 at a sphere of size 0.2, as [spawnTestObjects] makes one: closing
    the gripper to 15 degrees picks it up, and the state reached holds it.
    The width at 15 degrees exceeds the size plus 0.1, and the next update
    at 15 degrees keeps the sphere attached: the release test compares with
    [userData.size || 0.3], and [spawnObject] writes no [userData.size].
    An update at 18 degrees, where the width exceeds 0.3 + 0.1, releases it. *)
Theorem C3_release_ignores_object_size :
  let free := Examples.holding (Examples.sphere (THREE.Vec3 0.1 0 0) 0.2) in
  let m :=
    ObjectManager.set_position (THREE.Vec3 0 (0 + 0.3) 0)
      (ObjectManager.set_emissive 0xff6b35%N 0.3
         (Examples.sphere (THREE.Vec3 0.1 0 0) 0.2)) in
  let u := Examples.gripperTo 15 in
  let a := RobotArmSimulator.merge Examples.angles0 u in
  let s := RobotArmSimulator.updateJoints Examples.rig0 u (Examples.simulator free) in
  RobotArmSimulator.objectManager s = Some (Examples.gripping m) /\
  ObjectManager.objSize m = 0.2 /\
  RobotArmSimulator.gripperWidth (RobotArmSimulator.merge (RobotArmSimulator.angles s) u)
    > 0.2 + 0.1 /\
  ObjectManager.attachedObject
    <$> RobotArmSimulator.objectManager (RobotArmSimulator.updateJoints Examples.rig0 u s)
    = Some (Some "obj_1") /\
  ObjectManager.attachedObject
    <$> RobotArmSimulator.objectManager
          (RobotArmSimulator.updateJoints Examples.rig0 (Examples.gripperTo 18) s)
    = Some None.
Proof.
  intros free m u a s. pose proof PI_bounds as [Hlo Hhi].
  assert (RobotArmSimulator.gripperWidth a = 0.16 + 15 * (PI / 180) * 0.4 * 2)
    as Hgw by reflexivity.
  assert (RobotArmSimulator.gripper a = 15) as Hg by reflexivity.
  assert (RobotArmSimulator.objectManager s = Some (Examples.gripping m)) as Hs.
  { unfold s, RobotArmSimulator.updateJoints.
    cbn [RobotArmSimulator.objectManager Examples.simulator RobotArmSimulator.angles].
    fold u. fold a. f_equal.
    assert (RobotArmSimulator.pickUp Examples.rig0 a free
            = snd (ObjectManager.attachToGripper (Some "obj_1")
                     ObjectManager.GripperBase free)) as ->.
    { unfold RobotArmSimulator.pickUp.
      change (ObjectManager.attachedObject free) with (@None string). cbn match.
      rewrite decide_True by lra.
      unfold free. rewrite checkClamping_holding by reflexivity.
      change (RobotArmSimulator.gripperCenterPosition Examples.rig0)
        with (THREE.Vec3 0 0 0).
      replace (THREE.distanceTo _ _) with (0.1 - 0)
        by (symmetry; apply (distanceTo_along_x 0.1 0 0 0); lra).
      rewrite objSize_sphere by lra. now rewrite decide_True by lra. }
    unfold RobotArmSimulator.autoRelease.
    change (ObjectManager.attachedObject (snd _)) with (Some "obj_1"). cbn match zeta.
    change (JS.or_else _ 0.3) with 0.3.
    rewrite decide_False by lra. reflexivity. }
  split; [exact Hs|]. split; [|split; [|split]].
  - unfold ObjectManager.objSize, m.
    cbn [ObjectManager.geometry ObjectManager.set_position ObjectManager.set_emissive
         Examples.sphere Examples.firstMesh THREE.parameters_width
         THREE.parameters_radius JS.or_else fmap option_fmap option_map].
    rewrite decide_False by lra. lra.
  - change (RobotArmSimulator.merge (RobotArmSimulator.angles s) u) with a. lra.
  - rewrite (updateJoints_release_test Examples.rig0 u s (Examples.gripping m)
               "obj_1" Hs eq_refl).
    change (RobotArmSimulator.merge (RobotArmSimulator.angles s) u) with a.
    rewrite size_of_gripping by reflexivity.
    now rewrite decide_False by lra.
  - rewrite (updateJoints_release_test Examples.rig0 (Examples.gripperTo 18) s
               (Examples.gripping m) "obj_1" Hs eq_refl).
    change (RobotArmSimulator.gripperWidth _) with (0.16 + 18 * (PI / 180) * 0.4 * 2).
    rewrite size_of_gripping by reflexivity.
    now rewrite decide_True by lra.
Qed.

(** ** The level manager *)

Lemma loadLevel_timedLevel :
  LevelManager.loadLevel (Some Examples.timedLevel) 0
    ObjectManager.constructor LevelManager.constructor
  = (true, Examples.holding (Examples.cube (THREE.Vec3 0 0.15 0) 0.3),
     Examples.timedManager).
Proof. reflexivity. Qed.

Lemma fits_cubeTarget (p : THREE.Vector3) (s : R) (i : nat) :
  LevelManager.fits (Examples.cube p s)
    {| LevelManager.mesh_position := p; LevelManager.targetIndex := i;
       LevelManager.userData := Examples.cubeTarget p |} = true.
Proof.
  unfold LevelManager.fits. cbn zeta.
  cbn [LevelManager.mesh_position LevelManager.userData Examples.cube
       Examples.firstMesh ObjectManager.position].
  rewrite distanceTo_self.
  rewrite decide_True by (cbn [Examples.cubeTarget LevelManager.size]; lra).
  reflexivity.
Qed.

(** A target that requires another colour does not take the cube. *)
Lemma fits_other_colour (p : THREE.Vector3) (s : R) :
  LevelManager.fits (Examples.cube p s)
    {| LevelManager.mesh_position := p; LevelManager.targetIndex := 0;
       LevelManager.userData :=
         {| LevelManager.position := p; LevelManager.size := 0.5;
            LevelManager.accepts := Some ["cube"; "sphere"];
            LevelManager.requiredColor := Some "#00FF00";
            LevelManager.stackable := None |} |} = false.
Proof.
  unfold LevelManager.fits. cbn zeta.
  cbn [LevelManager.mesh_position LevelManager.userData Examples.cube
       Examples.firstMesh ObjectManager.position].
  rewrite distanceTo_self.
  rewrite decide_True by (cbn [LevelManager.size]; lra).
  reflexivity.
Qed.

Lemma calculateStars_range (lm : LevelManager.t) :
  (1 <= LevelManager.calculateStars lm <= 3)%Z.
Proof.
  unfold LevelManager.calculateStars.
  destruct (LevelManager.currentLevel lm) as [level|]; [|lia].
  destruct (LevelManager.stars level) as [sd|]; [|lia].
  destruct (LevelManager.time sd) as [th|]; [|lia].
  repeat match goal with |- context [if ?b then _ else _] => destruct b end; lia.
Qed.

(** The win condition holds for the cube on the target of [timedLevel],
    whatever the elapsed time. *)
Lemma checkWinCondition_timed (e : R) :
  LevelManager.checkWinCondition
    (Examples.holding (Examples.cube (THREE.Vec3 0 0.15 0) 0.3))
    (LevelManager.set_elapsedTime e Examples.timedManager)
  = JS.Normal
      (true,
       LevelManager.set_targetStates
         [{| LevelManager.filled := true; LevelManager.object := Some "obj_1" |}]
         (LevelManager.set_elapsedTime e Examples.timedManager)).
Proof.
  unfold LevelManager.checkWinCondition, LevelManager.updateTargetStates.
  cbn [LevelManager.currentLevel LevelManager.set_elapsedTime Examples.timedManager
       LevelManager.targetMeshes LevelManager.targetStates fmap list_fmap
       ObjectManager.getAllObjects ObjectManager.objects Examples.holding snd
       LevelManager.scanObjects LevelManager.scanTargets].
  rewrite fits_cubeTarget. reflexivity.
Qed.

(** ** Claims on the level manager *)

(** C6: when a level is active, has a time limit (a [timeLimit] that the
    test of [update] takes as present: a number other than 0) and the
    elapsed time exceeds it, [update] returns status 'failed' with reason
    'timeout', whatever the objects and targets are, so also when every
    target is filled in that frame; it does not return 'completed'. *)
Theorem C6_timeout_precedes_win (now : R) (om : ObjectManager.t)
    (lm : LevelManager.t) (level : LevelManager.Level) (limit : R) :
  LevelManager.isActive lm = true ->
  LevelManager.currentLevel lm = Some level ->
  LevelManager.timeLimit level = Some limit ->
  limit <> 0 ->
  (now - LevelManager.levelStartTime lm) / 1000 > limit ->
  LevelManager.update now om lm
    = JS.Normal
        (Some (LevelManager.failed "timeout"),
         LevelManager.set_elapsedTime ((now - LevelManager.levelStartTime lm) / 1000) lm) /\
  (forall t n lm',
     LevelManager.update now om lm <> JS.Normal (Some (LevelManager.completed t n), lm')).
Proof.
  intros Hact Hlvl Hlim Hnz Hgt.
  assert (LevelManager.update now om lm
          = JS.Normal
              (Some (LevelManager.failed "timeout"),
               LevelManager.set_elapsedTime
                 ((now - LevelManager.levelStartTime lm) / 1000) lm)) as Hup.
  { unfold LevelManager.update. rewrite Hact, Hlvl, Hlim. cbn zeta.
    cbn [JS.falsy LevelManager.gtR LevelManager.elapsedTime
         LevelManager.set_elapsedTime].
    rewrite bool_decide_eq_false_2 by assumption.
    rewrite bool_decide_eq_true_2 by assumption. reflexivity. }
  split; [exact Hup|]. intros t n lm'. rewrite Hup. intros [= ?].
Qed.

(** C6 at a frame 181 seconds after the start of a level with a limit of 180
    seconds whose only target is filled in that frame. *)
Lemma C6_timeout_precedes_win_witness :
  let om := Examples.holding (Examples.cube (THREE.Vec3 0 0.15 0) 0.3) in
  LevelManager.checkWinCondition om
    (LevelManager.set_elapsedTime ((181000 - 0) / 1000) Examples.timedManager)
  = JS.Normal
      (true,
       LevelManager.set_targetStates
         [{| LevelManager.filled := true; LevelManager.object := Some "obj_1" |}]
         (LevelManager.set_elapsedTime ((181000 - 0) / 1000) Examples.timedManager)) /\
  LevelManager.update 181000 om Examples.timedManager
  = JS.Normal
      (Some (LevelManager.failed "timeout"),
       LevelManager.set_elapsedTime ((181000 - 0) / 1000) Examples.timedManager).
Proof.
  intros om. split.
  - apply checkWinCondition_timed.
  - apply (C6_timeout_precedes_win 181000 om Examples.timedManager
             Examples.timedLevel 180); try reflexivity; cbn; lra.
Defined.

(** C7: with ascending star thresholds [t0, t1, t2], a completion counts 3
    stars when the elapsed time is at most t0, 2 when it is above t0 and at
    most t1, 1 when it is above t1 and at most t2, and 1 when it is above
    t2; the count is never 0. *)
Theorem C7_stars_by_time (lm : LevelManager.t) (level : LevelManager.Level)
    (t0 t1 t2 : R) :
  LevelManager.currentLevel lm = Some level ->
  LevelManager.stars level = Some {| LevelManager.time := Some [t0; t1; t2] |} ->
  t0 <= t1 <= t2 ->
  (LevelManager.elapsedTime lm <= t0 -> LevelManager.calculateStars lm = 3%Z) /\
  (t0 < LevelManager.elapsedTime lm <= t1 -> LevelManager.calculateStars lm = 2%Z) /\
  (t1 < LevelManager.elapsedTime lm <= t2 -> LevelManager.calculateStars lm = 1%Z) /\
  (t2 < LevelManager.elapsedTime lm -> LevelManager.calculateStars lm = 1%Z) /\
  LevelManager.calculateStars lm <> 0%Z.
Proof.
  intros Hlvl Hstars Hasc.
  split; [|split; [|split; [|split]]];
    try (pose proof (calculateStars_range lm); lia);
    intros He; unfold LevelManager.calculateStars; rewrite Hlvl, Hstars;
    cbn [LevelManager.time lookup list_lookup LevelManager.leR];
    repeat case_bool_decide; try reflexivity; exfalso; lra.
Qed.

(** C7 at the thresholds 60, 90, 120 and an elapsed time of 75 seconds. *)
Lemma C7_stars_by_time_witness :
  LevelManager.calculateStars (LevelManager.set_elapsedTime 75 Examples.timedManager)
  = 2%Z.
Proof.
  assert (60 <= 90 <= 120) as Hasc by lra.
  apply (proj1 (proj2 (C7_stars_by_time
                         (LevelManager.set_elapsedTime 75 Examples.timedManager)
                         Examples.timedLevel 60 90 120 eq_refl eq_refl Hasc))).
  cbn [LevelManager.elapsedTime LevelManager.set_elapsedTime]. lra.
Defined.

(** ** One object, one target *)

Lemma scanTargets_result (obj : ObjectManager.Mesh) (meshes : list LevelManager.TargetMesh)
    (i : nat) (states states' : list LevelManager.TargetState) :
  LevelManager.scanTargets obj i meshes states = JS.Normal states' ->
  states' = states \/
  exists j,
    states'
    = <[j := {| LevelManager.filled := true;
                LevelManager.object :=
                  Some (ObjectManager.id (ObjectManager.userData obj)) |}]> states.
Proof.
  revert i. induction meshes as [|target meshes IH]; intros i; cbn [LevelManager.scanTargets].
  - intros [= <-]. now left.
  - destruct (LevelManager.fits obj target); [|apply IH].
    destruct (states !! i); [|discriminate].
    intros [= <-]. right. now exists i.
Qed.

Lemma exclusive_insert (states : list LevelManager.TargetState) (seen : list string)
    (j : nat) (k0 : string) :
  k0 ∉ seen ->
  Props.exclusive states -> Props.recorded states seen ->
  Props.exclusive
    (<[j := {| LevelManager.filled := true; LevelManager.object := Some k0 |}]> states) /\
  Props.recorded
    (<[j := {| LevelManager.filled := true; LevelManager.object := Some k0 |}]> states)
    (k0 :: seen).
Proof.
  intros Hnew Hex Hrec. split.
  - intros i1 i2 s1 s2 k H1 H2 Ho1 Ho2.
    apply list_lookup_insert_Some in H1 as [(-> & <- & _)|(Hne1 & H1)];
      apply list_lookup_insert_Some in H2 as [(E2 & <- & _)|(Hne2 & H2)];
      cbn [LevelManager.object] in *.
    + congruence.
    + injection Ho1 as <-. exfalso. apply Hnew. eapply Hrec; eauto.
    + injection Ho2 as <-. exfalso. apply Hnew. eapply Hrec; eauto.
    + eapply Hex; eauto.
  - intros i si k Hi Ho.
    apply list_lookup_insert_Some in Hi as [(-> & <- & _)|(Hne & Hi)];
      cbn [LevelManager.object] in *.
    + injection Ho as <-. apply list_elem_of_here.
    + apply list_elem_of_further. eapply Hrec; eauto.
Qed.

Lemma scanObjects_exclusive (meshes : list LevelManager.TargetMesh)
    (objs : list ObjectManager.Mesh) (states states' : list LevelManager.TargetState)
    (seen : list string) :
  NoDup (Props.ids objs) ->
  (forall k, k ∈ Props.ids objs -> k ∉ seen) ->
  Props.exclusive states -> Props.recorded states seen ->
  LevelManager.scanObjects objs meshes states = JS.Normal states' ->
  Props.exclusive states'.
Proof.
  revert states seen. induction objs as [|obj objs IH]; intros states seen Hnd Hfresh Hex Hrec.
  - cbn [LevelManager.scanObjects]. now intros [= <-].
  - cbn [LevelManager.scanObjects].
    destruct (LevelManager.scanTargets obj 0 meshes states) as [states1|] eqn:Hscan;
      [|discriminate].
    cbn [mbind completion_bind JS.bind].
    unfold Props.ids in Hnd, Hfresh. rewrite fmap_cons in Hnd, Hfresh.
    apply NoDup_cons in Hnd as [Hk Hnd].
    set (k0 := ObjectManager.id (ObjectManager.userData obj)) in *.
    assert (k0 ∉ seen) as Hk0 by (apply Hfresh, list_elem_of_here).
    apply scanTargets_result in Hscan as [->|[j ->]].
    + apply (IH states seen); auto.
      intros k Hin. apply Hfresh. now apply list_elem_of_further.
    + destruct (exclusive_insert states seen j k0 Hk0 Hex Hrec) as [Hex' Hrec'].
      apply (IH _ (k0 :: seen)); auto.
      intros k Hin Hin'. apply elem_of_cons in Hin' as [->|Hin'].
      * now apply Hk.
      * apply (Hfresh k); [now apply list_elem_of_further|assumption].
Qed.

Lemma wf_ids (om : ObjectManager.t) :
  Props.wf om -> NoDup (Props.ids (ObjectManager.getAllObjects om)).
Proof.
  intros [Hnd Hid]. unfold Props.ids, ObjectManager.getAllObjects.
  rewrite <- list_fmap_compose.
  replace ((fun m => ObjectManager.id (ObjectManager.userData m)) ∘ snd
             <$> ObjectManager.objects om)
    with (fst <$> ObjectManager.objects om); [assumption|].
  induction Hid as [|e l He _ IH]; [reflexivity|].
  rewrite !fmap_cons. f_equal; [now rewrite <- He|]. apply IH.
  rewrite fmap_cons in Hnd. now apply NoDup_cons in Hnd as [_ Hnd].
Qed.

Lemma updateTargetStates_exclusive (om : ObjectManager.t) (lm lm' : LevelManager.t) :
  Props.wf om ->
  LevelManager.updateTargetStates om lm = JS.Normal lm' ->
  Props.exclusive (LevelManager.targetStates lm').
Proof.
  intros Hwf. unfold LevelManager.updateTargetStates. cbn zeta.
  destruct (LevelManager.scanObjects _ _ _) as [states|] eqn:Hscan; [|discriminate].
  cbn [mbind completion_bind JS.bind]. intros [= <-].
  cbn [LevelManager.targetStates LevelManager.set_targetStates].
  refine (scanObjects_exclusive (LevelManager.targetMeshes lm)
            (ObjectManager.getAllObjects om) _ states [] (wf_ids om Hwf) _ _ _ Hscan).
  - intros k _. apply not_elem_of_nil.
  - intros i j si sj k Hi _ Ho. apply list_lookup_fmap_Some in Hi as (? & -> & _).
    discriminate.
  - intros i si k Hi Ho. apply list_lookup_fmap_Some in Hi as (? & -> & _).
    discriminate.
Qed.

Lemma scanObjects_attributed (meshes : list LevelManager.TargetMesh)
    (objs : list ObjectManager.Mesh) (states states' : list LevelManager.TargetState) :
  Props.attributed states ->
  LevelManager.scanObjects objs meshes states = JS.Normal states' ->
  Props.attributed states'.
Proof.
  revert states. induction objs as [|obj objs IH]; intros states Hat;
    cbn [LevelManager.scanObjects].
  - now intros [= <-].
  - destruct (LevelManager.scanTargets obj 0 meshes states) as [states1|] eqn:Hscan;
      [|discriminate].
    cbn [mbind completion_bind JS.bind]. apply IH.
    apply scanTargets_result in Hscan as [->|[j ->]]; [assumption|].
    intros i si Hi Hf.
    apply list_lookup_insert_Some in Hi as [(-> & <- & _)|(Hne & Hi)].
    + now eexists.
    + now apply (Hat i).
Qed.

Lemma updateTargetStates_attributed (om : ObjectManager.t) (lm lm' : LevelManager.t) :
  LevelManager.updateTargetStates om lm = JS.Normal lm' ->
  Props.attributed (LevelManager.targetStates lm').
Proof.
  unfold LevelManager.updateTargetStates. cbn zeta.
  destruct (LevelManager.scanObjects _ _ _) as [states|] eqn:Hscan; [|discriminate].
  cbn [mbind completion_bind JS.bind]. intros [= <-].
  cbn [LevelManager.targetStates LevelManager.set_targetStates].
  refine (scanObjects_attributed _ _ _ _ _ Hscan).
  intros i si Hi Hf. apply list_lookup_fmap_Some in Hi as (? & -> & _). discriminate.
Qed.

(** With one object in the registry at most one target is filled. *)
Lemma single_object_one_target (om : ObjectManager.t) (lm lm' : LevelManager.t)
    (obj : ObjectManager.Mesh) (i j : nat) (si sj : LevelManager.TargetState) :
  ObjectManager.getAllObjects om = [obj] ->
  LevelManager.updateTargetStates om lm = JS.Normal lm' ->
  LevelManager.targetStates lm' !! i = Some si ->
  LevelManager.targetStates lm' !! j = Some sj ->
  LevelManager.filled si = true -> LevelManager.filled sj = true ->
  i = j.
Proof.
  intros Hobjs. unfold LevelManager.updateTargetStates. cbn zeta. rewrite Hobjs.
  cbn [LevelManager.scanObjects].
  destruct (LevelManager.scanTargets obj 0 _ _) as [states|] eqn:Hscan; [|discriminate].
  cbn [mbind completion_bind JS.bind]. intros [= <-].
  cbn [LevelManager.targetStates LevelManager.set_targetStates].
  assert (forall n sn,
            ((fun _ => {| LevelManager.filled := false; LevelManager.object := None |})
               <$> LevelManager.targetStates lm) !! n = Some sn ->
            LevelManager.filled sn = true -> False) as Hreset.
  { intros n sn Hn Hf. apply list_lookup_fmap_Some in Hn as (? & -> & _). discriminate. }
  apply scanTargets_result in Hscan as [->|[j0 ->]]; intros Hi Hj Hfi Hfj.
  - destruct (Hreset i si Hi Hfi).
  - apply list_lookup_insert_Some in Hi as [(-> & _ & _)|(_ & Hi)];
      [|destruct (Hreset i si Hi Hfi)].
    apply list_lookup_insert_Some in Hj as [(-> & _ & _)|(_ & Hj)];
      [reflexivity|destruct (Hreset j sj Hj Hfj)].
Qed.

(** C9 as stated fails: in no configuration does one evaluation of the
    target states mark two targets as filled by the same object, nor two
    targets at all when the registry holds a single object. *)
Lemma C9_counterexample :
  ~ exists (om : ObjectManager.t) (lm lm' : LevelManager.t) (i j : nat)
      (si sj : LevelManager.TargetState),
      Props.wf om /\
      LevelManager.updateTargetStates om lm = JS.Normal lm' /\
      i <> j /\
      LevelManager.targetStates lm' !! i = Some si /\
      LevelManager.targetStates lm' !! j = Some sj /\
      LevelManager.filled si = true /\
      LevelManager.filled sj = true /\
      (LevelManager.object si = LevelManager.object sj \/
       exists obj, ObjectManager.getAllObjects om = [obj]).
Proof.
  intros (om & lm & lm' & i & j & si & sj & Hwf & Hup & Hne & Hi & Hj & Hfi & Hfj & Hone).
  apply Hne. destruct Hone as [Heq|[obj Hobjs]].
  - destruct (updateTargetStates_attributed om lm lm' Hup i si Hi Hfi) as [k Hk].
    apply (updateTargetStates_exclusive om lm lm' Hwf Hup i j si sj k); congruence.
  - exact (single_object_one_target om lm lm' obj i j si sj Hobjs Hup Hi Hj Hfi Hfj).
Qed.

(** ** The progress store *)

Lemma loadProgress_saveProgress (levelId stars : Z) (time : R) (ls : Storage.LocalStorage) :
  Storage.loadProgress (snd (Storage.saveProgress true levelId stars time ls))
  = fst (Storage.saveProgress true levelId stars time ls).
Proof. reflexivity. Qed.

(** The star count stored for the level after [saveProgress]. *)
Lemma saveProgress_stars (writable : bool) (levelId stars : Z) (time : R)
    (ls : Storage.LocalStorage) :
  Storage.levelStars (fst (Storage.saveProgress writable levelId stars time ls)) !! levelId
  = Some
      match Storage.levelStars (Storage.loadProgress ls) !! levelId with
      | Some s => if decide (s = 0 \/ s < stars)%Z then stars else s
      | None => stars
      end.
Proof.
  unfold Storage.saveProgress, Storage.loadProgress. cbn zeta.
  cbn [fst Storage.levelStars].
  destruct (Storage.levelStars (Storage.progress (Storage.loadAll ls)) !! levelId)
    as [s|] eqn:Hs; cbn [JS.falsyZ Storage.ltZ orb].
  - destruct (decide (s = 0 \/ s < stars)%Z) as [Hc|Hc].
    + replace (bool_decide (s = 0%Z) || bool_decide (s < stars)%Z) with true.
      * now rewrite lookup_insert_eq.
      * symmetry. apply orb_true_iff.
        destruct Hc; [left|right]; now apply bool_decide_eq_true_2.
    + replace (bool_decide (s = 0%Z) || bool_decide (s < stars)%Z) with false.
      * assumption.
      * symmetry. apply orb_false_iff.
        split; apply bool_decide_eq_false_2; tauto.
  - now rewrite lookup_insert_eq.
Qed.

(** The best time stored for the level after [saveProgress]. *)
Lemma saveProgress_bestTime (writable : bool) (levelId stars : Z) (time : R)
    (ls : Storage.LocalStorage) :
  Storage.levelBestTimes (fst (Storage.saveProgress writable levelId stars time ls))
    !! levelId
  = Some
      match Storage.levelBestTimes (Storage.loadProgress ls) !! levelId with
      | Some b => if decide (b = 0 \/ b > time) then time else b
      | None => time
      end.
Proof.
  unfold Storage.saveProgress, Storage.loadProgress. cbn zeta.
  cbn [fst Storage.levelBestTimes].
  destruct (Storage.levelBestTimes (Storage.progress (Storage.loadAll ls)) !! levelId)
    as [b|] eqn:Hb; cbn [JS.falsy Storage.gtR orb].
  - destruct (decide (b = 0 \/ b > time)) as [Hc|Hc].
    + replace (bool_decide (b = 0) || bool_decide (b > time)) with true.
      * now rewrite lookup_insert_eq.
      * symmetry. apply orb_true_iff.
        destruct Hc; [left|right]; now apply bool_decide_eq_true_2.
    + replace (bool_decide (b = 0) || bool_decide (b > time)) with false.
      * assumption.
      * symmetry. apply orb_false_iff.
        split; apply bool_decide_eq_false_2; tauto.
  - now rewrite lookup_insert_eq.
Qed.

(** Where a star count and a best time other than 0 are stored, a save
    keeps the better of the stored and the new value. *)
Lemma saveProgress_improves_only (levelId stars s : Z) (time b : R)
    (ls : Storage.LocalStorage) :
  Storage.levelStars (Storage.loadProgress ls) !! levelId = Some s ->
  Storage.levelBestTimes (Storage.loadProgress ls) !! levelId = Some b ->
  s <> 0%Z -> b <> 0 ->
  let ls' := snd (Storage.saveProgress true levelId stars time ls) in
  Storage.levelStars (Storage.loadProgress ls') !! levelId = Some (Z.max s stars) /\
  Storage.levelBestTimes (Storage.loadProgress ls') !! levelId = Some (Rmin b time).
Proof.
  intros Hs Hb Hs0 Hb0 ls'. unfold ls'. rewrite loadProgress_saveProgress.
  rewrite saveProgress_stars, saveProgress_bestTime, Hs, Hb. split; f_equal.
  - case_decide; lia.
  - unfold Rmin. case_decide; destruct (Rle_dec b time); lra.
Qed.

(** In [Examples.timedLevel], whose cube starts on its target (as no level
    of the table does), a frame at the very time stamp at which the level
    was loaded completes the level at an elapsed time of 0, and
    [completeLevel] stores that time. *)
Lemma first_frame_completion_stores_zero :
  let om := Examples.holding (Examples.cube (THREE.Vec3 0 0.15 0) 0.3) in
  exists lm : LevelManager.t,
    LevelManager.update 0 om Examples.timedManager
      = JS.Normal (Some (LevelManager.completed ((0 - 0) / 1000) 3), lm) /\
    Storage.levelBestTimes
      (Storage.loadProgress (snd (fst (LevelManager.completeLevel true None lm))))
      !! 1%Z = Some ((0 - 0) / 1000) /\
    (0 - 0) / 1000 = 0.
Proof.
  intros om. eexists. split; [|split; [|lra]].
  - unfold LevelManager.update.
    cbn [LevelManager.isActive LevelManager.currentLevel Examples.timedManager
         LevelManager.timeLimit Examples.timedLevel LevelManager.levelStartTime
         JS.falsy LevelManager.gtR].
    rewrite (bool_decide_eq_false_2 (180 = 0)) by lra.
    change (LevelManager.elapsedTime (LevelManager.set_elapsedTime ((0 - 0) / 1000) _))
      with ((0 - 0) / 1000).
    rewrite (bool_decide_eq_false_2 (_ > 180)) by lra.
    cbn [negb andb].
    unfold om. rewrite checkWinCondition_timed.
    cbn [mbind completion_bind JS.bind].
    unfold LevelManager.calculateStars.
    cbn [LevelManager.currentLevel LevelManager.stars Examples.timedLevel
         Examples.timedManager LevelManager.set_targetStates
         LevelManager.set_elapsedTime LevelManager.elapsedTime
         LevelManager.time lookup list_lookup LevelManager.leR].
    rewrite (bool_decide_eq_true_2 (_ <= 60)) by lra.
    reflexivity.
  - unfold LevelManager.completeLevel.
    cbn [LevelManager.currentLevel LevelManager.set_targetStates
         LevelManager.set_elapsedTime Examples.timedManager
         fst snd LevelManager.elapsedTime].
    rewrite loadProgress_saveProgress, saveProgress_bestTime. reflexivity.
Qed.

(** The test for a stored value takes 0 as no value: over a stored best
    time of 0 seconds a slower time of 5 seconds is written.  The times
    and star counts the level manager passes are not 0 (see C8). *)
Lemma saveProgress_zero_as_missing :
  let ls1 := snd (Storage.saveProgress true 1 2 0 None) in
  let ls2 := snd (Storage.saveProgress true 1 1 5 ls1) in
  Storage.levelStars (Storage.loadProgress ls1) !! 1%Z = Some 2%Z /\
  Storage.levelBestTimes (Storage.loadProgress ls1) !! 1%Z = Some 0 /\
  Storage.levelStars (Storage.loadProgress ls2) !! 1%Z = Some 2%Z /\
  Storage.levelBestTimes (Storage.loadProgress ls2) !! 1%Z = Some 5.
Proof.
  intros ls1 ls2.
  assert (Storage.levelStars (Storage.loadProgress ls1) !! 1%Z = Some 2%Z) as Hs1.
  { unfold ls1. rewrite loadProgress_saveProgress, saveProgress_stars. reflexivity. }
  assert (Storage.levelBestTimes (Storage.loadProgress ls1) !! 1%Z = Some 0) as Hb1.
  { unfold ls1. rewrite loadProgress_saveProgress, saveProgress_bestTime. reflexivity. }
  split; [exact Hs1|]. split; [exact Hb1|]. split.
  - unfold ls2. rewrite loadProgress_saveProgress, saveProgress_stars, Hs1.
    f_equal.
  - unfold ls2. rewrite loadProgress_saveProgress, saveProgress_bestTime, Hb1.
    f_equal. rewrite decide_True; [reflexivity|now left].
Qed.

(** * Further properties *)

(** ** The clamp test and the legacy pick-up test *)

Lemma clampLoop_nearest (om : ObjectManager.t) (c : THREE.Vector3) (gw : R)
    (l seen : list (string * ObjectManager.Mesh)) (best : option string * R) :
  snd best <= 1.0 ->
  (fst best = None -> snd best = 1.0) ->
  (forall e, e ∈ seen -> Props.clampable om gw e ->
             snd best <= THREE.distanceTo c (ObjectManager.position (snd e))) ->
  (forall k, fst best = Some k ->
     exists obj, (k, obj) ∈ seen /\ Props.clampable om gw (k, obj) /\
       THREE.distanceTo c (ObjectManager.position obj) = snd best) ->
  let best' := fold_left (ObjectManager.clampStep om c gw) l best in
  snd best' <= 1.0 /\
  (fst best' = None -> snd best' = 1.0) /\
  (forall e, e ∈ seen ++ l -> Props.clampable om gw e ->
             snd best' <= THREE.distanceTo c (ObjectManager.position (snd e))) /\
  (forall k, fst best' = Some k ->
     exists obj, (k, obj) ∈ seen ++ l /\ Props.clampable om gw (k, obj) /\
       THREE.distanceTo c (ObjectManager.position obj) = snd best').
Proof.
  revert seen best. induction l as [|e l IH]; intros seen best Hle Hnone Hmin Hsome.
  - cbn [fold_left]. rewrite app_nil_r. auto.
  - cbn [fold_left].
    replace (seen ++ e :: l) with ((seen ++ [e]) ++ l) by (now rewrite <- app_assoc).
    apply IH; clear IH.
    + unfold ObjectManager.clampStep. cbn zeta.
      repeat (case_match || case_decide); cbn [fst snd]; lra.
    + unfold ObjectManager.clampStep. cbn zeta.
      repeat (case_match || case_decide); cbn [fst snd]; auto; discriminate.
    + intros e' He' Hc. apply elem_of_app in He' as [He'|He'].
      * specialize (Hmin e' He' Hc). unfold ObjectManager.clampStep. cbn zeta.
        repeat (case_match || case_decide); cbn [fst snd]; lra.
      * apply list_elem_of_singleton in He' as ->.
        destruct Hc as (Hp & Ha & Hb). unfold ObjectManager.clampStep. cbn zeta.
        rewrite Hp, Ha. cbn [negb].
        repeat case_decide; cbn [fst snd]; lra.
    + intros k. unfold ObjectManager.clampStep. cbn zeta.
      destruct (ObjectManager.pickable (ObjectManager.userData (snd e))) eqn:Hp;
        cbn [negb];
        [destruct (ObjectManager.isAttached om (fst e)) eqn:Ha;
         [|case_decide as Hd; [case_decide as Hb|]]|].
      all: try (intros Hk; destruct (Hsome k Hk) as (obj & Hin & Hc & Hdist);
                exists obj; split; [apply elem_of_app; now left|auto]).
      cbn [fst snd]. intros [= <-]. exists (snd e). split.
      * apply elem_of_app. right. destruct e. apply list_elem_of_here.
      * destruct e as [k m]. unfold Props.clampable. cbn [fst snd] in *.
        destruct Hb. repeat split; try assumption; try reflexivity; lra.
Qed.

(** X1: [checkClamping] returns the nearest of the entries that pass its
    tests, when that one is closer than 0.3 to the centre, and returns
    nothing only when none of them is closer than 0.3. *)
Theorem X1_checkClamping_nearest (om : ObjectManager.t) (c lf rf : THREE.Vector3)
    (gw : R) :
  match ObjectManager.checkClamping c gw lf rf om with
  | Some k =>
      exists obj, (k, obj) ∈ ObjectManager.objects om /\
        Props.clampable om gw (k, obj) /\
        THREE.distanceTo c (ObjectManager.position obj) < 0.3 /\
        forall e, e ∈ ObjectManager.objects om -> Props.clampable om gw e ->
          THREE.distanceTo c (ObjectManager.position obj)
            <= THREE.distanceTo c (ObjectManager.position (snd e))
  | None =>
      forall e, e ∈ ObjectManager.objects om -> Props.clampable om gw e ->
        0.3 <= THREE.distanceTo c (ObjectManager.position (snd e))
  end.
Proof.
  destruct (clampLoop_nearest om c gw (ObjectManager.objects om) [] (None, 1.0))
    as (Hle & Hnone & Hmin & Hsome); cbn [fst snd]; try lra; try discriminate.
  { intros e He. now apply elem_of_nil in He. }
  rewrite app_nil_l in Hmin, Hsome.
  unfold ObjectManager.checkClamping. cbn zeta.
  destruct (fst (fold_left _ _ _)) as [k|] eqn:Hfst.
  - case_decide as Hd.
    + destruct (Hsome k eq_refl) as (obj & Hin & Hc & Hdist).
      exists obj. split; [assumption|]. split; [assumption|]. split; [lra|].
      intros e He Hce. rewrite Hdist. now apply Hmin.
    + intros e He Hce. specialize (Hmin e He Hce). lra.
  - intros e He Hce. specialize (Hmin e He Hce). specialize (Hnone eq_refl). lra.
Qed.

Lemma pickupLoop_nearest (om : ObjectManager.t) (c : THREE.Vector3)
    (l seen : list (string * ObjectManager.Mesh)) (best : option string * R) :
  snd best <= 0.5 ->
  (fst best = None -> snd best = 0.5) ->
  (forall e, e ∈ seen -> Props.loose om e ->
             snd best <= THREE.distanceTo c (ObjectManager.position (snd e))) ->
  (forall k, fst best = Some k ->
     exists obj, (k, obj) ∈ seen /\ Props.loose om (k, obj) /\
       THREE.distanceTo c (ObjectManager.position obj) = snd best /\ snd best < 0.5) ->
  let best' := fold_left (ObjectManager.pickupStep om c) l best in
  snd best' <= 0.5 /\
  (fst best' = None -> snd best' = 0.5) /\
  (forall e, e ∈ seen ++ l -> Props.loose om e ->
             snd best' <= THREE.distanceTo c (ObjectManager.position (snd e))) /\
  (forall k, fst best' = Some k ->
     exists obj, (k, obj) ∈ seen ++ l /\ Props.loose om (k, obj) /\
       THREE.distanceTo c (ObjectManager.position obj) = snd best' /\ snd best' < 0.5).
Proof.
  revert seen best. induction l as [|e l IH]; intros seen best Hle Hnone Hmin Hsome.
  - cbn [fold_left]. rewrite app_nil_r. auto.
  - cbn [fold_left].
    replace (seen ++ e :: l) with ((seen ++ [e]) ++ l) by (now rewrite <- app_assoc).
    apply IH; clear IH.
    + unfold ObjectManager.pickupStep. cbn zeta.
      repeat (case_match || case_decide); cbn [fst snd]; lra.
    + unfold ObjectManager.pickupStep. cbn zeta.
      repeat (case_match || case_decide); cbn [fst snd]; auto; discriminate.
    + intros e' He' Hc. apply elem_of_app in He' as [He'|He'].
      * specialize (Hmin e' He' Hc). unfold ObjectManager.pickupStep. cbn zeta.
        repeat (case_match || case_decide); cbn [fst snd]; lra.
      * apply list_elem_of_singleton in He' as ->.
        destruct Hc as (Hp & Ha). unfold ObjectManager.pickupStep. cbn zeta.
        rewrite Hp, Ha. cbn [negb].
        repeat case_decide; cbn [fst snd]; lra.
    + intros k. unfold ObjectManager.pickupStep. cbn zeta.
      destruct (ObjectManager.pickable (ObjectManager.userData (snd e))) eqn:Hp;
        cbn [negb];
        [destruct (ObjectManager.isAttached om (fst e)) eqn:Ha;
         [|case_decide as Hd]|].
      all: try (intros Hk; destruct (Hsome k Hk) as (obj & Hin & Hc & Hdist);
                exists obj; split; [apply elem_of_app; now left|auto]).
      cbn [fst snd]. intros [= <-]. exists (snd e). split.
      * apply elem_of_app. right. destruct e. apply list_elem_of_here.
      * destruct e as [k m]. unfold Props.loose. cbn [fst snd] in *.
        repeat split; try assumption; try reflexivity; lra.
Qed.

(** X2: the legacy test [checkPickup] returns nothing when the gripper
    angle is above 10 degrees; otherwise it returns the nearest pickable
    object that is not held, when that one is closer than 0.5 to the
    gripper, and nothing only when no such object is closer than 0.5. *)
Theorem X2_checkPickup_nearest (om : ObjectManager.t) (c : THREE.Vector3)
    (gripperAngle : R) :
  match ObjectManager.checkPickup c gripperAngle om with
  | Some k =>
      gripperAngle <= 10 /\
      exists obj, (k, obj) ∈ ObjectManager.objects om /\
        Props.loose om (k, obj) /\
        THREE.distanceTo c (ObjectManager.position obj) < 0.5 /\
        forall e, e ∈ ObjectManager.objects om -> Props.loose om e ->
          THREE.distanceTo c (ObjectManager.position obj)
            <= THREE.distanceTo c (ObjectManager.position (snd e))
  | None =>
      gripperAngle > 10 \/
      forall e, e ∈ ObjectManager.objects om -> Props.loose om e ->
        0.5 <= THREE.distanceTo c (ObjectManager.position (snd e))
  end.
Proof.
  destruct (pickupLoop_nearest om c (ObjectManager.objects om) [] (None, 0.5))
    as (Hle & Hnone & Hmin & Hsome); cbn [fst snd]; try lra; try discriminate.
  { intros e He. now apply elem_of_nil in He. }
  rewrite app_nil_l in Hmin, Hsome.
  unfold ObjectManager.checkPickup. cbn zeta.
  case_decide as Hangle; [now left|].
  destruct (fst (fold_left _ _ _)) as [k|] eqn:Hfst.
  - destruct (Hsome k eq_refl) as (obj & Hin & Hc & Hdist & Hlt).
    split; [lra|]. exists obj. split; [assumption|]. split; [assumption|].
    split; [lra|].
    intros e He Hce. rewrite Hdist. now apply Hmin.
  - right. intros e He Hce. specialize (Hmin e He Hce). specialize (Hnone eq_refl). lra.
Qed.

(** ** What the physics pass leaves alone *)

Lemma same_body_refl (m : ObjectManager.Mesh) : Props.same_body m m.
Proof. repeat split. Qed.

Lemma same_body_trans (m1 m2 m3 : ObjectManager.Mesh) :
  Props.same_body m1 m2 -> Props.same_body m2 m3 -> Props.same_body m1 m3.
Proof.
  unfold Props.same_body. intros (?&?&?&?&?&?&?&?) (?&?&?&?&?&?&?&?).
  repeat split; congruence.
Qed.

Lemma pushAway_same_body (obj : ObjectManager.Mesh) (c : ObjectManager.Collider) :
  Props.same_body obj (ObjectManager.pushAway obj c).
Proof.
  unfold ObjectManager.pushAway. cbn zeta. case_decide; repeat split.
Qed.

Lemma integrate_same_body (g dt : R) (cs : list ObjectManager.Collider)
    (obj : ObjectManager.Mesh) :
  Props.same_body obj (ObjectManager.integrate g dt cs obj).
Proof.
  assert (forall o, Props.same_body o (fold_left ObjectManager.pushAway cs o)) as Hfold.
  { induction cs as [|c cs IH]; intros o; cbn [fold_left]; [apply same_body_refl|].
    eapply same_body_trans; [apply pushAway_same_body|apply IH]. }
  unfold ObjectManager.integrate. cbn zeta.
  repeat case_decide;
    try (eapply same_body_trans; [|apply Hfold]); repeat split.
Qed.

(** X3: a physics update keeps the keys of the registry in their order,
    the attachment and the counter of ids; the held object and static
    objects stay exactly as they are, and of every other object only the
    position, the velocity and the floor flag can change. *)
Theorem X3_update_frame (om : ObjectManager.t) (dt : R)
    (cs : list ObjectManager.Collider) :
  fst <$> ObjectManager.objects (ObjectManager.update dt cs om)
    = fst <$> ObjectManager.objects om /\
  ObjectManager.attachedObject (ObjectManager.update dt cs om)
    = ObjectManager.attachedObject om /\
  ObjectManager.nextId (ObjectManager.update dt cs om) = ObjectManager.nextId om /\
  forall (i : nat) (k : string) (obj : ObjectManager.Mesh),
    ObjectManager.objects om !! i = Some (k, obj) ->
    exists obj',
      ObjectManager.objects (ObjectManager.update dt cs om) !! i = Some (k, obj') /\
      Props.same_body obj obj' /\
      (ObjectManager.isAttached om k = true \/
       ObjectManager.isStatic (ObjectManager.userData obj) = true -> obj' = obj).
Proof.
  unfold ObjectManager.update. cbn zeta.
  cbn [ObjectManager.objects ObjectManager.set_objects ObjectManager.attachedObject
       ObjectManager.nextId].
  split; [|split; [reflexivity|split; [reflexivity|]]].
  - rewrite <- list_fmap_compose. apply list_fmap_ext. intros i e _. cbn.
    repeat case_match; reflexivity.
  - intros i k obj Hi. rewrite list_lookup_fmap, Hi. cbn [fmap option_fmap option_map fst snd].
    destruct (ObjectManager.isAttached om k) eqn:Ha;
      [|destruct (ObjectManager.isStatic (ObjectManager.userData obj)) eqn:Hs].
    + exists obj. split; [reflexivity|]. split; [apply same_body_refl|auto].
    + exists obj. split; [reflexivity|]. split; [apply same_body_refl|auto].
    + eexists. split; [reflexivity|]. split; [apply integrate_same_body|].
      intros [?|?]; discriminate.
Qed.

(** ** A push takes the object out of the collider *)

Lemma length_unit (v : THREE.Vector3) :
  THREE.length v <> 0 -> THREE.length (THREE.normalize v) = 1.
Proof.
  intros Hl. unfold THREE.normalize, THREE.divideScalar, THREE.multiplyScalar, JS.or_else.
  rewrite decide_False by assumption.
  unfold THREE.length in *. cbn [THREE.x THREE.y THREE.z].
  set (S := THREE.x v * THREE.x v + THREE.y v * THREE.y v + THREE.z v * THREE.z v) in *.
  assert (0 <= S) as HS by (unfold S; nra).
  pose proof (sqrt_sqrt S HS) as Hsq. pose proof (sqrt_pos S) as Hpos.
  replace (_ + _ + _) with (S * (1 / sqrt S) * (1 / sqrt S)) by (unfold S; ring).
  replace (S * (1 / sqrt S) * (1 / sqrt S)) with 1; [apply sqrt_1|].
  rewrite <- Hsq at 1. field. assumption.
Qed.

Lemma normalize_unit (v : THREE.Vector3) :
  THREE.length v = 1 -> THREE.normalize v = v.
Proof.
  intros Hl. unfold THREE.normalize, THREE.divideScalar, THREE.multiplyScalar, JS.or_else.
  rewrite Hl. rewrite decide_False by lra. destruct v as [a b c]. cbn [THREE.x THREE.y THREE.z].
  f_equal; field.
Qed.

Lemma length_subVectors (a b : THREE.Vector3) :
  THREE.length (THREE.subVectors a b) = THREE.distanceTo a b.
Proof. reflexivity. Qed.

Lemma length_squared (v : THREE.Vector3) :
  THREE.x v * THREE.x v + THREE.y v * THREE.y v + THREE.z v * THREE.z v
  = THREE.length v * THREE.length v.
Proof.
  unfold THREE.length. symmetry. apply sqrt_sqrt. nra.
Qed.

(** X4: when an object penetrates an arm collider, is not at its centre
    and is not lower than the centre, the push puts the object outside the
    collider, at the sum of the radii plus half the penetration depth from
    the centre, and changes its velocity by a vector of length 2. *)
Theorem X4_push_resolves (obj : ObjectManager.Mesh) (c : ObjectManager.Collider) :
  let dist :=
    THREE.distanceTo (ObjectManager.position obj) (ObjectManager.collider_position c) in
  let minDist :=
    ObjectManager.radius (ObjectManager.userData obj) + ObjectManager.collider_radius c in
  0 < dist < minDist ->
  THREE.y (ObjectManager.collider_position c) <= THREE.y (ObjectManager.position obj) ->
  THREE.distanceTo (ObjectManager.position (ObjectManager.pushAway obj c))
    (ObjectManager.collider_position c)
    = minDist + (minDist - dist) / 2 /\
  THREE.length
    (THREE.subVectors
       (ObjectManager.velocity (ObjectManager.userData (ObjectManager.pushAway obj c)))
       (ObjectManager.velocity (ObjectManager.userData obj)))
    = 2.
Proof.
  intros dist minDist Hdist Hy.
  set (d := THREE.subVectors (ObjectManager.position obj)
              (ObjectManager.collider_position c)).
  assert (THREE.length d = dist) as Hlen by reflexivity.
  assert (THREE.normalize d = THREE.multiplyScalar d (1 / dist)) as Hnorm.
  { unfold THREE.normalize, THREE.divideScalar, JS.or_else. rewrite Hlen.
    now rewrite decide_False by lra. }
  assert (THREE.length (THREE.normalize d) = 1) as Hunit
    by (apply length_unit; rewrite Hlen; lra).
  assert (0 <= THREE.y (THREE.normalize d)) as Hup.
  { apply normalize_y_nonneg. unfold d. cbn [THREE.subVectors THREE.y]. lra. }
  unfold ObjectManager.pushAway. cbn zeta. fold dist minDist d.
  rewrite decide_True by lra.
  rewrite (decide_False (P := THREE.y (THREE.normalize d) < 0)) by lra.
  rewrite (normalize_unit _ Hunit).
  cbn [ObjectManager.position ObjectManager.userData ObjectManager.velocity
       ObjectManager.set_userData ObjectManager.set_position ObjectManager.set_motion].
  split.
  - rewrite Hnorm.
    pose proof (length_squared d) as Hsq. rewrite Hlen in Hsq.
    unfold THREE.distanceTo, THREE.distanceToSquared, THREE.addScaledVector,
      THREE.multiplyScalar. cbn zeta. cbn [THREE.x THREE.y THREE.z].
    unfold d in Hsq |- *. cbn [THREE.subVectors THREE.x THREE.y THREE.z] in Hsq |- *.
    set (K := (minDist - dist) * 1.5).
    match goal with |- sqrt ?E = _ =>
      replace E with ((dist + K) * (dist + K))
    end.
    + rewrite sqrt_square by (unfold K; lra). unfold K. lra.
    + match goal with |- _ = ?E =>
        replace E with
          (((dist + K) / dist) * ((dist + K) / dist)
           * ((THREE.x (ObjectManager.position obj)
               - THREE.x (ObjectManager.collider_position c))
              * (THREE.x (ObjectManager.position obj)
                 - THREE.x (ObjectManager.collider_position c))
              + (THREE.y (ObjectManager.position obj)
                 - THREE.y (ObjectManager.collider_position c))
                * (THREE.y (ObjectManager.position obj)
                   - THREE.y (ObjectManager.collider_position c))
              + (THREE.z (ObjectManager.position obj)
                 - THREE.z (ObjectManager.collider_position c))
                * (THREE.z (ObjectManager.position obj)
                   - THREE.z (ObjectManager.collider_position c))))
          by (field; lra)
      end.
      rewrite Hsq. field. lra.
  - pose proof (length_squared (THREE.normalize d)) as Hsq. rewrite Hunit in Hsq.
    unfold THREE.length, THREE.subVectors, THREE.addScaledVector.
    cbn [THREE.x THREE.y THREE.z].
    replace 2.0 with 2 by lra.
    match goal with |- sqrt ?E = _ =>
      replace E with
        (2 * 2 * (THREE.x (THREE.normalize d) * THREE.x (THREE.normalize d)
                  + THREE.y (THREE.normalize d) * THREE.y (THREE.normalize d)
                  + THREE.z (THREE.normalize d) * THREE.z (THREE.normalize d)))
        by ring
    end.
    rewrite Hsq. replace (2 * 2 * (1 * 1)) with (2 * 2) by ring.
    apply sqrt_square. lra.
Qed.

(** X4 at a cube of size 0.3 level with the arm sphere at the origin and
    0.5 away from its centre. *)
Lemma X4_push_resolves_witness :
  THREE.distanceTo
    (ObjectManager.position
       (ObjectManager.pushAway (Examples.cube (THREE.Vec3 0.5 0 0) 0.3) Examples.armSphere))
    (THREE.Vec3 0 0 0)
  = 1.175.
Proof.
  assert (THREE.distanceTo (THREE.Vec3 0.5 0 0) (THREE.Vec3 0 0 0) = 0.5) as Hd.
  { unfold THREE.distanceTo, THREE.distanceToSquared. cbn [THREE.x THREE.y THREE.z].
    replace (_ + _ + _) with (0.5 * 0.5) by ring. rewrite sqrt_square; lra. }
  pose proof (X4_push_resolves (Examples.cube (THREE.Vec3 0.5 0 0) 0.3)
                Examples.armSphere) as H.
  cbn zeta in H.
  change (ObjectManager.position (Examples.cube (THREE.Vec3 0.5 0 0) 0.3))
    with (THREE.Vec3 0.5 0 0) in H.
  change (ObjectManager.collider_position Examples.armSphere)
    with (THREE.Vec3 0 0 0) in H.
  change (ObjectManager.radius _) with (0.3 / 2) in H.
  change (ObjectManager.collider_radius _) with 0.8 in H.
  rewrite Hd in H.
  destruct H as [H _].
  - lra.
  - cbn [THREE.y]. lra.
  - rewrite H. lra.
Defined.

(** ** What the methods of the object manager keep *)

Lemma sound_pass (f : string * ObjectManager.Mesh -> string * ObjectManager.Mesh)
    (om om' : ObjectManager.t) :
  (forall e, fst (f e) = fst e /\
             ObjectManager.id (ObjectManager.userData (snd (f e)))
               = ObjectManager.id (ObjectManager.userData (snd e)) /\
             ObjectManager.size (ObjectManager.userData (snd (f e)))
               = ObjectManager.size (ObjectManager.userData (snd e))) ->
  ObjectManager.objects om' = f <$> ObjectManager.objects om ->
  ObjectManager.nextId om' = ObjectManager.nextId om ->
  ObjectManager.gravity om' = ObjectManager.gravity om ->
  Props.sound om -> Props.sound om'.
Proof.
  intros Hf Hobj Hn Hg (Hwf & Hfresh & Hgrav & Hsize).
  assert (fst <$> (f <$> ObjectManager.objects om) = fst <$> ObjectManager.objects om)
    as Hkeys.
  { rewrite <- list_fmap_compose. apply list_fmap_ext. intros i e _. cbn.
    now destruct (Hf e) as [-> _]. }
  unfold Props.sound, Props.wf, Props.fresh, Props.unsized.
  rewrite Hobj, Hn, Hg, Hkeys. repeat split; try assumption.
  - apply Hwf.
  - apply (wf_fmap f); [|exact Hwf]. intros e. destruct (Hf e) as (? & ? & ?). auto.
  - apply Forall_fmap. eapply Forall_impl; [exact Hsize|].
    intros e He. cbn. destruct (Hf e) as (_ & _ & ->). exact He.
Qed.

Lemma sound_modify (k : string) (f : ObjectManager.Mesh -> ObjectManager.Mesh)
    (om om' : ObjectManager.t) :
  (forall m, ObjectManager.id (ObjectManager.userData (f m))
             = ObjectManager.id (ObjectManager.userData m) /\
             ObjectManager.size (ObjectManager.userData (f m))
             = ObjectManager.size (ObjectManager.userData m)) ->
  ObjectManager.objects om' = ObjectManager.modify k f (ObjectManager.objects om) ->
  ObjectManager.nextId om' = ObjectManager.nextId om ->
  ObjectManager.gravity om' = ObjectManager.gravity om ->
  Props.sound om -> Props.sound om'.
Proof.
  intros Hf Hobj.
  apply (sound_pass (fun e => if decide (fst e = k) then (fst e, f (snd e)) else e));
    [|exact Hobj].
  intros e. cbn beta. case_decide; cbn [fst snd]; [|auto].
  destruct (Hf (snd e)). auto.
Qed.

Lemma sound_spawnObject (ty : string) (p : THREE.Vector3) (col : N) (sz : R)
    (om : ObjectManager.t) :
  Props.sound om -> Props.sound (snd (ObjectManager.spawnObject ty p col sz om)).
Proof.
  intros (Hwf & Hfresh & Hgrav & Hsize).
  destruct (spawnObject_wf ty p col sz om Hwf Hfresh) as [Hwf' Hfresh'].
  repeat split; try apply Hwf'; try assumption.
  unfold Props.unsized, ObjectManager.spawnObject. cbn zeta.
  cbn [snd ObjectManager.objects].
  rewrite set_new by (apply Hfresh; lia).
  apply Forall_app. split; [assumption|]. repeat constructor.
Qed.

Lemma sound_clearAll (om : ObjectManager.t) :
  Props.sound om -> Props.sound (ObjectManager.clearAll om).
Proof.
  intros (Hwf & Hfresh & Hgrav & Hsize).
  repeat split; try assumption; try constructor.
  intros n _. apply not_elem_of_nil.
Qed.

Lemma sound_removeObject (k : string) (om : ObjectManager.t) :
  Props.sound om -> Props.sound (ObjectManager.removeObject k om).
Proof.
  intros ([Hnd Hid] & Hfresh & Hgrav & Hsize).
  assert (forall e, e ∈ ObjectManager.objects (ObjectManager.removeObject k om) ->
                    e ∈ ObjectManager.objects om) as Hsub.
  { intros e He. now apply list_elem_of_filter in He as [_ He]. }
  repeat split; try assumption.
  - eapply sublist_NoDup; [exact Hnd|]. apply fmap_sublist, sublist_filter.
  - apply Forall_forall. intros e He.
    exact (proj1 (Forall_forall _ _) Hid e (Hsub e He)).
  - intros n Hn Hin. apply list_elem_of_fmap in Hin as (e & Heq & He).
    apply (Hfresh n Hn). apply list_elem_of_fmap. exists e. split; [exact Heq|].
    now apply Hsub.
  - apply Forall_forall. intros e He.
    exact (proj1 (Forall_forall _ _) Hsize e (Hsub e He)).
Qed.

Lemma sound_update (dt : R) (cs : list ObjectManager.Collider) (om : ObjectManager.t) :
  Props.sound om -> Props.sound (ObjectManager.update dt cs om).
Proof.
  eapply sound_pass; [|reflexivity|reflexivity|reflexivity].
  intros e. cbn beta.
  destruct (ObjectManager.isAttached om (fst e)); [auto|].
  destruct (ObjectManager.isStatic _); [auto|].
  cbn [fst snd].
  destruct (integrate_same_body (ObjectManager.gravity om) (Rmin dt 0.05) cs (snd e))
    as (_ & _ & Hid & _ & _ & _ & _ & Hsz).
  auto.
Qed.

Lemma sound_importFromJSON (colorOf : string -> N)
    (data : list ObjectManager.ExportedObject) (om : ObjectManager.t) :
  Props.sound om -> Props.sound (ObjectManager.importFromJSON colorOf data om).
Proof.
  intros Hs. unfold ObjectManager.importFromJSON.
  apply sound_clearAll in Hs. revert Hs.
  generalize (ObjectManager.clearAll om).
  induction data as [|d data IH]; intros om0 Hs; cbn [fold_left]; [exact Hs|].
  apply IH. now apply sound_spawnObject.
Qed.

(** X5: whatever sequence of [spawnObject], [removeObject], [clearAll],
    [update], [attachToGripper], [releaseObject], [updateAttachedObject]
    and [importFromJSON] is applied to a new manager, the keys of the
    registry stay pairwise distinct, every mesh is stored under its own id,
    no id from the counter on is in use, gravity is still -9.8 and no mesh
    has a [userData.size]. *)
Theorem X5_reachable_sound (om : ObjectManager.t) :
  Props.reachable om ->
  Props.wf om /\ Props.fresh om /\ ObjectManager.gravity om = -9.8 /\ Props.unsized om.
Proof.
  change (Props.reachable om -> Props.sound om).
  induction 1 as [|ty p col sz om _ IH|k om _ IH|om _ IH|dt cs om _ IH
                  |k point om _ IH|om _ IH|p om _ IH|colorOf data om _ IH].
  - destruct wf_constructor as [Hwf Hfresh].
    repeat split; try apply Hwf; try assumption; constructor.
  - now apply sound_spawnObject.
  - now apply sound_removeObject.
  - now apply sound_clearAll.
  - now apply sound_update.
  - cbn [ObjectManager.attachToGripper snd].
    eapply sound_modify; [|reflexivity|reflexivity|reflexivity|exact IH].
    intros m. split; reflexivity.
  - unfold ObjectManager.releaseObject.
    destruct (ObjectManager.attachedObject om); [|exact IH].
    eapply sound_modify; [|reflexivity|reflexivity|reflexivity|exact IH].
    intros m. split; reflexivity.
  - unfold ObjectManager.updateAttachedObject.
    destruct (ObjectManager.attachedObject om), p; try exact IH.
    eapply sound_modify; [|reflexivity|reflexivity|reflexivity|exact IH].
    intros m. split; reflexivity.
  - now apply sound_importFromJSON.
Qed.

(** X5 at the manager left by one spawn, a grip and a release. *)
Lemma X5_reachable_sound_witness :
  Props.unsized
    (ObjectManager.releaseObject
       (snd (ObjectManager.attachToGripper (Some "obj_1") ObjectManager.GripperBase
               (snd (ObjectManager.spawnObject "cube" (THREE.Vec3 0 1 0) Examples.orange
                       0.3 ObjectManager.constructor))))).
Proof.
  apply X5_reachable_sound.
  apply Props.reach_releaseObject, Props.reach_attachToGripper,
    Props.reach_spawnObject, Props.reach_constructor.
Defined.

(** ** Export and import *)

Lemma fromArray_toArray (p : THREE.Vector3) : THREE.fromArray (THREE.toArray p) = p.
Proof. now destruct p. Qed.

Lemma importLoop_objects (colorOf : string -> N) (l : list (string * ObjectManager.Mesh))
    (om0 : ObjectManager.t) :
  Props.wf om0 -> Props.fresh om0 ->
  let om' :=
    fold_left
      (fun om objData =>
         snd (ObjectManager.spawnObject (ObjectManager.exported_type objData)
                (THREE.fromArray (ObjectManager.exported_position objData))
                (colorOf (ObjectManager.exported_color objData))
                (default 0.3 (ObjectManager.exported_size objData)) om))
      (ObjectManager.exportToJSON (ObjectManager.set_objects l om0)) om0 in
  ObjectManager.objects om'
    = ObjectManager.objects om0
      ++ imap (fun i => Props.reimported colorOf (ObjectManager.nextId om0 + i)) l /\
  ObjectManager.nextId om' = (ObjectManager.nextId om0 + List.length l)%nat /\
  ObjectManager.attachedObject om' = ObjectManager.attachedObject om0.
Proof.
  cbn zeta. unfold ObjectManager.exportToJSON. cbn [ObjectManager.objects ObjectManager.set_objects].
  revert om0. induction l as [|e l IH]; intros om0 Hwf Hfresh.
  - cbn [fmap list_fmap fold_left imap List.length]. rewrite app_nil_r.
    repeat split; lia.
  - rewrite fmap_cons. cbn [fold_left].
    cbn [ObjectManager.exported_type ObjectManager.exported_position
         ObjectManager.exported_color ObjectManager.exported_size].
    rewrite fromArray_toArray.
    match goal with |- context [fold_left _ _ (snd ?sp)] => set (om1 := snd sp) end.
    destruct (spawnObject_wf (ObjectManager.type (ObjectManager.userData (snd e)))
                (ObjectManager.position (snd e))
                (colorOf ("#" +:+ THREE.getHexString
                            (THREE.color (ObjectManager.material (snd e)))))
                (default 0.3
                   (JS.or_value (THREE.parameters_width (ObjectManager.geometry (snd e)))
                      (THREE.parameters_radius (ObjectManager.geometry (snd e)))))
                om0 Hwf Hfresh) as [Hwf1 Hfresh1].
    fold om1 in Hwf1, Hfresh1.
    destruct (IH om1 Hwf1 Hfresh1) as (Hobj & Hn & Ha).
    rewrite Hobj, Hn, Ha.
    assert (ObjectManager.objects om1
            = ObjectManager.objects om0
              ++ [Props.reimported colorOf (ObjectManager.nextId om0) e]) as ->.
    { unfold om1, ObjectManager.spawnObject. cbn zeta. cbn [snd ObjectManager.objects].
      rewrite set_new by (apply Hfresh; lia). reflexivity. }
    change (ObjectManager.nextId om1) with (S (ObjectManager.nextId om0)).
    change (ObjectManager.attachedObject om1) with (ObjectManager.attachedObject om0).
    rewrite <- app_assoc. cbn [app imap List.length].
    rewrite Nat.add_0_r. repeat split; [|lia].
    do 2 f_equal. apply imap_ext. intros i x _. cbn. f_equal. lia.
Qed.

(** X6: importing what [exportToJSON] wrote replaces every object, in
    order, by the one [spawnObject] makes of its type, its position, its
    colour string and the exported [width || radius] (0.3 when that is
    undefined), under the next ids of the counter; the counter is not
    reset and nothing is held afterwards. *)
Theorem X6_import_of_export (colorOf : string -> N) (om : ObjectManager.t) :
  let om' := ObjectManager.importFromJSON colorOf (ObjectManager.exportToJSON om) om in
  ObjectManager.objects om'
    = imap (fun i => Props.reimported colorOf (ObjectManager.nextId om + i))
        (ObjectManager.objects om) /\
  ObjectManager.nextId om'
    = (ObjectManager.nextId om + List.length (ObjectManager.objects om))%nat /\
  ObjectManager.attachedObject om' = None.
Proof.
  cbn zeta. unfold ObjectManager.importFromJSON.
  assert (Props.wf (ObjectManager.clearAll om)) as Hwf by (split; constructor).
  assert (Props.fresh (ObjectManager.clearAll om)) as Hfresh
    by (intros n _; apply not_elem_of_nil).
  exact (importLoop_objects colorOf (ObjectManager.objects om)
           (ObjectManager.clearAll om) Hwf Hfresh).
Qed.

(** X7: a manager that holds one spawned object of a size other than 0
    gets back from an export and import a cube of the same size, a sphere
    of half the size, and a cylinder of size 0.3, when the colour string is
    read back as the colour it was written from. *)
Theorem X7_round_trip_size (colorOf : string -> N) (ty : string) (p : THREE.Vector3)
    (col : N) (sz : R) (om : ObjectManager.t) :
  sz <> 0 ->
  colorOf ("#" +:+ THREE.getHexString col) = col ->
  let om1 := snd (ObjectManager.spawnObject ty p col sz (ObjectManager.clearAll om)) in
  ObjectManager.objects
    (ObjectManager.importFromJSON colorOf (ObjectManager.exportToJSON om1) om1)
  = [("obj_" +:+ pretty (S (ObjectManager.nextId om)),
      Props.spawned (S (ObjectManager.nextId om)) ty p col
        (if decide (ty = "sphere") then sz / 2
         else if decide (ty = "cylinder") then 0.3
         else sz))].
Proof.
  intros Hsz Hcol om1.
  assert (Props.wf (ObjectManager.clearAll om1)) as Hwf by (split; constructor).
  assert (Props.fresh (ObjectManager.clearAll om1)) as Hfresh
    by (intros n _; apply not_elem_of_nil).
  destruct (importLoop_objects colorOf (ObjectManager.objects om1)
              (ObjectManager.clearAll om1) Hwf Hfresh) as (Hobj & _ & _).
  unfold ObjectManager.importFromJSON.
  etransitivity; [exact Hobj|]. clear Hobj.
  unfold om1, ObjectManager.spawnObject. cbn zeta.
  cbn [snd ObjectManager.objects ObjectManager.clearAll ObjectManager.set
       ObjectManager.nextId app imap].
  rewrite Nat.add_0_r. unfold Props.reimported. cbn [snd fst].
  cbn [ObjectManager.userData ObjectManager.type ObjectManager.position
       ObjectManager.material ObjectManager.geometry THREE.color].
  rewrite Hcol. do 3 f_equal.
  destruct (decide (ty = "sphere")) as [Hs|Hs].
  - cbn [THREE.parameters_width THREE.parameters_radius JS.or_value default].
    reflexivity.
  - destruct (decide (ty = "cylinder")) as [Hc|Hc].
    + reflexivity.
    + cbn [THREE.parameters_width THREE.parameters_radius JS.or_value].
      now rewrite decide_False.
Qed.

(** X7 at an orange sphere of size 0.4, with a reader of colour strings
    that knows orange. *)
Lemma X7_round_trip_size_witness :
  ObjectManager.objects
    (ObjectManager.importFromJSON (fun _ => Examples.orange)
       (ObjectManager.exportToJSON
          (snd (ObjectManager.spawnObject "sphere" (THREE.Vec3 1 0.2 0) Examples.orange 0.4
                  (ObjectManager.clearAll ObjectManager.constructor))))
       (snd (ObjectManager.spawnObject "sphere" (THREE.Vec3 1 0.2 0) Examples.orange 0.4
               (ObjectManager.clearAll ObjectManager.constructor))))
  = [("obj_2", Props.spawned 2 "sphere" (THREE.Vec3 1 0.2 0) Examples.orange (0.4 / 2))].
Proof.
  apply (X7_round_trip_size (fun _ => Examples.orange) "sphere" (THREE.Vec3 1 0.2 0)
           Examples.orange 0.4 ObjectManager.constructor).
  - lra.
  - reflexivity.
Defined.

(** ** The gripper and the held object *)

Lemma get_elem (k : string) (l : list (string * ObjectManager.Mesh)) (m : ObjectManager.Mesh) :
  ObjectManager.get k l = Some m -> exists k', (k', m) ∈ l.
Proof.
  induction l as [|[k0 m0] l IH]; cbn [ObjectManager.get]; [discriminate|].
  case_decide.
  - intros [= <-]. exists k0. apply list_elem_of_here.
  - intros Hget. destruct (IH Hget) as [k' Hin]. exists k'.
    now apply list_elem_of_further.
Qed.

Lemma unsized_size (om : ObjectManager.t) (k : string) :
  Props.unsized om ->
  JS.or_else
    (ObjectManager.get k (ObjectManager.objects om)
       ≫= fun m => ObjectManager.size (ObjectManager.userData m))
    0.3 = 0.3.
Proof.
  intros Hu.
  destruct (ObjectManager.get k (ObjectManager.objects om)) as [m|] eqn:Hget;
    [|reflexivity].
  destruct (get_elem _ _ _ Hget) as [k' Hin].
  cbn [mbind option_bind].
  pose proof (proj1 (Forall_forall _ _) Hu _ Hin) as Hs. cbn [snd] in Hs.
  now rewrite Hs.
Qed.

Lemma gripperWidth_threshold (a : RobotArmSimulator.Angles) :
  RobotArmSimulator.gripperWidth a > 0.3 + 0.1 <-> RobotArmSimulator.gripper a > 54 / PI.
Proof.
  pose proof PI_bounds as [Hpi _].
  assert (54 / PI * PI = 54) as Hq by (field; lra).
  unfold RobotArmSimulator.gripperWidth, THREE.degToRad. cbn zeta.
  set (g := RobotArmSimulator.gripper a). set (q := 54 / PI) in *.
  split; intros H.
  - assert (g * PI > 54) as H' by lra. nra.
  - assert (g * PI > q * PI) as H' by nra. lra.
Qed.

(** X8: while an object without [userData.size] is held, a joint update
    releases it exactly when the new gripper angle exceeds 54/PI degrees,
    whatever the size of the object. *)
Theorem X8_release_threshold (rig : RobotArmSimulator.Rig)
    (u : RobotArmSimulator.AngleUpdate) (s : RobotArmSimulator.t)
    (om : ObjectManager.t) (k : string) :
  RobotArmSimulator.objectManager s = Some om ->
  ObjectManager.attachedObject om = Some k ->
  Props.unsized om ->
  ObjectManager.attachedObject
    <$> RobotArmSimulator.objectManager (RobotArmSimulator.updateJoints rig u s)
  = Some
      (if decide
            (RobotArmSimulator.gripper
               (RobotArmSimulator.merge (RobotArmSimulator.angles s) u) > 54 / PI)
       then None else Some k).
Proof.
  intros Hom Ha Hu.
  rewrite (updateJoints_release_test rig u s om k Hom Ha).
  rewrite unsized_size by assumption. f_equal.
  destruct (decide (RobotArmSimulator.gripper _ > 54 / PI)) as [Hg|Hg].
  - rewrite decide_True; [reflexivity|]. now apply gripperWidth_threshold.
  - rewrite decide_False; [reflexivity|]. intros H. apply Hg.
    now apply gripperWidth_threshold.
Qed.

(** X8 at a held cube of size 0.3 and a gripper opened to 18 degrees. *)
Lemma X8_release_threshold_witness :
  ObjectManager.attachedObject
    <$> RobotArmSimulator.objectManager
          (RobotArmSimulator.updateJoints Examples.rig0 (Examples.gripperTo 18)
             (Examples.simulator
                (Examples.gripping (Examples.cube (THREE.Vec3 0 0.3 0) 0.3))))
  = Some
      (if decide
            (RobotArmSimulator.gripper
               (RobotArmSimulator.merge Examples.angles0 (Examples.gripperTo 18))
             > 54 / PI)
       then None else Some "obj_1").
Proof.
  apply (X8_release_threshold Examples.rig0 (Examples.gripperTo 18)
           (Examples.simulator (Examples.gripping (Examples.cube (THREE.Vec3 0 0.3 0) 0.3)))
           (Examples.gripping (Examples.cube (THREE.Vec3 0 0.3 0) 0.3)) "obj_1").
  - reflexivity.
  - reflexivity.
  - repeat constructor.
Defined.

(** X9: [resetPosition] sets every angle to 0 and neither picks an
    object up nor drops one without [userData.size]: all it does to the
    objects is to move the held one, if any, with the gripper. *)
Theorem X9_resetPosition_keeps_grip (rig : RobotArmSimulator.Rig)
    (s : RobotArmSimulator.t) (om : ObjectManager.t) :
  RobotArmSimulator.objectManager s = Some om ->
  Props.unsized om ->
  RobotArmSimulator.resetPosition rig s
  = {| RobotArmSimulator.angles := Examples.angles0;
       RobotArmSimulator.objectManager :=
         Some (ObjectManager.updateAttachedObject
                 (Some (RobotArmSimulator.gripperCenterPosition rig)) om) |}.
Proof.
  intros Hom Hu. unfold RobotArmSimulator.resetPosition, RobotArmSimulator.updateJoints.
  cbn zeta. rewrite Hom.
  change (RobotArmSimulator.merge _ _) with Examples.angles0.
  do 3 f_equal.
  assert (RobotArmSimulator.pickUp rig Examples.angles0 om = om) as ->.
  { unfold RobotArmSimulator.pickUp.
    destruct (ObjectManager.attachedObject om); [reflexivity|].
    rewrite decide_False; [reflexivity|].
    cbn [RobotArmSimulator.gripper Examples.angles0]. lra. }
  unfold RobotArmSimulator.autoRelease.
  destruct (ObjectManager.attachedObject om); [|reflexivity].
  cbn zeta. rewrite unsized_size by assumption.
  rewrite decide_False; [reflexivity|].
  unfold RobotArmSimulator.gripperWidth, THREE.degToRad. cbn zeta.
  cbn [RobotArmSimulator.gripper Examples.angles0]. lra.
Qed.

(** X9 at a simulator that holds a cube of size 0.3. *)
Lemma X9_resetPosition_keeps_grip_witness :
  RobotArmSimulator.resetPosition Examples.rig0
    (Examples.simulator (Examples.gripping (Examples.cube (THREE.Vec3 0 0.3 0) 0.3)))
  = {| RobotArmSimulator.angles := Examples.angles0;
       RobotArmSimulator.objectManager :=
         Some (ObjectManager.updateAttachedObject
                 (Some (RobotArmSimulator.gripperCenterPosition Examples.rig0))
                 (Examples.gripping (Examples.cube (THREE.Vec3 0 0.3 0) 0.3))) |}.
Proof.
  apply X9_resetPosition_keeps_grip.
  - reflexivity.
  - repeat constructor.
Defined.

Lemma pickUp_cases (rig : RobotArmSimulator.Rig) (a : RobotArmSimulator.Angles)
    (om : ObjectManager.t) :
  RobotArmSimulator.pickUp rig a om = om \/
  exists k,
    ObjectManager.attachedObject (RobotArmSimulator.pickUp rig a om) = Some k /\
    ObjectManager.objects (RobotArmSimulator.pickUp rig a om)
    = ObjectManager.modify k (ObjectManager.set_emissive 0xff6b35%N 0.3)
        (ObjectManager.objects om).
Proof.
  unfold RobotArmSimulator.pickUp.
  destruct (ObjectManager.attachedObject om); [now left|].
  case_decide; [|now left].
  destruct (ObjectManager.checkClamping _ _ _ _ om) as [k|]; [|now left].
  right. exists k. split; reflexivity.
Qed.

Lemma autoRelease_cases (a : RobotArmSimulator.Angles) (om : ObjectManager.t) :
  RobotArmSimulator.autoRelease a om = om \/
  ObjectManager.attachedObject (RobotArmSimulator.autoRelease a om) = None.
Proof.
  unfold RobotArmSimulator.autoRelease.
  destruct (ObjectManager.attachedObject om) eqn:Ha; [|now left].
  cbn zeta. case_decide; [|now left].
  right. unfold ObjectManager.releaseObject. now rewrite Ha.
Qed.

(** X10: when an object is held after a joint update, it is at the gripper
    centre raised by 0.3, with the geometry, colour, id, type and radius
    it had, and every other object of the registry is as it was before
    the update. *)
Theorem X10_held_follows_gripper (rig : RobotArmSimulator.Rig)
    (u : RobotArmSimulator.AngleUpdate) (s : RobotArmSimulator.t)
    (om om' : ObjectManager.t) (k : string) :
  RobotArmSimulator.objectManager s = Some om ->
  RobotArmSimulator.objectManager (RobotArmSimulator.updateJoints rig u s) = Some om' ->
  ObjectManager.attachedObject om' = Some k ->
  (forall m, ObjectManager.get k (ObjectManager.objects om) = Some m ->
     exists m',
       ObjectManager.get k (ObjectManager.objects om') = Some m' /\
       ObjectManager.position m'
       = THREE.set_y (RobotArmSimulator.gripperCenterPosition rig)
           (THREE.y (RobotArmSimulator.gripperCenterPosition rig) + 0.3) /\
       ObjectManager.geometry m' = ObjectManager.geometry m /\
       THREE.color (ObjectManager.material m') = THREE.color (ObjectManager.material m) /\
       ObjectManager.userData m' = ObjectManager.userData m) /\
  (forall k', k' <> k ->
     ObjectManager.get k' (ObjectManager.objects om')
     = ObjectManager.get k' (ObjectManager.objects om)).
Proof.
  intros Hom. unfold RobotArmSimulator.updateJoints.
  cbn [RobotArmSimulator.objectManager]. rewrite Hom. cbn zeta. intros [= <-].
  set (a := RobotArmSimulator.merge (RobotArmSimulator.angles s) u).
  rewrite updateAttachedObject_attached.
  destruct (autoRelease_cases a (RobotArmSimulator.pickUp rig a om)) as [->|Hnone];
    [|intros Hk; congruence].
  intros Hk. unfold ObjectManager.updateAttachedObject. rewrite Hk.
  cbn [ObjectManager.objects ObjectManager.set_objects].
  destruct (pickUp_cases rig a om) as [->|(k1 & Hk1 & ->)].
  - split.
    + intros m Hget. rewrite get_modify, Hget. cbn [fmap option_fmap option_map].
      rewrite decide_True by reflexivity. eexists. split; [reflexivity|].
      repeat split.
    + intros k' Hne. rewrite get_modify.
      destruct (ObjectManager.get k' _); [|reflexivity].
      cbn [fmap option_fmap option_map]. now rewrite decide_False.
  - assert (k1 = k) as -> by congruence. split.
    + intros m Hget. rewrite !get_modify, Hget. cbn [fmap option_fmap option_map].
      rewrite !decide_True by reflexivity. eexists. split; [reflexivity|].
      repeat split.
    + intros k' Hne. rewrite !get_modify.
      destruct (ObjectManager.get k' _); [|reflexivity].
      cbn [fmap option_fmap option_map]. now rewrite !decide_False.
Qed.

(** X10 at a held cube and a gripper closed to 10 degrees. *)
Lemma X10_held_follows_gripper_witness :
  exists m',
    ObjectManager.get "obj_1"
      (ObjectManager.objects
         (ObjectManager.updateAttachedObject (Some (THREE.Vec3 0 0 0))
            (Examples.gripping (Examples.cube (THREE.Vec3 0 0.3 0) 0.3))))
    = Some m' /\
    ObjectManager.position m'
    = THREE.set_y (RobotArmSimulator.gripperCenterPosition Examples.rig0)
        (THREE.y (RobotArmSimulator.gripperCenterPosition Examples.rig0) + 0.3) /\
    ObjectManager.geometry m'
    = ObjectManager.geometry (Examples.cube (THREE.Vec3 0 0.3 0) 0.3) /\
    THREE.color (ObjectManager.material m')
    = THREE.color (ObjectManager.material (Examples.cube (THREE.Vec3 0 0.3 0) 0.3)) /\
    ObjectManager.userData m'
    = ObjectManager.userData (Examples.cube (THREE.Vec3 0 0.3 0) 0.3).
Proof.
  refine (proj1
            (X10_held_follows_gripper Examples.rig0 (Examples.gripperTo 10)
               (Examples.simulator
                  (Examples.gripping (Examples.cube (THREE.Vec3 0 0.3 0) 0.3)))
               (Examples.gripping (Examples.cube (THREE.Vec3 0 0.3 0) 0.3))
               (ObjectManager.updateAttachedObject (Some (THREE.Vec3 0 0 0))
                  (Examples.gripping (Examples.cube (THREE.Vec3 0 0.3 0) 0.3)))
               "obj_1" _ _ _)
            (Examples.cube (THREE.Vec3 0 0.3 0) 0.3) _).
  - reflexivity.
  - unfold RobotArmSimulator.updateJoints. cbn zeta.
    cbn [RobotArmSimulator.objectManager Examples.simulator].
    do 2 f_equal.
    unfold RobotArmSimulator.autoRelease.
    cbn [RobotArmSimulator.pickUp ObjectManager.attachedObject Examples.gripping].
    cbn zeta.
    rewrite unsized_size by repeat constructor.
    rewrite decide_False; [reflexivity|].
    rewrite gripperWidth_gripperTo. pose proof PI_bounds. unfold THREE.degToRad. lra.
  - reflexivity.
  - reflexivity.
Defined.

(** ** The progress store: lists of levels, versions, imports *)

Lemma elem_of_pushNew (x y : Z) (l : list Z) :
  y ∈ Storage.pushNew x l <-> y = x \/ y ∈ l.
Proof.
  unfold Storage.pushNew. case_decide as Hx.
  - split; [auto|]. intros [->|H]; assumption.
  - rewrite elem_of_app, list_elem_of_singleton. tauto.
Qed.

Lemma NoDup_pushNew (x : Z) (l : list Z) : NoDup l -> NoDup (Storage.pushNew x l).
Proof.
  intros Hnd. unfold Storage.pushNew. case_decide as Hx; [assumption|].
  apply NoDup_app. repeat split; [assumption| |apply NoDup_singleton].
  intros y Hy Hy'. apply list_elem_of_singleton in Hy'. congruence.
Qed.

Lemma pushNew_pushNew (x : Z) (l : list Z) :
  Storage.pushNew x (Storage.pushNew x l) = Storage.pushNew x l.
Proof.
  unfold Storage.pushNew at 1. rewrite decide_True; [reflexivity|].
  apply elem_of_pushNew. now left.
Qed.

(** X11: [saveProgress] adds the level to the completed levels and, when
    it is at most 10, the next level to the unlocked levels; it removes no
    level from either list and enters none twice. *)
Theorem X11_saveProgress_lists (writable : bool) (levelId stars : Z) (time : R)
    (ls : Storage.LocalStorage) :
  let p := Storage.loadProgress ls in
  let p' := fst (Storage.saveProgress writable levelId stars time ls) in
  (forall x, x ∈ Storage.completedLevels p'
             <-> x = levelId \/ x ∈ Storage.completedLevels p) /\
  (forall x, x ∈ Storage.unlockedLevels p'
             <-> (x = (levelId + 1)%Z /\ (levelId + 1 <= 10)%Z)
                 \/ x ∈ Storage.unlockedLevels p) /\
  (NoDup (Storage.completedLevels p) -> NoDup (Storage.completedLevels p')) /\
  (NoDup (Storage.unlockedLevels p) -> NoDup (Storage.unlockedLevels p')).
Proof.
  cbn zeta. unfold Storage.saveProgress, Storage.loadProgress. cbn zeta.
  cbn [fst Storage.completedLevels Storage.unlockedLevels].
  repeat split.
  - now apply elem_of_pushNew.
  - now apply elem_of_pushNew.
  - case_decide; [|now right]. intros Hx. apply elem_of_pushNew in Hx. tauto.
  - case_decide.
    + intros [[-> _]|Hx]; apply elem_of_pushNew; auto.
    + intros [[_ Hle]|Hx]; [contradiction|assumption].
  - apply NoDup_pushNew.
  - case_decide; [apply NoDup_pushNew|auto].
Qed.

(** X12: a store written under another version is read as the default
    data, and a save over it leaves what a save over an empty store
    leaves: the progress of the other version is lost. *)
Theorem X12_other_version_discarded (parsed : Storage.Data) (levelId stars : Z)
    (time : R) :
  Storage.version parsed <> Storage.this_version ->
  Storage.loadAll (Some parsed) = Storage.getDefaultData /\
  Storage.saveProgress true levelId stars time (Some parsed)
  = Storage.saveProgress true levelId stars time None.
Proof.
  intros Hv.
  assert (Storage.loadAll (Some parsed) = Storage.getDefaultData) as Hload
    by (unfold Storage.loadAll; now rewrite decide_False).
  split; [exact Hload|].
  unfold Storage.saveProgress. cbn zeta. rewrite Hload. reflexivity.
Qed.

(** X12 at a store of version 0.9 in which level 3 is completed. *)
Lemma X12_other_version_discarded_witness :
  Storage.loadAll
    (Some {| Storage.version := "0.9";
             Storage.progress :=
               {| Storage.unlockedLevels := [0; 1; 2; 3; 4]%Z;
                  Storage.completedLevels := [0; 1; 2; 3]%Z;
                  Storage.levelStars := ∅; Storage.levelBestTimes := ∅ |};
             Storage.animations := []; Storage.sandboxScenes := [];
             Storage.preferences := Storage.preferences Storage.getDefaultData |})
  = Storage.getDefaultData.
Proof.
  refine (proj1 (X12_other_version_discarded _ 1%Z 3%Z 10 _)).
  cbn [Storage.version]. discriminate.
Defined.

(** X13: [importAll] accepts data with a version other than the empty
    string and a progress, whatever the version is: it answers true even
    when the write fails, and where the write succeeds the store holds the
    imported progress under the current version, so that [loadProgress]
    returns it. *)
Theorem X13_importAll_restamps (writable : bool) (d : Storage.ImportData) (v : string)
    (p : Storage.Progress) (ls : Storage.LocalStorage) :
  Storage.import_version d = Some v -> v <> "" ->
  Storage.import_progress d = Some p ->
  fst (Storage.importAll writable (Some d) ls) = true /\
  (writable = false -> snd (Storage.importAll writable (Some d) ls) = ls) /\
  (writable = true ->
   Storage.version (Storage.loadAll (snd (Storage.importAll writable (Some d) ls)))
   = Storage.this_version /\
   Storage.loadProgress (snd (Storage.importAll writable (Some d) ls)) = p).
Proof.
  intros Hv Hne Hp. unfold Storage.importAll. rewrite Hv, Hp.
  rewrite decide_False by assumption. cbn [fst snd].
  split; [reflexivity|].
  split; intros ->; [reflexivity|]. split; reflexivity.
Qed.

(** X13 at data of version 0.9 with the default progress. *)
Lemma X13_importAll_restamps_witness :
  fst (Storage.importAll false
         (Some {| Storage.import_version := Some "0.9";
                  Storage.import_progress :=
                    Some (Storage.progress Storage.getDefaultData);
                  Storage.import_animations := [];
                  Storage.import_sandboxScenes := [];
                  Storage.import_preferences :=
                    Storage.preferences Storage.getDefaultData |})
         None)
  = true.
Proof.
  refine (proj1 (X13_importAll_restamps false _ "0.9"
                   (Storage.progress Storage.getDefaultData) None _ _ _)).
  - reflexivity.
  - discriminate.
  - reflexivity.
Defined.

(** X14: [importAll] answers true exactly for data with a version other
    than the empty string and a progress; whenever it answers false, the
    store is as it was. *)
Theorem X14_importAll_rejects (writable : bool) (jsonData : option Storage.ImportData)
    (ls : Storage.LocalStorage) :
  (fst (Storage.importAll writable jsonData ls) = true <->
   exists d v p, jsonData = Some d /\ Storage.import_version d = Some v /\ v <> "" /\
                 Storage.import_progress d = Some p) /\
  (fst (Storage.importAll writable jsonData ls) = false ->
   snd (Storage.importAll writable jsonData ls) = ls).
Proof.
  unfold Storage.importAll.
  destruct jsonData as [d|].
  2:{ split; [|reflexivity]. split; [discriminate|]. intros (? & ? & ? & ? & _). discriminate. }
  destruct (Storage.import_version d) as [v|] eqn:Hv.
  2:{ split; [|reflexivity]. split; [discriminate|].
      intros (? & ? & ? & [= <-] & ? & _). congruence. }
  destruct (Storage.import_progress d) as [p|] eqn:Hp.
  2:{ split; [|reflexivity]. split; [discriminate|].
      intros (? & ? & ? & [= <-] & _ & _ & ?). congruence. }
  case_decide as Hne.
  - split; [|reflexivity]. split; [discriminate|].
    intros (? & ? & ? & [= <-] & ? & ? & _). congruence.
  - cbn [fst snd]. split; [|discriminate]. split; [|reflexivity].
    intros _. exists d, v, p. auto.
Qed.

(** X15: saving the same result of a level twice leaves the progress,
    the animations, the sandbox scenes and the preferences of the store as
    the first save left them, and the second call returns the progress
    the first one stored; only the time stamp of the store is renewed. *)
Theorem X15_saveProgress_idempotent (levelId stars : Z) (time : R)
    (ls : Storage.LocalStorage) :
  let ls1 := snd (Storage.saveProgress true levelId stars time ls) in
  let ls2 := snd (Storage.saveProgress true levelId stars time ls1) in
  Storage.loadProgress ls2 = Storage.loadProgress ls1 /\
  fst (Storage.saveProgress true levelId stars time ls1) = Storage.loadProgress ls1 /\
  Storage.animations (Storage.loadAll ls2) = Storage.animations (Storage.loadAll ls1) /\
  Storage.sandboxScenes (Storage.loadAll ls2)
  = Storage.sandboxScenes (Storage.loadAll ls1) /\
  Storage.preferences (Storage.loadAll ls2) = Storage.preferences (Storage.loadAll ls1).
Proof.
  cbn zeta.
  assert (fst (Storage.saveProgress true levelId stars time
                 (snd (Storage.saveProgress true levelId stars time ls)))
          = Storage.loadProgress (snd (Storage.saveProgress true levelId stars time ls)))
    as Hkey; [|rewrite loadProgress_saveProgress; repeat split; exact Hkey].
  pose proof (saveProgress_stars true levelId stars time ls) as Hs.
  pose proof (saveProgress_bestTime true levelId stars time ls) as Hb.
  set (ls1 := snd (Storage.saveProgress true levelId stars time ls)).
  assert (Storage.loadAll ls1
          = {| Storage.version := Storage.this_version;
               Storage.progress := fst (Storage.saveProgress true levelId stars time ls);
               Storage.animations := Storage.animations (Storage.loadAll ls);
               Storage.sandboxScenes := Storage.sandboxScenes (Storage.loadAll ls);
               Storage.preferences := Storage.preferences (Storage.loadAll ls) |}) as Hload
    by reflexivity.
  set (p1 := fst (Storage.saveProgress true levelId stars time ls)) in *.
  unfold Storage.saveProgress at 1. cbn zeta. rewrite Hload.
  cbn [fst Storage.progress].
  change (Storage.loadProgress ls1) with p1.
  assert ((if JS.falsyZ (Storage.levelStars p1 !! levelId)
              || Storage.ltZ (Storage.levelStars p1 !! levelId) stars
           then <[levelId := stars]> (Storage.levelStars p1)
           else Storage.levelStars p1) = Storage.levelStars p1) as ->.
  { rewrite Hs. cbn [JS.falsyZ Storage.ltZ].
    destruct (Storage.levelStars (Storage.loadProgress ls) !! levelId) as [s|].
    - case_decide as Hc.
      + rewrite insert_id by exact Hs. now destruct (_ || _).
      + rewrite bool_decide_eq_false_2 by tauto.
        rewrite bool_decide_eq_false_2 by tauto. reflexivity.
    - rewrite insert_id by exact Hs. now destruct (_ || _). }
  assert ((if JS.falsy (Storage.levelBestTimes p1 !! levelId)
              || Storage.gtR (Storage.levelBestTimes p1 !! levelId) time
           then <[levelId := time]> (Storage.levelBestTimes p1)
           else Storage.levelBestTimes p1) = Storage.levelBestTimes p1) as ->.
  { rewrite Hb. cbn [JS.falsy Storage.gtR].
    destruct (Storage.levelBestTimes (Storage.loadProgress ls) !! levelId) as [b|].
    - case_decide as Hc.
      + rewrite insert_id by exact Hb. now destruct (_ || _).
      + rewrite bool_decide_eq_false_2 by tauto.
        rewrite bool_decide_eq_false_2 by tauto. reflexivity.
    - rewrite insert_id by exact Hb. now destruct (_ || _). }
  assert (Storage.pushNew levelId (Storage.completedLevels p1)
          = Storage.completedLevels p1) as -> by apply pushNew_pushNew.
  assert ((if decide (levelId + 1 <= 10)%Z
           then Storage.pushNew (levelId + 1) (Storage.unlockedLevels p1)
           else Storage.unlockedLevels p1) = Storage.unlockedLevels p1) as ->.
  { unfold p1, Storage.saveProgress. cbn zeta. cbn [fst Storage.unlockedLevels].
    case_decide; [apply pushNew_pushNew|reflexivity]. }
  now destruct p1.
Qed.

(** ** Loading a level *)

Lemma createTargets_spec (l : list LevelManager.TargetData) (index : nat)
    (lm : LevelManager.t) :
  LevelManager.targetMeshes (LevelManager.createTargets l index lm)
  = LevelManager.targetMeshes lm
    ++ imap (fun i target =>
               {| LevelManager.mesh_position := LevelManager.position target;
                  LevelManager.targetIndex := index + i;
                  LevelManager.userData := target |}) l /\
  LevelManager.targetStates (LevelManager.createTargets l index lm)
  = LevelManager.targetStates lm
    ++ replicate (List.length l)
         {| LevelManager.filled := false; LevelManager.object := None |} /\
  LevelManager.currentLevel (LevelManager.createTargets l index lm)
  = LevelManager.currentLevel lm /\
  LevelManager.levelStartTime (LevelManager.createTargets l index lm)
  = LevelManager.levelStartTime lm /\
  LevelManager.elapsedTime (LevelManager.createTargets l index lm)
  = LevelManager.elapsedTime lm /\
  LevelManager.isActive (LevelManager.createTargets l index lm)
  = LevelManager.isActive lm.
Proof.
  revert index lm. induction l as [|target l IH]; intros index lm.
  - cbn [LevelManager.createTargets imap List.length replicate].
    rewrite !app_nil_r. repeat split.
  - cbn [LevelManager.createTargets].
    destruct (IH (S index) (LevelManager.createTarget target index lm))
      as (Hm & Hs & Hc & Ht & He & Ha).
    rewrite Hm, Hs, Hc, Ht, He, Ha.
    cbn [LevelManager.createTarget LevelManager.targetMeshes LevelManager.targetStates
         LevelManager.currentLevel LevelManager.levelStartTime LevelManager.elapsedTime
         LevelManager.isActive imap List.length replicate].
    rewrite <- !app_assoc. cbn [app]. rewrite Nat.add_0_r.
    repeat split. do 2 f_equal. apply imap_ext. intros i x _. cbn. f_equal. lia.
Qed.

Lemma spawnObjects_spec (l : list LevelManager.ObjectData) (om0 : ObjectManager.t) :
  Props.wf om0 -> Props.fresh om0 ->
  ObjectManager.objects (LevelManager.spawnObjects l om0)
  = ObjectManager.objects om0
    ++ imap (fun i obj =>
               ("obj_" +:+ pretty (ObjectManager.nextId om0 + i)%nat,
                Props.spawned (ObjectManager.nextId om0 + i)
                  (LevelManager.object_type obj) (LevelManager.object_position obj)
                  (LevelManager.object_color obj) (LevelManager.object_size obj))) l /\
  ObjectManager.nextId (LevelManager.spawnObjects l om0)
  = (ObjectManager.nextId om0 + List.length l)%nat /\
  ObjectManager.attachedObject (LevelManager.spawnObjects l om0)
  = ObjectManager.attachedObject om0.
Proof.
  revert om0. induction l as [|obj l IH]; intros om0 Hwf Hfresh.
  - cbn [LevelManager.spawnObjects imap List.length]. rewrite app_nil_r.
    repeat split; lia.
  - cbn [LevelManager.spawnObjects].
    match goal with |- context [LevelManager.spawnObjects l (snd ?sp)] =>
      set (om1 := snd sp) end.
    destruct (spawnObject_wf (LevelManager.object_type obj)
                (LevelManager.object_position obj) (LevelManager.object_color obj)
                (LevelManager.object_size obj) om0 Hwf Hfresh) as [Hwf1 Hfresh1].
    fold om1 in Hwf1, Hfresh1.
    destruct (IH om1 Hwf1 Hfresh1) as (Hobj & Hn & Ha).
    rewrite Hobj, Hn, Ha.
    assert (ObjectManager.objects om1
            = ObjectManager.objects om0
              ++ [("obj_" +:+ pretty (ObjectManager.nextId om0),
                   Props.spawned (ObjectManager.nextId om0)
                     (LevelManager.object_type obj) (LevelManager.object_position obj)
                     (LevelManager.object_color obj) (LevelManager.object_size obj))]) as ->.
    { unfold om1, ObjectManager.spawnObject. cbn zeta. cbn [snd ObjectManager.objects].
      rewrite set_new by (apply Hfresh; lia). reflexivity. }
    change (ObjectManager.nextId om1) with (S (ObjectManager.nextId om0)).
    change (ObjectManager.attachedObject om1) with (ObjectManager.attachedObject om0).
    rewrite <- app_assoc. cbn [app imap List.length].
    rewrite Nat.add_0_r. repeat split; [|lia].
    do 2 f_equal. apply imap_ext. intros i x _. cbn.
    replace (ObjectManager.nextId om0 + S i)%nat with (S (ObjectManager.nextId om0 + i))
      by lia.
    reflexivity.
Qed.

(** X16: loading a level that is found answers true and leaves exactly
    the level's objects, spawned in their order under the next ids of the
    counter with nothing held, one target mesh per target of the level
    with its index and its data, and as many target states, none filled;
    the level is active with an elapsed time of 0. *)
Theorem X16_loadLevel_structure (level : LevelManager.Level) (now : R)
    (om : ObjectManager.t) (lm : LevelManager.t) :
  let r := LevelManager.loadLevel (Some level) now om lm in
  fst (fst r) = true /\
  ObjectManager.objects (snd (fst r))
  = imap (fun i obj =>
            ("obj_" +:+ pretty (ObjectManager.nextId om + i)%nat,
             Props.spawned (ObjectManager.nextId om + i)
               (LevelManager.object_type obj) (LevelManager.object_position obj)
               (LevelManager.object_color obj) (LevelManager.object_size obj)))
      (LevelManager.objects level) /\
  ObjectManager.attachedObject (snd (fst r)) = None /\
  LevelManager.targetMeshes (snd r)
  = imap (fun i target =>
            {| LevelManager.mesh_position := LevelManager.position target;
               LevelManager.targetIndex := i;
               LevelManager.userData := target |})
      (LevelManager.targets level) /\
  LevelManager.targetStates (snd r)
  = replicate (List.length (LevelManager.targets level))
      {| LevelManager.filled := false; LevelManager.object := None |} /\
  LevelManager.currentLevel (snd r) = Some level /\
  LevelManager.isActive (snd r) = true /\
  LevelManager.elapsedTime (snd r) = 0 /\
  LevelManager.levelStartTime (snd r) = now.
Proof.
  cbn zeta. unfold LevelManager.loadLevel. cbn [fst snd].
  assert (Props.wf (ObjectManager.clearAll om)) as Hwf by (split; constructor).
  assert (Props.fresh (ObjectManager.clearAll om)) as Hfresh
    by (intros n _; apply not_elem_of_nil).
  destruct (spawnObjects_spec (LevelManager.objects level) (ObjectManager.clearAll om)
              Hwf Hfresh) as (Hobj & _ & Ha).
  match goal with |- context [LevelManager.createTargets ?l 0 ?lm0] =>
    destruct (createTargets_spec l 0 lm0) as (Hm & Hs & Hc & Ht & He & Hact) end.
  rewrite Hobj, Ha, Hm, Hs, Hc, Ht, He, Hact.
  repeat split.
Qed.

(** ** A frame of the level manager *)

Lemma scanTargets_ok (obj : ObjectManager.Mesh) (meshes : list LevelManager.TargetMesh)
    (i : nat) (states : list LevelManager.TargetState) :
  (i + List.length meshes <= List.length states)%nat ->
  exists states',
    LevelManager.scanTargets obj i meshes states = JS.Normal states' /\
    List.length states' = List.length states.
Proof.
  revert i. induction meshes as [|target meshes IH]; intros i Hlen;
    cbn [LevelManager.scanTargets List.length] in *.
  - now exists states.
  - destruct (LevelManager.fits obj target).
    + destruct (states !! i) eqn:Hi.
      * eexists. split; [reflexivity|]. apply length_insert.
      * apply lookup_ge_None in Hi. lia.
    + apply IH. lia.
Qed.

Lemma scanObjects_ok (objs : list ObjectManager.Mesh)
    (meshes : list LevelManager.TargetMesh) (states : list LevelManager.TargetState) :
  (List.length meshes <= List.length states)%nat ->
  exists states',
    LevelManager.scanObjects objs meshes states = JS.Normal states' /\
    List.length states' = List.length states.
Proof.
  revert states. induction objs as [|obj objs IH]; intros states Hlen;
    cbn [LevelManager.scanObjects].
  - now exists states.
  - destruct (scanTargets_ok obj meshes 0 states) as (s1 & -> & Hs1); [lia|].
    cbn [mbind completion_bind JS.bind].
    destruct (IH s1) as (s2 & Hs2 & Hl2); [lia|].
    exists s2. split; [exact Hs2|lia].
Qed.

Lemma allFilled_ok (meshes : list LevelManager.TargetMesh) (i : nat)
    (states : list LevelManager.TargetState) :
  (i + List.length meshes <= List.length states)%nat ->
  exists b, LevelManager.allFilled i meshes states = JS.Normal b.
Proof.
  revert i. induction meshes as [|target meshes IH]; intros i Hlen;
    cbn [LevelManager.allFilled List.length] in *.
  - now exists true.
  - destruct (states !! i) as [state|] eqn:Hi.
    + destruct (LevelManager.filled state); [apply IH; lia|now exists false].
    + apply lookup_ge_None in Hi. lia.
Qed.

Lemma checkWinCondition_ok (om : ObjectManager.t) (lm : LevelManager.t) :
  (List.length (LevelManager.targetMeshes lm)
   <= List.length (LevelManager.targetStates lm))%nat ->
  exists b lm',
    LevelManager.checkWinCondition om lm = JS.Normal (b, lm') /\
    LevelManager.targetMeshes lm' = LevelManager.targetMeshes lm /\
    List.length (LevelManager.targetStates lm')
    = List.length (LevelManager.targetStates lm).
Proof.
  intros Hlen. unfold LevelManager.checkWinCondition.
  destruct (LevelManager.currentLevel lm); [|now eexists _, _].
  unfold LevelManager.updateTargetStates.
  destruct (scanObjects_ok (ObjectManager.getAllObjects om) (LevelManager.targetMeshes lm)
              ((fun _ => {| LevelManager.filled := false; LevelManager.object := None |})
                 <$> LevelManager.targetStates lm)) as (s1 & Hscan & Hs1);
    [now rewrite length_fmap|].
  rewrite length_fmap in Hs1. cbn zeta. rewrite Hscan.
  cbn [mbind completion_bind JS.bind LevelManager.set_targetStates
       LevelManager.targetStates LevelManager.targetMeshes].
  destruct (allFilled_ok (LevelManager.targetMeshes lm) 0 s1) as (b & ->); [lia|].
  cbn [JS.bind]. eexists _, _. split; [reflexivity|]. split; auto.
Qed.

(** X17: when every target mesh has a target state, a frame of the level
    manager raises no TypeError: [update] returns, and it leaves the
    target meshes and the number of target states as they were. *)
Theorem X17_update_returns (now : R) (om : ObjectManager.t) (lm : LevelManager.t) :
  (List.length (LevelManager.targetMeshes lm)
   <= List.length (LevelManager.targetStates lm))%nat ->
  exists r lm',
    LevelManager.update now om lm = JS.Normal (r, lm') /\
    LevelManager.targetMeshes lm' = LevelManager.targetMeshes lm /\
    List.length (LevelManager.targetStates lm')
    = List.length (LevelManager.targetStates lm).
Proof.
  intros Hlen. unfold LevelManager.update.
  destruct (LevelManager.isActive lm); [|now eexists _, _].
  destruct (LevelManager.currentLevel lm) as [level|] eqn:Hlvl; [|now eexists _, _].
  cbn zeta. destruct (_ && _); [now eexists _, _|].
  destruct (checkWinCondition_ok om
              (LevelManager.set_elapsedTime
                 ((now - LevelManager.levelStartTime lm) / 1000) lm) Hlen)
    as (b & lm' & -> & Hm & Hs).
  cbn [mbind completion_bind JS.bind].
  destruct b; eexists _, _; (split; [reflexivity|]); split; assumption.
Qed.

(** X17 at the manager of the level with one target. *)
Lemma X17_update_returns_witness :
  exists r lm',
    LevelManager.update 1000 ObjectManager.constructor Examples.timedManager
    = JS.Normal (r, lm') /\
    LevelManager.targetMeshes lm' = LevelManager.targetMeshes Examples.timedManager /\
    List.length (LevelManager.targetStates lm')
    = List.length (LevelManager.targetStates Examples.timedManager).
Proof.
  apply X17_update_returns. cbn. lia.
Defined.

Lemma update_failed (now : R) (om : ObjectManager.t) (lm lm1 : LevelManager.t)
    (reason : string) :
  LevelManager.update now om lm = JS.Normal (Some (LevelManager.failed reason), lm1) <->
  LevelManager.isActive lm = true /\
  exists level limit,
    LevelManager.currentLevel lm = Some level /\
    LevelManager.timeLimit level = Some limit /\ limit <> 0 /\
    (now - LevelManager.levelStartTime lm) / 1000 > limit /\
    reason = "timeout" /\
    lm1 = LevelManager.set_elapsedTime ((now - LevelManager.levelStartTime lm) / 1000) lm.
Proof.
  unfold LevelManager.update. split.
  - destruct (LevelManager.isActive lm); [|discriminate].
    destruct (LevelManager.currentLevel lm) as [level|]; [|discriminate].
    cbn zeta. destruct (negb _ && _) eqn:Hc.
    + intros [= <- <-]. split; [reflexivity|].
      apply andb_prop in Hc as [Hf Hg].
      destruct (LevelManager.timeLimit level) as [limit|] eqn:Hlim; [|discriminate].
      cbn [JS.falsy LevelManager.gtR LevelManager.elapsedTime
           LevelManager.set_elapsedTime] in Hf, Hg.
      apply negb_true_iff, bool_decide_eq_false_1 in Hf.
      apply bool_decide_eq_true_1 in Hg.
      exists level, limit. repeat split; assumption.
    + destruct (LevelManager.checkWinCondition _ _) as [[[] ?]|];
        cbn [mbind completion_bind JS.bind]; discriminate.
  - intros (-> & level & limit & -> & Hlim & Hne & Hgt & -> & ->).
    cbn zeta. rewrite Hlim.
    cbn [JS.falsy LevelManager.gtR LevelManager.elapsedTime LevelManager.set_elapsedTime].
    rewrite bool_decide_eq_false_2 by assumption.
    rewrite bool_decide_eq_true_2 by assumption. reflexivity.
Qed.

(** X18: [update] reports a failure only for a time limit other than 0
    that the elapsed time exceeds; the level stays active, and every frame
    at the same or a later time reports the timeout again, whatever the
    objects are then. *)
Theorem X18_timeout_persists (now now' : R) (om om' : ObjectManager.t)
    (lm lm1 : LevelManager.t) (reason : string) :
  LevelManager.update now om lm = JS.Normal (Some (LevelManager.failed reason), lm1) ->
  now <= now' ->
  reason = "timeout" /\
  LevelManager.isActive lm1 = true /\
  exists lm2,
    LevelManager.update now' om' lm1
    = JS.Normal (Some (LevelManager.failed "timeout"), lm2).
Proof.
  intros Hup Hle.
  apply update_failed in Hup
    as (Hact & level & limit & Hlvl & Hlim & Hne & Hgt & -> & ->).
  split; [reflexivity|]. split; [exact Hact|].
  eexists. apply update_failed. split; [exact Hact|].
  exists level, limit. repeat split; try assumption.
  cbn [LevelManager.levelStartTime LevelManager.set_elapsedTime]. lra.
Qed.

(** X18 at frames 181 and 200 seconds after the start of a level with a
    limit of 180 seconds. *)
Lemma X18_timeout_persists_witness :
  exists lm2,
    LevelManager.update 200000 ObjectManager.constructor
      (LevelManager.set_elapsedTime ((181000 - 0) / 1000) Examples.timedManager)
    = JS.Normal (Some (LevelManager.failed "timeout"), lm2).
Proof.
  refine (proj2 (proj2
            (X18_timeout_persists 181000 200000 ObjectManager.constructor
               ObjectManager.constructor Examples.timedManager
               (LevelManager.set_elapsedTime ((181000 - 0) / 1000) Examples.timedManager)
               "timeout" _ _))).
  - apply update_failed. split; [reflexivity|].
    exists Examples.timedLevel, 180. repeat split; cbn; lra.
  - lra.
Defined.

(** ** Targets and objects *)

Lemma filled_insert (states : list LevelManager.TargetState) (i : nat)
    (s : LevelManager.TargetState) :
  (List.length (filter (fun s => LevelManager.filled s = true) (<[i := s]> states))
   <= S (List.length (filter (fun s => LevelManager.filled s = true) states)))%nat.
Proof.
  revert i. induction states as [|s0 states IH]; intros i.
  { destruct i; cbn [insert list_insert]; rewrite filter_nil; cbn [List.length]; lia. }
  destruct i as [|i]; cbn [insert list_insert]; rewrite !filter_cons.
  - repeat case_decide; cbn [List.length]; auto with arith.
  - specialize (IH i). case_decide; cbn [List.length]; auto with arith.
Qed.

Lemma scanTargets_filled (obj : ObjectManager.Mesh) (meshes : list LevelManager.TargetMesh)
    (i : nat) (states states' : list LevelManager.TargetState) :
  LevelManager.scanTargets obj i meshes states = JS.Normal states' ->
  (List.length (filter (fun s => LevelManager.filled s = true) states')
   <= S (List.length (filter (fun s => LevelManager.filled s = true) states)))%nat.
Proof.
  revert i. induction meshes as [|target meshes IH]; intros i;
    cbn [LevelManager.scanTargets].
  - intros [= <-]. lia.
  - destruct (LevelManager.fits obj target); [|apply IH].
    destruct (states !! i); [|discriminate].
    intros [= <-]. apply filled_insert.
Qed.

Lemma scanObjects_filled (objs : list ObjectManager.Mesh)
    (meshes : list LevelManager.TargetMesh) (states states' : list LevelManager.TargetState) :
  LevelManager.scanObjects objs meshes states = JS.Normal states' ->
  (List.length (filter (fun s => LevelManager.filled s = true) states')
   <= List.length (filter (fun s => LevelManager.filled s = true) states)
      + List.length objs)%nat.
Proof.
  revert states. induction objs as [|obj objs IH]; intros states;
    cbn [LevelManager.scanObjects List.length].
  - intros [= <-]. lia.
  - destruct (LevelManager.scanTargets obj 0 meshes states) as [s1|] eqn:H1;
      cbn [mbind completion_bind JS.bind]; [|discriminate].
    intros H2. apply IH in H2. apply scanTargets_filled in H1. lia.
Qed.

Lemma allFilled_filled (meshes : list LevelManager.TargetMesh) (i : nat)
    (states : list LevelManager.TargetState) :
  LevelManager.allFilled i meshes states = JS.Normal true ->
  (List.length meshes
   <= List.length (filter (fun s => LevelManager.filled s = true) (drop i states)))%nat.
Proof.
  revert i. induction meshes as [|target meshes IH]; intros i;
    cbn [LevelManager.allFilled List.length]; [lia|].
  destruct (states !! i) as [state|] eqn:Hi; [|discriminate].
  destruct (LevelManager.filled state) eqn:Hf; [|discriminate].
  intros Hrest. apply IH in Hrest.
  rewrite (drop_S _ _ _ Hi), filter_cons, decide_True by exact Hf.
  cbn [List.length]. lia.
Qed.

Lemma reset_unfilled (states : list LevelManager.TargetState) :
  filter (fun s => LevelManager.filled s = true)
    ((fun _ => {| LevelManager.filled := false; LevelManager.object := None |})
       <$> states) = [].
Proof.
  induction states as [|s0 states IH]; [reflexivity|].
  rewrite fmap_cons, filter_cons, decide_False by discriminate. exact IH.
Qed.

Lemma checkWinCondition_objects (om : ObjectManager.t) (lm lm' : LevelManager.t) :
  LevelManager.checkWinCondition om lm = JS.Normal (true, lm') ->
  (List.length (LevelManager.targetMeshes lm)
   <= List.length (ObjectManager.objects om))%nat.
Proof.
  unfold LevelManager.checkWinCondition.
  destruct (LevelManager.currentLevel lm); [|discriminate].
  unfold LevelManager.updateTargetStates. cbn zeta.
  destruct (LevelManager.scanObjects _ _ _) as [s1|] eqn:Hscan;
    cbn [mbind completion_bind JS.bind]; [|discriminate].
  cbn [LevelManager.set_targetStates LevelManager.targetMeshes LevelManager.targetStates].
  destruct (LevelManager.allFilled 0 _ s1) as [[]|] eqn:Hall;
    cbn [JS.bind]; try discriminate.
  intros _. apply allFilled_filled in Hall. apply scanObjects_filled in Hscan.
  rewrite drop_0 in Hall.
  rewrite reset_unfilled in Hscan. unfold ObjectManager.getAllObjects in Hscan.
  rewrite length_fmap in Hscan. cbn [List.length] in Hscan. lia.
Qed.

(** X19: a frame reports a level as completed only if the registry holds
    at least as many objects as the level has targets: an object fills at
    most one target. *)
Theorem X19_completed_needs_objects (now t : R) (n : Z) (om : ObjectManager.t)
    (lm lm' : LevelManager.t) :
  LevelManager.update now om lm = JS.Normal (Some (LevelManager.completed t n), lm') ->
  (List.length (LevelManager.targetMeshes lm)
   <= List.length (ObjectManager.objects om))%nat.
Proof.
  unfold LevelManager.update.
  destruct (LevelManager.isActive lm); [|discriminate].
  destruct (LevelManager.currentLevel lm) as [level|]; [|discriminate].
  cbn zeta. destruct (_ && _); [discriminate|].
  destruct (LevelManager.checkWinCondition _ _) as [[[] lm2]|] eqn:Hwin;
    cbn [mbind completion_bind JS.bind]; try discriminate.
  intros _. exact (checkWinCondition_objects _ _ _ Hwin).
Qed.

(** X19 at the frame in which the cube is on the one target of the level. *)
Lemma X19_completed_needs_objects_witness :
  (List.length (LevelManager.targetMeshes Examples.timedManager)
   <= List.length
        (ObjectManager.objects
           (Examples.holding (Examples.cube (THREE.Vec3 0 0.15 0) 0.3))))%nat.
Proof.
  destruct first_frame_completion_stores_zero as (lm & Hup & _).
  exact (X19_completed_needs_objects 0 ((0 - 0) / 1000) 3
           (Examples.holding (Examples.cube (THREE.Vec3 0 0.15 0) 0.3))
           Examples.timedManager lm Hup).
Defined.

(** ** The table of levels *)

Lemma LEVELS_ids :
  LevelManager.id <$> LevelData.LEVELS = [0; 1; 2; 3; 4; 5; 6; 7; 8; 9; 10]%Z.
Proof. reflexivity. Qed.

(** X20: the table holds eleven levels with the ids 0 to 10 in this
    order, and [getLevelById] finds the level of an id exactly for the
    integers 0 to 10: the level it returns has the id asked for. *)
Theorem X20_getLevelById (n : Z) :
  LevelData.getTotalLevels = 11%nat /\
  LevelManager.id <$> LevelData.LEVELS = [0; 1; 2; 3; 4; 5; 6; 7; 8; 9; 10]%Z /\
  match LevelData.getLevelById n with
  | Some level => LevelManager.id level = n /\ (0 <= n <= 10)%Z
  | None => ~ (0 <= n <= 10)%Z
  end.
Proof.
  split; [reflexivity|]. split; [exact LEVELS_ids|].
  unfold LevelData.getLevelById.
  destruct (find _ LevelData.LEVELS) as [level|] eqn:Hfind.
  - apply find_some in Hfind as [Hin Hid]. apply bool_decide_eq_true_1 in Hid.
    split; [exact Hid|].
    apply (in_map LevelManager.id) in Hin.
    change (map LevelManager.id LevelData.LEVELS)
      with (LevelManager.id <$> LevelData.LEVELS) in Hin.
    rewrite LEVELS_ids, Hid in Hin. cbn [In] in Hin. lia.
  - intros Hn.
    assert (In n (map LevelManager.id LevelData.LEVELS)) as Hin.
    { change (map LevelManager.id LevelData.LEVELS)
        with (LevelManager.id <$> LevelData.LEVELS).
      rewrite LEVELS_ids. cbn [In]. lia. }
    apply in_map_iff in Hin as (level & Hid & Hin).
    pose proof (find_none _ _ Hfind level Hin) as Hf. cbn beta in Hf.
    apply bool_decide_eq_false_1 in Hf. contradiction.
Qed.

Lemma LEVELS_stars :
  Forall (fun level =>
            (LevelManager.timeLimit level = None /\ LevelManager.stars level = None) \/
            exists t0 t1 t2,
              LevelManager.timeLimit level = Some t2 /\
              LevelManager.stars level
              = Some {| LevelManager.time := Some [t0; t1; t2] |} /\
              0 < t0 < t1 /\ t1 < t2)
    LevelData.LEVELS.
Proof.
  unfold LevelData.LEVELS.
  repeat (apply Forall_cons; split;
          [first [ left; split; reflexivity
                 | right; eexists _, _, _;
                   split; [reflexivity|split; [reflexivity|lra]] ]|]).
  apply Forall_nil. exact I.
Qed.

Lemma checkWinCondition_keeps (om : ObjectManager.t) (lm lm' : LevelManager.t) (b : bool) :
  LevelManager.checkWinCondition om lm = JS.Normal (b, lm') ->
  LevelManager.currentLevel lm' = LevelManager.currentLevel lm /\
  LevelManager.elapsedTime lm' = LevelManager.elapsedTime lm /\
  LevelManager.isActive lm' = LevelManager.isActive lm /\
  LevelManager.levelStartTime lm' = LevelManager.levelStartTime lm.
Proof.
  unfold LevelManager.checkWinCondition.
  destruct (LevelManager.currentLevel lm) eqn:Hlvl; [|intros [= <- <-]; auto].
  unfold LevelManager.updateTargetStates. cbn zeta.
  destruct (LevelManager.scanObjects _ _ _) as [s1|];
    cbn [mbind completion_bind JS.bind]; [|discriminate].
  destruct (LevelManager.allFilled _ _ _) as [b'|]; cbn [JS.bind]; [|discriminate].
  intros [= <- <-]. auto.
Qed.

(** X21: for every level of the table, a frame reports the completion
    with the time since the level was loaded; in a level with star
    thresholds that time is at most the last threshold, which is the time
    limit, and the stars are 3 up to the first threshold, 2 up to the
    second and 1 up to the third; in the tutorial, which has no thresholds,
    the stars are 1. *)
Theorem X21_table_stars (now e : R) (n : Z) (om : ObjectManager.t)
    (lm lm' : LevelManager.t) (level : LevelManager.Level) :
  level ∈ LevelData.LEVELS ->
  LevelManager.currentLevel lm = Some level ->
  LevelManager.update now om lm = JS.Normal (Some (LevelManager.completed e n), lm') ->
  e = (now - LevelManager.levelStartTime lm) / 1000 /\
  match LevelManager.stars level with
  | None => n = 1%Z
  | Some starData =>
      exists t0 t1 t2,
        LevelManager.time starData = Some [t0; t1; t2] /\
        LevelManager.timeLimit level = Some t2 /\
        e <= t2 /\
        ((e <= t0 /\ n = 3%Z) \/ (t0 < e <= t1 /\ n = 2%Z) \/ (t1 < e <= t2 /\ n = 1%Z))
  end.
Proof.
  intros Hin Hlvl. unfold LevelManager.update. rewrite Hlvl.
  destruct (LevelManager.isActive lm); [|discriminate]. cbn zeta.
  destruct (negb _ && _) eqn:Hc; [discriminate|].
  destruct (LevelManager.checkWinCondition _ _) as [[[] lm2]|] eqn:Hwin;
    cbn [mbind completion_bind JS.bind]; try discriminate.
  intros [= <- <- <-].
  apply checkWinCondition_keeps in Hwin as (Hcl & Hel & _ & _).
  cbn [LevelManager.currentLevel LevelManager.elapsedTime
       LevelManager.set_elapsedTime] in Hcl, Hel, Hc.
  rewrite Hlvl in Hcl. split; [exact Hel|].
  unfold LevelManager.calculateStars. rewrite Hcl, Hel.
  set (e := (now - LevelManager.levelStartTime lm) / 1000) in *.
  destruct (proj1 (Forall_forall _ _) LEVELS_stars level Hin)
    as [[_ ->]|(t0 & t1 & t2 & Hlim & -> & Ht01 & Ht12)]; [reflexivity|].
  cbn [LevelManager.time lookup list_lookup LevelManager.leR].
  rewrite Hlim in Hc. cbn [JS.falsy LevelManager.gtR] in Hc.
  rewrite (bool_decide_eq_false_2 (t2 = 0)) in Hc by lra.
  cbn [negb andb] in Hc. apply bool_decide_eq_false_1 in Hc.
  exists t0, t1, t2. split; [reflexivity|]. split; [exact Hlim|]. split; [lra|].
  destruct (decide (e <= t0)) as [H0|H0].
  - rewrite (bool_decide_eq_true_2 _ H0). left. auto.
  - rewrite (bool_decide_eq_false_2 _ H0).
    destruct (decide (e <= t1)) as [H1|H1].
    + rewrite (bool_decide_eq_true_2 _ H1). right. left. split; [lra|reflexivity].
    + rewrite (bool_decide_eq_false_2 _ H1). right. right.
      split; [lra|]. now destruct (bool_decide _).
Qed.

(** Level 1 of the table, loaded at time 0, with a cube on its target 30
    seconds later. *)
Lemma table_level1_completed :
  exists level lm',
    level ∈ LevelData.LEVELS /\
    LevelManager.currentLevel
      (snd (LevelData.loadLevel 1 0 ObjectManager.constructor LevelManager.constructor))
    = Some level /\
    LevelManager.update 30000
      (Examples.holding (Examples.cube (THREE.Vec3 (-1.5) 0.15 (-1)) 0.3))
      (snd (LevelData.loadLevel 1 0 ObjectManager.constructor LevelManager.constructor))
    = JS.Normal (Some (LevelManager.completed ((30000 - 0) / 1000) 3), lm').
Proof.
  set (target := LevelData.zone (-1.5) 0.15 (-1) 0.5 ["cube"] None None).
  set (level1 :=
         LevelData.level 1 [LevelData.item "cube" 1.5 0.15 1 0xff6b35 0.3] [target]
           (Some 120) (Some [60; 90; 120])).
  set (mesh := {| LevelManager.mesh_position := THREE.Vec3 (-1.5) 0.15 (-1);
                  LevelManager.targetIndex := 0;
                  LevelManager.userData := target |}).
  assert (snd (LevelData.loadLevel 1 0 ObjectManager.constructor LevelManager.constructor)
          = {| LevelManager.currentLevel := Some level1;
               LevelManager.levelStartTime := 0;
               LevelManager.elapsedTime := 0;
               LevelManager.isActive := true;
               LevelManager.targetMeshes := [mesh];
               LevelManager.targetStates :=
                 [{| LevelManager.filled := false; LevelManager.object := None |}] |})
    as -> by reflexivity.
  exists level1. eexists. split; [|split; [reflexivity|]].
  { apply list_elem_of_further, list_elem_of_here. }
  assert (LevelManager.fits (Examples.cube (THREE.Vec3 (-1.5) 0.15 (-1)) 0.3) mesh = true)
    as Hfits.
  { unfold LevelManager.fits. cbn zeta.
    cbn [LevelManager.mesh_position LevelManager.userData Examples.cube
         Examples.firstMesh ObjectManager.position mesh].
    rewrite distanceTo_self.
    rewrite decide_True by (cbn [target LevelData.zone LevelManager.size]; lra).
    reflexivity. }
  unfold LevelManager.update.
  cbn [LevelManager.isActive LevelManager.currentLevel LevelManager.levelStartTime].
  cbn zeta.
  change (LevelManager.timeLimit level1) with (Some 120).
  cbn [JS.falsy LevelManager.gtR LevelManager.elapsedTime LevelManager.set_elapsedTime].
  rewrite (bool_decide_eq_false_2 (120 = 0)) by lra.
  rewrite (bool_decide_eq_false_2 (_ > 120)) by lra.
  cbn [negb andb].
  match goal with |- context [LevelManager.checkWinCondition ?om ?lm] =>
    assert (LevelManager.checkWinCondition om lm
            = JS.Normal
                (true,
                 LevelManager.set_targetStates
                   [{| LevelManager.filled := true;
                       LevelManager.object := Some "obj_1" |}] lm)) as ->
  end.
  { unfold LevelManager.checkWinCondition, LevelManager.updateTargetStates.
    cbn [LevelManager.currentLevel LevelManager.set_elapsedTime
         LevelManager.targetMeshes LevelManager.targetStates fmap list_fmap
         ObjectManager.getAllObjects ObjectManager.objects Examples.holding snd
         LevelManager.scanObjects LevelManager.scanTargets].
    rewrite Hfits. reflexivity. }
  cbn [mbind completion_bind JS.bind].
  unfold LevelManager.calculateStars.
  cbn [LevelManager.currentLevel LevelManager.set_targetStates
       LevelManager.set_elapsedTime LevelManager.elapsedTime].
  change (LevelManager.stars level1)
    with (Some {| LevelManager.time := Some [60; 90; 120] |}).
  cbn [LevelManager.time lookup list_lookup LevelManager.leR].
  rewrite (bool_decide_eq_true_2 (_ <= 60)) by lra.
  reflexivity.
Qed.

(** X21 at level 1 of the table, completed after 30 seconds. *)
Lemma X21_table_stars_witness :
  exists t0 t1 t2 : R,
    (30000 - 0) / 1000 <= t2 /\
    (((30000 - 0) / 1000 <= t0 /\ 3%Z = 3%Z) \/
     (t0 < (30000 - 0) / 1000 <= t1 /\ 3%Z = 2%Z) \/
     (t1 < (30000 - 0) / 1000 <= t2 /\ 3%Z = 1%Z)).
Proof.
  destruct table_level1_completed as (level & lm' & Hin & Hlvl & Hup).
  destruct (X21_table_stars 30000 ((30000 - 0) / 1000) 3
              (Examples.holding (Examples.cube (THREE.Vec3 (-1.5) 0.15 (-1)) 0.3))
              (snd (LevelData.loadLevel 1 0 ObjectManager.constructor
                      LevelManager.constructor))
              lm' level Hin Hlvl Hup) as [_ Hstars].
  destruct (LevelManager.stars level) as [starData|].
  - destruct Hstars as (t0 & t1 & t2 & _ & _ & Hle & Hcases).
    exists t0, t1, t2. split; [exact Hle|exact Hcases].
  - discriminate.
Defined.

(** ** The frame loop *)

Lemma frames_inactive (writable : bool) (fs : list (R * list ObjectManager.Collider))
    (w : Simulator.t) :
  LevelManager.isActive (Simulator.levelManager w) = false ->
  exists w',
    Props.frames writable fs w = JS.Normal w' /\
    Simulator.levelManager w' = Simulator.levelManager w /\
    Simulator.storage w' = Simulator.storage w.
Proof.
  revert w. induction fs as [|[now cs] fs IH]; intros w Hoff; cbn [Props.frames].
  - now exists w.
  - unfold Simulator.animate. cbn zeta. rewrite Hoff.
    cbn [mbind completion_bind JS.bind].
    match goal with |- context [Props.frames writable fs ?w1] =>
      destruct (IH w1 Hoff) as (w' & Hrun & Hlm & Hst) end.
    exists w'. auto.
Qed.

(** X22: a frame in which the level manager reports the completion saves
    the progress and leaves the level manager inactive; every run of
    frames after it returns and changes neither the level manager nor the
    store, so the progress of a completion is saved once. *)
Theorem X22_progress_saved_once (writable : bool) (now e : R) (n : Z)
    (cs : list ObjectManager.Collider) (w : Simulator.t) (lm' : LevelManager.t) :
  LevelManager.isActive (Simulator.levelManager w) = true ->
  LevelManager.update now
    (ObjectManager.update 0.016 cs (Simulator.objectManager w))
    (Simulator.levelManager w)
  = JS.Normal (Some (LevelManager.completed e n), lm') ->
  exists w1 level,
    Simulator.animate now cs writable w = JS.Normal w1 /\
    LevelManager.currentLevel lm' = Some level /\
    Simulator.storage w1
    = snd (Storage.saveProgress writable (LevelManager.id level) n e (Simulator.storage w)) /\
    LevelManager.isActive (Simulator.levelManager w1) = false /\
    forall fs, exists w2,
      Props.frames writable fs w1 = JS.Normal w2 /\
      Simulator.levelManager w2 = Simulator.levelManager w1 /\
      Simulator.storage w2 = Simulator.storage w1.
Proof.
  intros Hact Hup.
  assert (exists level,
            LevelManager.currentLevel lm' = Some level /\
            e = LevelManager.elapsedTime lm' /\ n = LevelManager.calculateStars lm')
    as (level & Hlvl & -> & ->).
  { revert Hup. unfold LevelManager.update. rewrite Hact.
    destruct (LevelManager.currentLevel (Simulator.levelManager w)) as [level|] eqn:Hl;
      [|discriminate].
    cbn zeta. destruct (negb _ && _); [discriminate|].
    destruct (LevelManager.checkWinCondition _ _) as [[[] lm2]|] eqn:Hwin;
      cbn [mbind completion_bind JS.bind]; try discriminate.
    intros [= <- <- <-].
    apply checkWinCondition_keeps in Hwin as (Hcl & _).
    exists level. rewrite Hcl. cbn [LevelManager.currentLevel LevelManager.set_elapsedTime].
    auto. }
  unfold Simulator.animate. cbn zeta. rewrite Hact, Hup.
  cbn [mbind completion_bind JS.bind].
  unfold LevelManager.completeLevel. rewrite Hlvl. cbn [fst snd].
  eexists _, level. split; [reflexivity|]. split; [reflexivity|].
  cbn [Simulator.storage Simulator.levelManager LevelManager.isActive].
  split; [reflexivity|]. split; [reflexivity|].
  intros fs. now apply frames_inactive.
Qed.

(** The first frame of the level with one target, with a static cube on
    the target. *)
Lemma static_frame_completed :
  exists lm',
    LevelManager.update 0
      (ObjectManager.update 0.016 []
         (Examples.holding (Examples.staticCube (THREE.Vec3 0 0.15 0))))
      Examples.timedManager
    = JS.Normal (Some (LevelManager.completed ((0 - 0) / 1000) 3), lm').
Proof.
  change (ObjectManager.update 0.016 []
            (Examples.holding (Examples.staticCube (THREE.Vec3 0 0.15 0))))
    with (Examples.holding (Examples.staticCube (THREE.Vec3 0 0.15 0))).
  eexists. unfold LevelManager.update.
  cbn [LevelManager.isActive LevelManager.currentLevel Examples.timedManager
       LevelManager.timeLimit Examples.timedLevel LevelManager.levelStartTime
       JS.falsy LevelManager.gtR].
  rewrite (bool_decide_eq_false_2 (180 = 0)) by lra.
  change (LevelManager.elapsedTime (LevelManager.set_elapsedTime ((0 - 0) / 1000) _))
    with ((0 - 0) / 1000).
  rewrite (bool_decide_eq_false_2 (_ > 180)) by lra.
  cbn [negb andb].
  match goal with |- context [LevelManager.checkWinCondition ?om ?lm] =>
    assert (LevelManager.checkWinCondition om lm
            = JS.Normal
                (true,
                 LevelManager.set_targetStates
                   [{| LevelManager.filled := true;
                       LevelManager.object := Some "obj_1" |}] lm)) as ->
  end.
  { unfold LevelManager.checkWinCondition, LevelManager.updateTargetStates.
    cbn [LevelManager.currentLevel LevelManager.set_elapsedTime Examples.timedManager
         LevelManager.targetMeshes LevelManager.targetStates fmap list_fmap
         ObjectManager.getAllObjects ObjectManager.objects Examples.holding snd
         LevelManager.scanObjects LevelManager.scanTargets].
    assert (LevelManager.fits (Examples.staticCube (THREE.Vec3 0 0.15 0))
              {| LevelManager.mesh_position := THREE.Vec3 0 0.15 0;
                 LevelManager.targetIndex := 0;
                 LevelManager.userData := Examples.cubeTarget (THREE.Vec3 0 0.15 0) |}
            = true) as ->.
    { unfold LevelManager.fits. cbn zeta.
      cbn [LevelManager.mesh_position LevelManager.userData Examples.staticCube
           Examples.cube Examples.firstMesh ObjectManager.position
           ObjectManager.set_userData].
      rewrite distanceTo_self.
      rewrite decide_True by (cbn [Examples.cubeTarget LevelManager.size]; lra).
      reflexivity. }
    reflexivity. }
  cbn [mbind completion_bind JS.bind].
  unfold LevelManager.calculateStars.
  cbn [LevelManager.currentLevel LevelManager.stars Examples.timedLevel
       Examples.timedManager LevelManager.set_targetStates
       LevelManager.set_elapsedTime LevelManager.elapsedTime
       LevelManager.time lookup list_lookup LevelManager.leR].
  rewrite (bool_decide_eq_true_2 (_ <= 60)) by lra.
  reflexivity.
Qed.

(** X22 at that frame, with a store that can be written. *)
Lemma X22_progress_saved_once_witness :
  exists w1,
    Simulator.animate 0 [] true
      {| Simulator.objectManager :=
           Examples.holding (Examples.staticCube (THREE.Vec3 0 0.15 0));
         Simulator.levelManager := Examples.timedManager;
         Simulator.storage := None |}
    = JS.Normal w1 /\
    LevelManager.isActive (Simulator.levelManager w1) = false.
Proof.
  destruct static_frame_completed as (lm' & Hup).
  destruct (X22_progress_saved_once true 0 ((0 - 0) / 1000) 3 []
              {| Simulator.objectManager :=
                   Examples.holding (Examples.staticCube (THREE.Vec3 0 0.15 0));
                 Simulator.levelManager := Examples.timedManager;
                 Simulator.storage := None |}
              lm' eq_refl Hup) as (w1 & level & Han & _ & _ & Hoff & _).
  exists w1. split; [exact Han|exact Hoff].
Defined.

(** ** The particles of the background *)





(** ** What a filled target says *)

Lemma scanTargets_first (obj : ObjectManager.Mesh) (meshes : list LevelManager.TargetMesh)
    (i : nat) (states states' : list LevelManager.TargetState) :
  LevelManager.scanTargets obj i meshes states = JS.Normal states' ->
  states' = states \/
  exists j,
    Props.first_fit obj meshes j /\
    states'
    = <[(i + j)%nat := {| LevelManager.filled := true;
                          LevelManager.object :=
                            Some (ObjectManager.id (ObjectManager.userData obj)) |}]>
        states.
Proof.
  revert i. induction meshes as [|target meshes IH]; intros i;
    cbn [LevelManager.scanTargets].
  - intros [= <-]. now left.
  - destruct (LevelManager.fits obj target) eqn:Hfit.
    + destruct (states !! i); [|discriminate].
      intros [= <-]. right. exists 0%nat. rewrite Nat.add_0_r. split; [|reflexivity].
      exists target. repeat split; [assumption|]. intros j tj Hj. lia.
    + intros Hscan. apply IH in Hscan as [->|(j & (tj & Hj & Hfj & Hbefore) & ->)];
        [now left|].
      right. exists (S j). split.
      * exists tj. repeat split; [exact Hj|exact Hfj|].
        intros [|j1] t1 Hlt H1; cbn in H1.
        -- now injection H1 as <-.
        -- apply (Hbefore j1); [lia|exact H1].
      * f_equal. lia.
Qed.

Lemma scanObjects_first (all objs : list ObjectManager.Mesh)
    (meshes : list LevelManager.TargetMesh) (states states' : list LevelManager.TargetState) :
  (forall obj, obj ∈ objs -> obj ∈ all) ->
  (forall i si, states !! i = Some si -> LevelManager.filled si = true ->
     exists obj, obj ∈ all /\
       LevelManager.object si = Some (ObjectManager.id (ObjectManager.userData obj)) /\
       Props.first_fit obj meshes i) ->
  LevelManager.scanObjects objs meshes states = JS.Normal states' ->
  forall i si, states' !! i = Some si -> LevelManager.filled si = true ->
    exists obj, obj ∈ all /\
      LevelManager.object si = Some (ObjectManager.id (ObjectManager.userData obj)) /\
      Props.first_fit obj meshes i.
Proof.
  revert states. induction objs as [|obj objs IH]; intros states Hsub Hinv;
    cbn [LevelManager.scanObjects].
  - now intros [= <-].
  - destruct (LevelManager.scanTargets obj 0 meshes states) as [states1|] eqn:Hscan;
      [|discriminate].
    cbn [mbind completion_bind JS.bind].
    apply IH; [intros o Ho; apply Hsub; now apply list_elem_of_further|].
    apply scanTargets_first in Hscan as [->|(j & Hfirst & ->)]; [exact Hinv|].
    intros i si Hi Hf.
    apply list_lookup_insert_Some in Hi as [(<- & <- & _)|(_ & Hi)].
    + exists obj. split; [apply Hsub, list_elem_of_here|]. split; [reflexivity|].
      exact Hfirst.
    + now apply (Hinv i).
Qed.

Lemma updateTargetStates_first (om : ObjectManager.t) (lm lm' : LevelManager.t)
    (i : nat) (si : LevelManager.TargetState) :
  LevelManager.updateTargetStates om lm = JS.Normal lm' ->
  LevelManager.targetStates lm' !! i = Some si ->
  LevelManager.filled si = true ->
  exists obj,
    obj ∈ ObjectManager.getAllObjects om /\
    LevelManager.object si = Some (ObjectManager.id (ObjectManager.userData obj)) /\
    Props.first_fit obj (LevelManager.targetMeshes lm) i.
Proof.
  unfold LevelManager.updateTargetStates. cbn zeta.
  destruct (LevelManager.scanObjects _ _ _) as [states|] eqn:Hscan; [|discriminate].
  cbn [mbind completion_bind JS.bind]. intros [= <-].
  cbn [LevelManager.targetStates LevelManager.set_targetStates].
  refine (scanObjects_first (ObjectManager.getAllObjects om) _ _ _ _ _ _ Hscan i si).
  - auto.
  - intros j sj Hj Hf. apply list_lookup_fmap_Some in Hj as (? & -> & _). discriminate.
Qed.

(** X24: after an evaluation of the target states, a target marked as
    filled names an object of the registry that fits it, that is lies
    within its radius and has an accepted type and, where one is
    required, the required colour, and that fits none of the targets
    before it. *)
Theorem X24_filled_target_sound (om : ObjectManager.t) (lm lm' : LevelManager.t)
    (i : nat) (si : LevelManager.TargetState) :
  LevelManager.updateTargetStates om lm = JS.Normal lm' ->
  LevelManager.targetStates lm' !! i = Some si ->
  LevelManager.filled si = true ->
  exists obj,
    obj ∈ ObjectManager.getAllObjects om /\
    LevelManager.object si = Some (ObjectManager.id (ObjectManager.userData obj)) /\
    Props.first_fit obj (LevelManager.targetMeshes lm) i.
Proof. exact (updateTargetStates_first om lm lm' i si). Qed.

(** X24 at two targets at the same place and one cube in both. *)
Lemma X24_filled_target_sound_witness :
  exists obj,
    obj ∈ ObjectManager.getAllObjects
            (Examples.holding (Examples.cube (THREE.Vec3 0 0.15 0) 0.3)) /\
    Some "obj_1" = Some (ObjectManager.id (ObjectManager.userData obj)) /\
    Props.first_fit obj (LevelManager.targetMeshes Examples.twoTargets) 0.
Proof.
  refine (X24_filled_target_sound
            (Examples.holding (Examples.cube (THREE.Vec3 0 0.15 0) 0.3))
            Examples.twoTargets
            (LevelManager.set_targetStates
               [{| LevelManager.filled := true; LevelManager.object := Some "obj_1" |};
                {| LevelManager.filled := false; LevelManager.object := None |}]
               Examples.twoTargets)
            0 {| LevelManager.filled := true; LevelManager.object := Some "obj_1" |}
            _ eq_refl eq_refl).
  unfold LevelManager.updateTargetStates. cbn zeta.
  cbn [Examples.twoTargets LevelManager.targetMeshes LevelManager.targetStates
       fmap list_fmap ObjectManager.getAllObjects ObjectManager.objects
       Examples.holding snd LevelManager.scanObjects LevelManager.scanTargets].
  rewrite fits_cubeTarget. reflexivity.
Defined.

(** ** The stack of level 6 *)

Lemma fits_zone (obj : ObjectManager.Mesh) (px py pz sz : R) (acc : list string)
    (st : option bool) (idx : nat) :
  LevelManager.fits obj
    {| LevelManager.mesh_position := THREE.Vec3 px py pz;
       LevelManager.targetIndex := idx;
       LevelManager.userData := LevelData.zone px py pz sz acc None st |}
  = bool_decide (THREE.distanceTo (ObjectManager.position obj) (THREE.Vec3 px py pz) < sz)
    && bool_decide (ObjectManager.type (ObjectManager.userData obj) ∈ acc).
Proof.
  unfold LevelManager.fits. cbn zeta.
  cbn [LevelManager.mesh_position LevelManager.userData LevelData.zone
       LevelManager.size LevelManager.accepts LevelManager.requiredColor].
  destruct (decide (_ < sz)) as [Hd|Hd].
  - rewrite (bool_decide_eq_true_2 _ Hd). cbn [andb].
    destruct (decide (_ ∈ acc)) as [Ha|Ha].
    + now rewrite (bool_decide_eq_true_2 _ Ha).
    + now rewrite (bool_decide_eq_false_2 _ Ha).
  - now rewrite (bool_decide_eq_false_2 _ Hd).
Qed.

(** An object in the upper of two zones of one size and one list of
    accepted types, one above the other, that is not in the lower one is
    above the middle between them. *)
Lemma upper_zone_only (obj : ObjectManager.Mesh) (px ya yb pz sz : R)
    (acc : list string) (sa sb : option bool) (ia ib : nat) :
  ya < yb ->
  LevelManager.fits obj
    {| LevelManager.mesh_position := THREE.Vec3 px yb pz;
       LevelManager.targetIndex := ib;
       LevelManager.userData := LevelData.zone px yb pz sz acc None sb |} = true ->
  LevelManager.fits obj
    {| LevelManager.mesh_position := THREE.Vec3 px ya pz;
       LevelManager.targetIndex := ia;
       LevelManager.userData := LevelData.zone px ya pz sz acc None sa |} = false ->
  (ya + yb) / 2 < THREE.y (ObjectManager.position obj).
Proof.
  intros Hab. rewrite !fits_zone. intros Hb Ha.
  apply andb_prop in Hb as [Hdb Hacc]. rewrite Hacc, andb_true_r in Ha.
  apply bool_decide_eq_true_1 in Hdb. apply bool_decide_eq_false_1 in Ha.
  assert (sqrt (THREE.distanceToSquared (ObjectManager.position obj) (THREE.Vec3 px yb pz))
          < sqrt (THREE.distanceToSquared (ObjectManager.position obj)
                    (THREE.Vec3 px ya pz))) as Hlt
    by (unfold THREE.distanceTo in Hdb, Ha; lra).
  apply sqrt_lt_0_alt in Hlt. revert Hlt.
  unfold THREE.distanceToSquared. cbn zeta. cbn [THREE.x THREE.y THREE.z].
  set (y := THREE.y (ObjectManager.position obj)). intros Hlt.
  assert ((yb - ya) * (2 * y - ya - yb) > 0) as Hprod by lra.
  nra.
Qed.

Lemma level6_targetMeshes :
  LevelManager.targetMeshes
    (snd (LevelData.loadLevel 6 0 ObjectManager.constructor LevelManager.constructor))
  = [ {| LevelManager.mesh_position := THREE.Vec3 (-2) 0.15 0;
         LevelManager.targetIndex := 0;
         LevelManager.userData := LevelData.zone (-2) 0.15 0 0.5 ["cube"] None (Some true) |};
      {| LevelManager.mesh_position := THREE.Vec3 (-2) 0.45 0;
         LevelManager.targetIndex := 1;
         LevelManager.userData := LevelData.zone (-2) 0.45 0 0.5 ["cube"] None (Some true) |};
      {| LevelManager.mesh_position := THREE.Vec3 (-2) 0.75 0;
         LevelManager.targetIndex := 2;
         LevelManager.userData := LevelData.zone (-2) 0.75 0 0.5 ["cube"] None (Some true) |} ].
Proof. reflexivity. Qed.

Lemma allFilled_lookup (meshes : list LevelManager.TargetMesh) (i j : nat)
    (states : list LevelManager.TargetState) :
  LevelManager.allFilled i meshes states = JS.Normal true ->
  (j < List.length meshes)%nat ->
  exists s, states !! (i + j)%nat = Some s /\ LevelManager.filled s = true.
Proof.
  revert i j. induction meshes as [|target meshes IH]; intros i j;
    cbn [LevelManager.allFilled List.length]; [lia|].
  destruct (states !! i) as [state|] eqn:Hi; [|discriminate].
  destruct (LevelManager.filled state) eqn:Hf; [|discriminate].
  intros Hrest Hj. destruct j as [|j].
  - exists state. now rewrite Nat.add_0_r.
  - destruct (IH (S i) j Hrest) as (s & Hs & Hfs); [lia|].
    exists s. split; [|exact Hfs]. now replace (i + S j)%nat with (S i + j)%nat by lia.
Qed.

Lemma elem_of_getAllObjects (om : ObjectManager.t) (obj : ObjectManager.Mesh) :
  Props.wf om ->
  obj ∈ ObjectManager.getAllObjects om ->
  (ObjectManager.id (ObjectManager.userData obj), obj) ∈ ObjectManager.objects om.
Proof.
  intros [_ Hid] Hin. unfold ObjectManager.getAllObjects in Hin.
  apply list_elem_of_fmap in Hin as ([k m] & -> & Hin).
  pose proof (proj1 (Forall_forall _ _) Hid _ Hin) as Hk. cbn [fst snd] in *.
  now rewrite Hk.
Qed.

(** X25: level 6, whose three targets lie 0.3 above one another with a
    radius of 0.5, is not reported as completed in a frame in which every
    object that is not held lies at height 0.3 or below: the second and the
    third target are given only to objects that are out of the range of
    the first, and such objects are higher. *)
Theorem X25_level6_needs_raised_objects (now e : R) (n : Z) (om : ObjectManager.t)
    (lm lm' : LevelManager.t) :
  Props.wf om ->
  LevelManager.targetMeshes lm
  = LevelManager.targetMeshes
      (snd (LevelData.loadLevel 6 0 ObjectManager.constructor LevelManager.constructor)) ->
  (forall k obj,
     (k, obj) ∈ ObjectManager.objects om -> ObjectManager.isAttached om k = false ->
     THREE.y (ObjectManager.position obj) <= 0.3) ->
  LevelManager.update now om lm <> JS.Normal (Some (LevelManager.completed e n), lm').
Proof.
  intros Hwf Hmeshes Hlow. rewrite level6_targetMeshes in Hmeshes.
  unfold LevelManager.update.
  destruct (LevelManager.isActive lm); [|discriminate].
  destruct (LevelManager.currentLevel lm) as [level|] eqn:Hlvl; [|discriminate].
  cbn zeta. destruct (negb _ && _); [discriminate|].
  destruct (LevelManager.checkWinCondition _ _) as [[[] lm2]|] eqn:Hwin;
    cbn [mbind completion_bind JS.bind]; try discriminate.
  intros _. revert Hwin. unfold LevelManager.checkWinCondition.
  cbn [LevelManager.currentLevel LevelManager.set_elapsedTime]. rewrite Hlvl.
  destruct (LevelManager.updateTargetStates om _) as [lm1|] eqn:Hup;
    cbn [mbind completion_bind JS.bind]; [|discriminate].
  destruct (LevelManager.allFilled 0 _ _) as [[]|] eqn:Hall;
    cbn [JS.bind]; try discriminate.
  intros _.
  assert (LevelManager.targetMeshes lm1 = LevelManager.targetMeshes lm) as Hm1.
  { revert Hup. unfold LevelManager.updateTargetStates. cbn zeta.
    destruct (LevelManager.scanObjects _ _ _); cbn [mbind completion_bind JS.bind];
      [|discriminate].
    now intros [= <-]. }
  rewrite Hm1, Hmeshes in Hall.
  destruct (allFilled_lookup _ 0 1 _ Hall) as (s1 & Hs1 & Hf1); [cbn; lia|].
  destruct (allFilled_lookup _ 0 2 _ Hall) as (s2 & Hs2 & Hf2); [cbn; lia|].
  cbn [Nat.add] in Hs1, Hs2.
  destruct (updateTargetStates_first om _ lm1 1 s1 Hup Hs1 Hf1)
    as (obj1 & Hin1 & Ho1 & (t1 & Ht1 & Hfit1 & Hbefore1)).
  destruct (updateTargetStates_first om _ lm1 2 s2 Hup Hs2 Hf2)
    as (obj2 & Hin2 & Ho2 & (t2 & Ht2 & Hfit2 & Hbefore2)).
  cbn [LevelManager.targetMeshes LevelManager.set_elapsedTime] in Ht1, Ht2, Hbefore1, Hbefore2.
  rewrite Hmeshes in Ht1, Ht2, Hbefore1, Hbefore2.
  injection Ht1 as <-. injection Ht2 as <-.
  specialize (Hbefore1 0%nat _ ltac:(lia) eq_refl).
  specialize (Hbefore2 0%nat _ ltac:(lia) eq_refl).
  assert (0.15 < 0.45) as H01 by lra. assert (0.15 < 0.75) as H02 by lra.
  pose proof (upper_zone_only obj1 (-2) 0.15 0.45 0 0.5 ["cube"] (Some true) (Some true)
                0 1 H01 Hfit1 Hbefore1) as Hy1.
  pose proof (upper_zone_only obj2 (-2) 0.15 0.75 0 0.5 ["cube"] (Some true) (Some true)
                0 2 H02 Hfit2 Hbefore2) as Hy2.
  set (k1 := ObjectManager.id (ObjectManager.userData obj1)) in *.
  set (k2 := ObjectManager.id (ObjectManager.userData obj2)) in *.
  assert (k1 <> k2) as Hne.
  { intros Heq.
    pose proof (updateTargetStates_exclusive om _ lm1 Hwf Hup 1%nat 2%nat s1 s2 k1
                  Hs1 Hs2 Ho1) as Hex.
    rewrite Heq in Hex. specialize (Hex Ho2). discriminate. }
  apply (elem_of_getAllObjects om obj1 Hwf) in Hin1.
  apply (elem_of_getAllObjects om obj2 Hwf) in Hin2.
  fold k1 in Hin1. fold k2 in Hin2.
  destruct (ObjectManager.isAttached om k1) eqn:Ha1;
    [|specialize (Hlow k1 obj1 Hin1 Ha1); lra].
  destruct (ObjectManager.isAttached om k2) eqn:Ha2;
    [|specialize (Hlow k2 obj2 Hin2 Ha2); lra].
  unfold ObjectManager.isAttached in Ha1, Ha2.
  destruct (ObjectManager.attachedObject om) as [a|]; [|discriminate].
  apply bool_decide_eq_true_1 in Ha1, Ha2. congruence.
Qed.

(** X25 at level 6 as it is loaded: the three cubes lie on the floor. *)
Lemma X25_level6_needs_raised_objects_witness :
  LevelManager.update 1000
    (snd (fst (LevelData.loadLevel 6 0 ObjectManager.constructor LevelManager.constructor)))
    (snd (LevelData.loadLevel 6 0 ObjectManager.constructor LevelManager.constructor))
  <> JS.Normal
       (Some (LevelManager.completed 1 3),
        snd (LevelData.loadLevel 6 0 ObjectManager.constructor LevelManager.constructor)).
Proof.
  apply X25_level6_needs_raised_objects.
  - change (Props.wf
              (snd (ObjectManager.spawnObject "cube" (THREE.Vec3 2 0.15 (-1)) 0xffa502 0.3
                 (snd (ObjectManager.spawnObject "cube" (THREE.Vec3 2 0.15 1) 0xff4757 0.3
                    (snd (ObjectManager.spawnObject "cube" (THREE.Vec3 2 0.15 0) 0xff6b35 0.3
                       (ObjectManager.clearAll ObjectManager.constructor)))))))).
    apply sound_spawnObject, sound_spawnObject, sound_spawnObject, sound_clearAll.
    destruct wf_constructor as [Hwf Hfresh].
    repeat split; try apply Hwf; try assumption; constructor.
  - reflexivity.
  - intros k obj Hin _.
    change (ObjectManager.objects _)
      with [("obj_1", Props.spawned 1 "cube" (THREE.Vec3 2 0.15 0) 0xff6b35 0.3);
            ("obj_2", Props.spawned 2 "cube" (THREE.Vec3 2 0.15 1) 0xff4757 0.3);
            ("obj_3", Props.spawned 3 "cube" (THREE.Vec3 2 0.15 (-1)) 0xffa502 0.3)]
      in Hin.
    repeat (apply elem_of_cons in Hin as [[= -> ->]|Hin];
            [change (THREE.y (ObjectManager.position (Props.spawned _ _ _ _ _)))
               with 0.15; lra|]).
    now apply elem_of_nil in Hin.
Defined.

(** ** Picking up and keeping *)



Lemma get_filter_out (k : string) (l : list (string * ObjectManager.Mesh)) :
  ObjectManager.get k (filter (fun e => fst e <> k) l) = None.
Proof.
  induction l as [|[k0 m] l IH]; [reflexivity|].
  rewrite filter_cons. cbn [fst]. case_decide as Hk; [|exact IH].
  cbn [ObjectManager.get]. now rewrite decide_False.
Qed.

Lemma get_filter_other (k k' : string) (l : list (string * ObjectManager.Mesh)) :
  k' <> k ->
  ObjectManager.get k' (filter (fun e => fst e <> k) l) = ObjectManager.get k' l.
Proof.
  intros Hne. induction l as [|[k0 m] l IH]; [reflexivity|].
  rewrite filter_cons. cbn [fst]. case_decide as Hk; cbn [ObjectManager.get].
  - case_decide; [reflexivity|exact IH].
  - subst k0. rewrite decide_False by congruence. exact IH.
Qed.

(** X27: [removeObject] takes the object of the id out of the registry
    and leaves every other object as it is; it does not touch the
    attachment, so that after the held object is removed the gripper still
    counts as occupied and the pick-up step of [updateJoints] takes no
    other object. *)
Theorem X27_removeObject (k : string) (om : ObjectManager.t) :
  ObjectManager.get k (ObjectManager.objects (ObjectManager.removeObject k om)) = None /\
  (forall k', k' <> k ->
     ObjectManager.get k' (ObjectManager.objects (ObjectManager.removeObject k om))
     = ObjectManager.get k' (ObjectManager.objects om)) /\
  ObjectManager.attachedObject (ObjectManager.removeObject k om)
  = ObjectManager.attachedObject om /\
  (ObjectManager.attachedObject om = Some k ->
   forall rig a,
     RobotArmSimulator.pickUp rig a (ObjectManager.removeObject k om)
     = ObjectManager.removeObject k om).
Proof.
  unfold ObjectManager.removeObject.
  cbn [ObjectManager.objects ObjectManager.set_objects ObjectManager.attachedObject].
  split; [apply get_filter_out|].
  split; [intros k' Hne; now apply get_filter_other|].
  split; [reflexivity|].
  intros Ha rig a. unfold RobotArmSimulator.pickUp.
  cbn [ObjectManager.attachedObject ObjectManager.set_objects]. now rewrite Ha.
Qed.

(** ** The stored animations *)

Lemma upsert_find (nameOf : string -> string) (name entry : string) (l : list string) :
  nameOf entry = name ->
  List.find (fun a => bool_decide (nameOf a = name)) (Storage.upsert nameOf name entry l)
  = Some entry.
Proof.
  intros He. induction l as [|a l IH]; cbn [Storage.upsert List.find].
  - now rewrite bool_decide_eq_true_2.
  - case_decide as Ha; cbn [List.find].
    + now rewrite bool_decide_eq_true_2.
    + now rewrite bool_decide_eq_false_2.
Qed.

Lemma upsert_other (nameOf : string -> string) (name entry other : string)
    (l : list string) :
  nameOf entry = name -> other <> name ->
  filter (fun a => nameOf a = other) (Storage.upsert nameOf name entry l)
  = filter (fun a => nameOf a = other) l.
Proof.
  intros He Hne. induction l as [|a l IH]; cbn [Storage.upsert].
  - rewrite filter_cons, decide_False by congruence. reflexivity.
  - case_decide as Ha.
    + rewrite !filter_cons, !decide_False by congruence. reflexivity.
    + rewrite !filter_cons, IH. reflexivity.
Qed.

Lemma upsert_names (nameOf : string -> string) (name entry : string) (l : list string)
    (x : string) :
  nameOf entry = name ->
  x ∈ nameOf <$> Storage.upsert nameOf name entry l -> x = name \/ x ∈ nameOf <$> l.
Proof.
  intros He. induction l as [|a l IH]; cbn [Storage.upsert].
  - rewrite list_fmap_singleton, list_elem_of_singleton. intros ->. now left.
  - case_decide as Ha; rewrite !fmap_cons, !elem_of_cons.
    + intros [->|Hx]; auto.
    + intros [->|Hx]; [auto|]. destruct (IH Hx); auto.
Qed.

Lemma upsert_NoDup (nameOf : string -> string) (name entry : string) (l : list string) :
  nameOf entry = name ->
  NoDup (nameOf <$> l) -> NoDup (nameOf <$> Storage.upsert nameOf name entry l).
Proof.
  intros He. induction l as [|a l IH]; cbn [Storage.upsert]; intros Hnd.
  - rewrite list_fmap_singleton. apply NoDup_singleton.
  - rewrite fmap_cons in Hnd. apply NoDup_cons in Hnd as [Ha Hnd].
    case_decide as Hn; rewrite fmap_cons; apply NoDup_cons.
    + split; [|exact Hnd]. now rewrite He, <- Hn.
    + split; [|now apply IH]. intros Hin.
      apply (upsert_names nameOf name entry l _ He) in Hin as [Heq|Hin]; auto.
Qed.

Lemma upsert_new (nameOf : string -> string) (name entry : string) (l : list string) :
  name ∉ nameOf <$> l -> Storage.upsert nameOf name entry l = l ++ [entry].
Proof.
  induction l as [|a l IH]; cbn [Storage.upsert]; [reflexivity|].
  rewrite fmap_cons, not_elem_of_cons. intros [Hne Hl].
  rewrite decide_False by congruence. now rewrite IH.
Qed.

(** X28: after [saveAnimation] on a store that can be written, the
    animation found under the name is the one just saved, the animations
    of every other name are as they were, and names that were pairwise
    distinct still are. *)
Theorem X28_saveAnimation (nameOf : string -> string) (name animation : string)
    (ls : Storage.LocalStorage) :
  nameOf animation = name ->
  let ls' := snd (Storage.saveAnimation nameOf true name animation ls) in
  List.find (fun a => bool_decide (nameOf a = name)) (Storage.loadAnimations ls')
  = Some animation /\
  (forall other, other <> name ->
     filter (fun a => nameOf a = other) (Storage.loadAnimations ls')
     = filter (fun a => nameOf a = other) (Storage.loadAnimations ls)) /\
  (NoDup (nameOf <$> Storage.loadAnimations ls) ->
   NoDup (nameOf <$> Storage.loadAnimations ls')) /\
  Storage.loadProgress ls' = Storage.loadProgress ls.
Proof.
  intros He ls'.
  change (Storage.loadAnimations ls')
    with (Storage.upsert nameOf name animation (Storage.loadAnimations ls)).
  split; [now apply upsert_find|].
  split; [intros other Hne; now apply upsert_other|].
  split; [now apply upsert_NoDup|reflexivity].
Qed.

(** X28 at an empty store, with entries that are their own names. *)
Lemma X28_saveAnimation_witness :
  List.find (fun a => bool_decide (a = "wave"))
    (Storage.loadAnimations (snd (Storage.saveAnimation (fun a => a) true "wave" "wave" None)))
  = Some "wave".
Proof.
  refine (proj1 (X28_saveAnimation (fun a => a) "wave" "wave" None _)). reflexivity.
Defined.

(** X29: [deleteAnimation] leaves no animation of the name and keeps
    every animation of another name, in order; deleting an animation that
    was saved under a name not in use before gives back the animations
    there were before the save. *)
Theorem X29_deleteAnimation (nameOf : string -> string) (name animation : string)
    (ls : Storage.LocalStorage) :
  nameOf animation = name ->
  Storage.loadAnimations (Storage.deleteAnimation nameOf true name ls)
  = filter (fun a => nameOf a <> name) (Storage.loadAnimations ls) /\
  (name ∉ nameOf <$> Storage.loadAnimations (Storage.deleteAnimation nameOf true name ls)) /\
  ((name ∉ nameOf <$> Storage.loadAnimations ls) ->
   Storage.loadAnimations
     (Storage.deleteAnimation nameOf true name
        (snd (Storage.saveAnimation nameOf true name animation ls)))
   = Storage.loadAnimations ls).
Proof.
  intros He.
  change (Storage.loadAnimations (Storage.deleteAnimation nameOf true name ls))
    with (filter (fun a => nameOf a <> name) (Storage.loadAnimations ls)).
  split; [reflexivity|]. split.
  - intros Hin. apply list_elem_of_fmap in Hin as (a & Ha & Hin).
    apply list_elem_of_filter in Hin as [Hne _]. congruence.
  - intros Hnew.
    change (Storage.loadAnimations
              (Storage.deleteAnimation nameOf true name
                 (snd (Storage.saveAnimation nameOf true name animation ls))))
      with (filter (fun a => nameOf a <> name)
              (Storage.upsert nameOf name animation (Storage.loadAnimations ls))).
    rewrite upsert_new by assumption.
    rewrite filter_app, filter_cons, decide_False by (intros Hc; now apply Hc).
    rewrite filter_nil, app_nil_r.
    induction (Storage.loadAnimations ls) as [|a l IH]; [reflexivity|].
    rewrite fmap_cons, not_elem_of_cons in Hnew. destruct Hnew as [Hne Hl].
    rewrite filter_cons, decide_True by congruence. now rewrite IH.
Qed.

(** X29 at an empty store, with entries that are their own names. *)
Lemma X29_deleteAnimation_witness :
  Storage.loadAnimations (Storage.deleteAnimation (fun a => a) true "wave" None)
  = filter (fun a => a <> "wave") (Storage.loadAnimations None).
Proof.
  refine (proj1 (X29_deleteAnimation (fun a => a) "wave" "wave" None _)). reflexivity.
Defined.

(** ** Unlocking by completion *)

Lemma saveProgress_unlocked (writable : bool) (levelId stars : Z) (time : R)
    (ls : Storage.LocalStorage) :
  Props.unlocked_by_completion (Storage.loadProgress ls) ->
  Props.unlocked_by_completion
    (Storage.loadProgress (snd (Storage.saveProgress writable levelId stars time ls))).
Proof.
  intros Hinv. destruct writable; [|exact Hinv].
  destruct Hinv as (Hun & Hnd1 & Hnd2).
  change (Storage.loadProgress (snd (Storage.saveProgress true levelId stars time ls)))
    with (fst (Storage.saveProgress true levelId stars time ls)).
  unfold Storage.saveProgress, Storage.loadProgress in *. cbn zeta.
  set (p := Storage.progress (Storage.loadAll ls)) in *.
  unfold Props.unlocked_by_completion.
  cbn [fst Storage.unlockedLevels Storage.completedLevels].
  split; [|split; [case_decide; [apply NoDup_pushNew|]; assumption|now apply NoDup_pushNew]].
  intros x. split.
  - intros Hx.
    assert (x ∈ Storage.unlockedLevels p \/ (x = (levelId + 1)%Z /\ (x <= 10)%Z)) as [Hold|[-> Hle]].
    { case_decide; [|now left]. apply elem_of_pushNew in Hx as [->|Hx]; auto. }
    + apply Hun in Hold as [->|(c & Hc & -> & Hle)]; [now left|].
      right. exists c. split; [apply elem_of_pushNew; now right|auto].
    + right. exists levelId. split; [apply elem_of_pushNew; now left|auto].
  - intros [->|(c & Hc & -> & Hle)].
    + assert (0%Z ∈ Storage.unlockedLevels p) as H0 by (apply Hun; now left).
      case_decide; [apply elem_of_pushNew; now right|assumption].
    + apply elem_of_pushNew in Hc as [->|Hc].
      * rewrite decide_True by assumption. apply elem_of_pushNew. now left.
      * assert ((c + 1)%Z ∈ Storage.unlockedLevels p) as Hold
          by (apply Hun; right; exists c; auto).
        case_decide; [apply elem_of_pushNew; now right|assumption].
Qed.

(** X30: in the store that any sequence of [saveProgress] calls leaves,
    starting without a stored item, the unlocked levels are level 0 and the
    successors, up to 10, of the completed levels, and no level is listed
    twice as unlocked or as completed. *)
Theorem X30_unlocked_by_completion (calls : list (bool * Z * Z * R)) :
  let p := Storage.loadProgress (Props.saves calls) in
  (forall x, x ∈ Storage.unlockedLevels p
             <-> x = 0%Z \/
                 exists c, c ∈ Storage.completedLevels p /\ x = (c + 1)%Z /\ (x <= 10)%Z) /\
  NoDup (Storage.unlockedLevels p) /\ NoDup (Storage.completedLevels p).
Proof.
  cbn zeta. change (Props.unlocked_by_completion (Storage.loadProgress (Props.saves calls))).
  unfold Props.saves.
  assert (Props.unlocked_by_completion (Storage.loadProgress None)) as Hinit.
  { split; [|split; [apply NoDup_singleton|apply NoDup_nil; exact I]].
    intros x. cbn [Storage.loadProgress Storage.loadAll Storage.getDefaultData
                   Storage.progress Storage.unlockedLevels Storage.completedLevels].
    rewrite list_elem_of_singleton. split; [now left|].
    intros [->|(c & Hc & _)]; [reflexivity|]. now apply elem_of_nil in Hc. }
  revert Hinit. generalize (@None Storage.Data).
  induction calls as [|[[[writable levelId] stars] time] calls IH]; intros ls Hinv;
    cbn [fold_left]; [exact Hinv|].
  apply IH. now apply saveProgress_unlocked.
Qed.

(** * Claims on attaching, recording and saving, in general *)

(** ** An object in reach of the gripper *)

(** The clamp test finds an object when an entry that passes its tests is
    closer than 0.3: one that passes them and is at least as near. *)
Lemma checkClamping_finds (om : ObjectManager.t) (c lf rf : THREE.Vector3) (gw : R)
    (e : string * ObjectManager.Mesh) :
  e ∈ ObjectManager.objects om -> Props.clampable om gw e ->
  THREE.distanceTo c (ObjectManager.position (snd e)) < 0.3 ->
  exists k' obj',
    ObjectManager.checkClamping c gw lf rf om = Some k' /\
    (k', obj') ∈ ObjectManager.objects om /\
    Props.clampable om gw (k', obj') /\
    THREE.distanceTo c (ObjectManager.position obj')
    <= THREE.distanceTo c (ObjectManager.position (snd e)) /\
    forall e', e' ∈ ObjectManager.objects om -> Props.clampable om gw e' ->
      THREE.distanceTo c (ObjectManager.position obj')
      <= THREE.distanceTo c (ObjectManager.position (snd e')).
Proof.
  intros He Hce Hde.
  destruct (clampLoop_nearest om c gw (ObjectManager.objects om) [] (None, 1.0))
    as (Hle & Hnone & Hmin & Hsome); cbn [fst snd]; try lra; try discriminate.
  { intros e' He'. now apply elem_of_nil in He'. }
  rewrite app_nil_l in Hmin, Hsome.
  pose proof (Hmin e He Hce) as Hbest.
  unfold ObjectManager.checkClamping. cbn zeta.
  destruct (fst (fold_left _ _ _)) as [k'|] eqn:Hfst.
  - destruct (Hsome k' eq_refl) as (obj' & Hin & Hc & Hdist).
    rewrite decide_True by lra.
    exists k', obj'. split; [reflexivity|]. split; [assumption|]. split; [assumption|].
    split; [lra|]. intros e' He' Hce'. rewrite Hdist. now apply Hmin.
  - specialize (Hnone eq_refl). lra.
Qed.

(** C2, amended: with nothing attached and no object carrying a
    [userData.size], take a pickable object of the registry of size 0.3 (as
    the clamp test reads it) and the gripper angle a joint update sets.
    When the object is closer than 0.3 to the gripper centre (as at 0.1) and
    the angle is 20 degrees, the pick-up step attaches an object and the
    release test of the same update releases it, the width at 20 degrees
    being above 0.3 + 0.1: nothing is attached after the update.  When the
    angle is between 20.25/PI and 54/PI degrees (as at 15 degrees), an
    object is attached after the update: one that passes the clamp test and
    is at least as near, and the object itself when every other object that
    passes the clamp test is farther.  When the object is 0.3 or more from
    the gripper centre (as at 0.5), it is attached neither by the pick-up
    step nor after the update, at any angle. *)
Theorem C2_attached_in_reach (rig : RobotArmSimulator.Rig)
    (u : RobotArmSimulator.AngleUpdate) (s : RobotArmSimulator.t)
    (om : ObjectManager.t) (k : string) (obj : ObjectManager.Mesh) :
  RobotArmSimulator.objectManager s = Some om ->
  ObjectManager.attachedObject om = None ->
  Props.wf om -> Props.unsized om ->
  (k, obj) ∈ ObjectManager.objects om ->
  ObjectManager.pickable (ObjectManager.userData obj) = true ->
  ObjectManager.objSize obj = 0.3 ->
  let a := RobotArmSimulator.merge (RobotArmSimulator.angles s) u in
  let c := RobotArmSimulator.gripperCenterPosition rig in
  let d := THREE.distanceTo c (ObjectManager.position obj) in
  let after :=
    ObjectManager.attachedObject
      <$> RobotArmSimulator.objectManager (RobotArmSimulator.updateJoints rig u s) in
  (d < 0.3 -> RobotArmSimulator.gripper a = 20 ->
   ObjectManager.attachedObject (RobotArmSimulator.pickUp rig a om) <> None /\
   after = Some None) /\
  (d < 0.3 -> 20.25 / PI <= RobotArmSimulator.gripper a <= 54 / PI ->
   exists k' obj',
     after = Some (Some k') /\
     (k', obj') ∈ ObjectManager.objects om /\
     Props.clampable om (RobotArmSimulator.gripperWidth a) (k', obj') /\
     THREE.distanceTo c (ObjectManager.position obj') <= d /\
     ((forall e, e ∈ ObjectManager.objects om ->
         Props.clampable om (RobotArmSimulator.gripperWidth a) e ->
         e <> (k, obj) -> d < THREE.distanceTo c (ObjectManager.position (snd e))) ->
      k' = k)) /\
  (0.3 <= d ->
   ObjectManager.attachedObject (RobotArmSimulator.pickUp rig a om) <> Some k /\
   after <> Some (Some k)).
Proof.
  intros Hom Hfree Hwf Hu Hin Hp Hsize a c d after.
  pose proof PI_bounds as [Hpi Hpi'].
  assert (54 / PI * PI = 54) as Hq54 by (field; lra).
  assert (20.25 / PI * PI = 20.25) as Hq20 by (field; lra).
  assert (0 < 20.25 / PI) as Hlo.
  { apply (Rmult_lt_reg_r PI); [lra|]. rewrite Hq20. lra. }
  assert (54 / PI < 18) as Hhi.
  { apply (Rmult_lt_reg_r PI); [lra|]. rewrite Hq54. lra. }
  assert (RobotArmSimulator.gripperWidth a
          = 0.16 + RobotArmSimulator.gripper a * (PI / 180) * 0.4 * 2) as Hgw
    by reflexivity.
  pose proof (gripperWidth_threshold a) as Hth.
  assert (after
          = Some (if decide (0 < RobotArmSimulator.gripper a < 40) then
                    match ObjectManager.checkClamping c (RobotArmSimulator.gripperWidth a)
                            (RobotArmSimulator.leftFingerWorldPosition rig)
                            (RobotArmSimulator.rightFingerWorldPosition rig) om with
                    | Some k1 =>
                        if decide (RobotArmSimulator.gripperWidth a > 0.3 + 0.1)
                        then None else Some k1
                    | None => None
                    end
                  else None)) as Hafter.
  { unfold after. rewrite (updateJoints_attached rig u s om Hom). cbn zeta.
    fold a. fold c. rewrite Hfree. f_equal.
    case_decide; [|reflexivity].
    destruct (ObjectManager.checkClamping c _ _ _ om) as [k1|]; [|reflexivity].
    now rewrite unsized_size. }
  assert (forall gw, 0.25 <= gw <= 0.5 ->
            Props.clampable om gw (k, obj)) as Hclamp.
  { intros gw Hband. unfold Props.clampable. cbn [fst snd].
    split; [exact Hp|]. split; [|rewrite Hsize; lra].
    unfold ObjectManager.isAttached. now rewrite Hfree. }
  split; [|split].
  - intros Hd Hg.
    assert (0.25 <= RobotArmSimulator.gripperWidth a <= 0.5) as Hband
      by (rewrite Hgw, Hg; lra).
    destruct (checkClamping_finds om c
                (RobotArmSimulator.leftFingerWorldPosition rig)
                (RobotArmSimulator.rightFingerWorldPosition rig)
                (RobotArmSimulator.gripperWidth a) (k, obj) Hin (Hclamp _ Hband) Hd)
      as (k' & obj' & Hcc & _).
    split.
    + rewrite pickUp_attached by (try assumption; lra). fold c. now rewrite Hcc.
    + rewrite Hafter, decide_True by lra. rewrite Hcc.
      rewrite decide_True; [reflexivity|]. apply Hth. lra.
  - intros Hd Hg.
    assert (RobotArmSimulator.gripper a * PI >= 20.25) as Hg1.
    { rewrite <- Hq20. apply Rle_ge, Rmult_le_compat_r; lra. }
    assert (RobotArmSimulator.gripper a * PI <= 54) as Hg2.
    { rewrite <- Hq54. apply Rmult_le_compat_r; lra. }
    assert (0.25 <= RobotArmSimulator.gripperWidth a <= 0.5) as Hband
      by (rewrite Hgw; lra).
    destruct (checkClamping_finds om c
                (RobotArmSimulator.leftFingerWorldPosition rig)
                (RobotArmSimulator.rightFingerWorldPosition rig)
                (RobotArmSimulator.gripperWidth a) (k, obj) Hin (Hclamp _ Hband) Hd)
      as (k' & obj' & Hcc & Hin' & Hc' & Hd' & _).
    exists k', obj'. split; [|split; [exact Hin'|split; [exact Hc'|split; [exact Hd'|]]]].
    + rewrite Hafter, decide_True by lra. rewrite Hcc.
      rewrite decide_False; [reflexivity|]. intros Hw. apply Hth in Hw. lra.
    + intros Hfar. destruct (decide (k' = k)) as [Heq|Hne]; [exact Heq|].
      assert ((k', obj') <> (k, obj)) as Hne' by congruence.
      specialize (Hfar (k', obj') Hin' Hc' Hne'). cbn [snd] in Hfar, Hd'.
      fold d in Hd'. lra.
  - intros Hd.
    assert (ObjectManager.checkClamping c (RobotArmSimulator.gripperWidth a)
              (RobotArmSimulator.leftFingerWorldPosition rig)
              (RobotArmSimulator.rightFingerWorldPosition rig) om <> Some k) as Hcc.
    { intros Hcc. apply checkClamping_sound in Hcc as (obj' & Hin' & _ & Hd' & _).
      destruct Hwf as [Hnd _].
      apply (get_of_elem _ _ _ Hnd) in Hin, Hin'.
      assert (obj' = obj) as -> by congruence. fold d in Hd'. lra. }
    split.
    + destruct (decide (0 < RobotArmSimulator.gripper a < 40)) as [Hg|Hg].
      * now rewrite pickUp_attached.
      * assert (RobotArmSimulator.pickUp rig a om = om) as ->.
        { unfold RobotArmSimulator.pickUp. rewrite Hfree.
          rewrite decide_False; [reflexivity|]. lra. }
        rewrite Hfree. discriminate.
    + rewrite Hafter. case_decide; [|congruence].
      destruct (ObjectManager.checkClamping c _ _ _ om) as [k1|]; [|congruence].
      case_decide; congruence.
Qed.

(** C2, amended, at a cube of size 0.3 at distance 0.1 and a gripper closed
    to 15 degrees: the cube is attached after the update. *)
Lemma C2_attached_in_reach_witness :
  exists k' obj',
    ObjectManager.attachedObject
      <$> RobotArmSimulator.objectManager
            (RobotArmSimulator.updateJoints Examples.rig0 (Examples.gripperTo 15)
               (Examples.simulator
                  (Examples.holding (Examples.cube (THREE.Vec3 0.1 0 0) 0.3))))
    = Some (Some k') /\
    (k', obj')
      ∈ ObjectManager.objects (Examples.holding (Examples.cube (THREE.Vec3 0.1 0 0) 0.3)) /\
    THREE.distanceTo (THREE.Vec3 0 0 0) (ObjectManager.position obj')
    <= THREE.distanceTo (THREE.Vec3 0 0 0) (THREE.Vec3 0.1 0 0).
Proof.
  pose proof PI_bounds as [Hpi Hpi'].
  assert (Props.wf (Examples.holding (Examples.cube (THREE.Vec3 0.1 0 0) 0.3))) as Hwf.
  { split; [apply NoDup_singleton|]. repeat constructor. }
  assert (Props.unsized (Examples.holding (Examples.cube (THREE.Vec3 0.1 0 0) 0.3)))
    as Hu by repeat constructor.
  assert (ObjectManager.objSize (Examples.cube (THREE.Vec3 0.1 0 0) 0.3) = 0.3) as Hsize
    by (apply objSize_cube; lra).
  assert (THREE.distanceTo (THREE.Vec3 0 0 0) (THREE.Vec3 0.1 0 0) < 0.3) as Hd.
  { replace (THREE.distanceTo _ _) with (0.1 - 0)
      by (symmetry; apply (distanceTo_along_x 0.1 0 0 0); lra).
    lra. }
  assert (20.25 / PI <= 15 <= 54 / PI) as Hg.
  { split.
    - apply (Rmult_le_reg_r PI); [lra|].
      replace (20.25 / PI * PI) with 20.25 by (field; lra). lra.
    - apply (Rmult_le_reg_r PI); [lra|].
      replace (54 / PI * PI) with 54 by (field; lra). lra. }
  destruct (proj1 (proj2
              (C2_attached_in_reach Examples.rig0 (Examples.gripperTo 15)
                 (Examples.simulator
                    (Examples.holding (Examples.cube (THREE.Vec3 0.1 0 0) 0.3)))
                 (Examples.holding (Examples.cube (THREE.Vec3 0.1 0 0) 0.3))
                 "obj_1" (Examples.cube (THREE.Vec3 0.1 0 0) 0.3)
                 eq_refl eq_refl Hwf Hu (list_elem_of_here _ _) eq_refl Hsize))
              Hd Hg) as (k' & obj' & Hafter & Hin & _ & Hnear & _).
  exists k', obj'. split; [exact Hafter|]. split; [exact Hin|exact Hnear].
Defined.

(** ** Saving only what is better *)






(** ** An object in two targets *)

Lemma scanObjects_app (l1 l2 : list ObjectManager.Mesh)
    (meshes : list LevelManager.TargetMesh) (states : list LevelManager.TargetState) :
  LevelManager.scanObjects (l1 ++ l2) meshes states
  = JS.bind (LevelManager.scanObjects l1 meshes states)
      (LevelManager.scanObjects l2 meshes).
Proof.
  revert states. induction l1 as [|obj l1 IH]; intros states; [reflexivity|].
  cbn [app LevelManager.scanObjects].
  destruct (LevelManager.scanTargets obj 0 meshes states) as [s1|]; [|reflexivity].
  cbn [mbind completion_bind JS.bind]. apply IH.
Qed.

Lemma first_fit_unique (obj : ObjectManager.Mesh) (meshes : list LevelManager.TargetMesh)
    (i j : nat) :
  Props.first_fit obj meshes i -> Props.first_fit obj meshes j -> i = j.
Proof.
  intros (ti & Hi & Hfi & Hbi) (tj & Hj & Hfj & Hbj).
  destruct (Nat.lt_trichotomy i j) as [Hlt|[Heq|Hgt]]; [|exact Heq|].
  - specialize (Hbj i ti Hlt Hi). congruence.
  - specialize (Hbi j tj Hgt Hj). congruence.
Qed.

Lemma first_fit_exists (obj : ObjectManager.Mesh) (meshes : list LevelManager.TargetMesh)
    (i : nat) (ti : LevelManager.TargetMesh) :
  meshes !! i = Some ti -> LevelManager.fits obj ti = true ->
  exists i0, (i0 <= i)%nat /\ Props.first_fit obj meshes i0.
Proof.
  revert i. induction meshes as [|t meshes IH]; intros i Hi Hfit; [discriminate|].
  destruct (LevelManager.fits obj t) eqn:Ht.
  - exists 0%nat. split; [lia|]. exists t. repeat split; [exact Ht|]. intros j tj Hj. lia.
  - destruct i as [|i]; [cbn in Hi; congruence|].
    destruct (IH i Hi Hfit) as (i0 & Hle & (t0 & H0 & Hf0 & Hb0)).
    exists (S i0). split; [lia|]. exists t0. repeat split; [exact H0|exact Hf0|].
    intros [|j1] t1 Hlt H1; cbn in H1.
    + now injection H1 as <-.
    + apply (Hb0 j1); [lia|exact H1].
Qed.

(** The scan of the targets for an object that fits a target first at [j]
    marks that target. *)
Lemma scanTargets_fit (obj : ObjectManager.Mesh) (meshes : list LevelManager.TargetMesh)
    (i0 j : nat) (states states' : list LevelManager.TargetState) :
  Props.first_fit obj meshes j ->
  LevelManager.scanTargets obj i0 meshes states = JS.Normal states' ->
  is_Some (states !! (i0 + j)%nat) /\
  states'
  = <[(i0 + j)%nat := {| LevelManager.filled := true;
                         LevelManager.object :=
                           Some (ObjectManager.id (ObjectManager.userData obj)) |}]>
      states.
Proof.
  revert i0 j. induction meshes as [|t meshes IH]; intros i0 j (tj & Hj & Hfit & Hbefore);
    [discriminate|].
  cbn [LevelManager.scanTargets]. destruct j as [|j].
  - cbn in Hj. injection Hj as ->. rewrite Hfit, Nat.add_0_r.
    destruct (states !! i0) eqn:H0; [|discriminate].
    intros [= <-]. split; [now eexists|reflexivity].
  - rewrite (Hbefore 0%nat t) by (try lia; reflexivity).
    replace (i0 + S j)%nat with (S i0 + j)%nat by lia.
    apply IH. exists tj. repeat split; [exact Hj|exact Hfit|].
    intros j1 t1 Hlt H1. apply (Hbefore (S j1)); [lia|exact H1].
Qed.

(** A target that is filled stays filled while further objects are
    scanned, and what it records then is what it recorded or one of those
    objects, which fits it first. *)
Lemma scanObjects_keeps (P : option string -> Prop) (all objs : list ObjectManager.Mesh)
    (meshes : list LevelManager.TargetMesh) (i : nat)
    (states states' : list LevelManager.TargetState) :
  (forall o, o ∈ objs -> o ∈ all) ->
  (exists si, states !! i = Some si /\ LevelManager.filled si = true /\
     (P (LevelManager.object si) \/
      exists o, o ∈ all /\
        LevelManager.object si = Some (ObjectManager.id (ObjectManager.userData o)) /\
        Props.first_fit o meshes i)) ->
  LevelManager.scanObjects objs meshes states = JS.Normal states' ->
  exists si, states' !! i = Some si /\ LevelManager.filled si = true /\
    (P (LevelManager.object si) \/
     exists o, o ∈ all /\
       LevelManager.object si = Some (ObjectManager.id (ObjectManager.userData o)) /\
       Props.first_fit o meshes i).
Proof.
  revert states. induction objs as [|obj objs IH]; intros states Hsub Hinv;
    cbn [LevelManager.scanObjects].
  - now intros [= <-].
  - destruct (LevelManager.scanTargets obj 0 meshes states) as [s1|] eqn:Hscan;
      [|discriminate].
    cbn [mbind completion_bind JS.bind].
    apply IH; [intros o Ho; apply Hsub; now apply list_elem_of_further|].
    apply scanTargets_first in Hscan as [->|(j & Hfirst & ->)]; [exact Hinv|].
    destruct Hinv as (si & Hi & Hf & Hrec). cbn [Nat.add].
    destruct (decide (j = i)) as [->|Hne].
    + eexists. split; [apply list_lookup_insert_eq; now apply lookup_lt_Some in Hi|].
      split; [reflexivity|]. right. exists obj.
      split; [apply Hsub, list_elem_of_here|]. split; [reflexivity|exact Hfirst].
    + exists si. rewrite list_lookup_insert_ne by exact Hne. auto.
Qed.

(** What a target records, filled or not, is an object of the registry
    that fits it first. *)
Lemma scanObjects_recorded (all objs : list ObjectManager.Mesh)
    (meshes : list LevelManager.TargetMesh) (states states' : list LevelManager.TargetState) :
  (forall obj, obj ∈ objs -> obj ∈ all) ->
  (forall i si k, states !! i = Some si -> LevelManager.object si = Some k ->
     exists obj, obj ∈ all /\ k = ObjectManager.id (ObjectManager.userData obj) /\
       Props.first_fit obj meshes i) ->
  LevelManager.scanObjects objs meshes states = JS.Normal states' ->
  forall i si k, states' !! i = Some si -> LevelManager.object si = Some k ->
    exists obj, obj ∈ all /\ k = ObjectManager.id (ObjectManager.userData obj) /\
      Props.first_fit obj meshes i.
Proof.
  revert states. induction objs as [|obj objs IH]; intros states Hsub Hinv;
    cbn [LevelManager.scanObjects].
  - now intros [= <-].
  - destruct (LevelManager.scanTargets obj 0 meshes states) as [s1|] eqn:Hscan;
      [|discriminate].
    cbn [mbind completion_bind JS.bind].
    apply IH; [intros o Ho; apply Hsub; now apply list_elem_of_further|].
    apply scanTargets_first in Hscan as [->|(j & Hfirst & ->)]; [exact Hinv|].
    intros i si k Hi Hk.
    apply list_lookup_insert_Some in Hi as [(<- & <- & _)|(_ & Hi)].
    + cbn [LevelManager.object] in Hk. injection Hk as <-.
      exists obj. split; [apply Hsub, list_elem_of_here|]. split; [reflexivity|].
      exact Hfirst.
    + now apply (Hinv i si).
Qed.

Lemma same_id_same_mesh (om : ObjectManager.t) (o1 o2 : ObjectManager.Mesh) :
  Props.wf om ->
  o1 ∈ ObjectManager.getAllObjects om -> o2 ∈ ObjectManager.getAllObjects om ->
  ObjectManager.id (ObjectManager.userData o1) = ObjectManager.id (ObjectManager.userData o2) ->
  o1 = o2.
Proof.
  intros Hwf H1 H2 Hid.
  apply (elem_of_getAllObjects om o1 Hwf) in H1.
  apply (elem_of_getAllObjects om o2 Hwf) in H2.
  destruct Hwf as [Hnd _]. rewrite Hid in H1.
  apply (get_of_elem _ _ _ Hnd) in H1, H2. congruence.
Qed.

(** C9, amended: when two targets overlap, both accept an object's shape
    kind (and colour, where required) and an object of the registry lies
    within the acceptance radius of both, one evaluation of the target
    states records the object for at most one target, the first target in
    index order that the object fits.  That target, which is the first of
    the two or one before it, is marked filled; it records this object,
    unless an object later in the registry also fits that target first
    and is recorded in its place.  No other target records the object,
    neither the second of the two nor any other: the scan of the targets
    for an object ends at the first target it fits. *)
Theorem C9_first_fitting_target_only (om : ObjectManager.t) (lm lm' : LevelManager.t)
    (obj : ObjectManager.Mesh) (before after : list ObjectManager.Mesh)
    (i j : nat) (ti tj : LevelManager.TargetMesh) :
  Props.wf om ->
  LevelManager.updateTargetStates om lm = JS.Normal lm' ->
  ObjectManager.getAllObjects om = before ++ obj :: after ->
  LevelManager.targetMeshes lm !! i = Some ti ->
  LevelManager.targetMeshes lm !! j = Some tj ->
  (i < j)%nat ->
  LevelManager.fits obj ti = true ->
  LevelManager.fits obj tj = true ->
  exists i0 si,
    (i0 <= i)%nat /\
    Props.first_fit obj (LevelManager.targetMeshes lm) i0 /\
    LevelManager.targetStates lm' !! i0 = Some si /\
    LevelManager.filled si = true /\
    (LevelManager.object si = Some (ObjectManager.id (ObjectManager.userData obj)) \/
     exists o, o ∈ after /\
       LevelManager.object si = Some (ObjectManager.id (ObjectManager.userData o)) /\
       Props.first_fit o (LevelManager.targetMeshes lm) i0) /\
    forall j' sj,
      j' <> i0 -> LevelManager.targetStates lm' !! j' = Some sj ->
      LevelManager.object sj <> Some (ObjectManager.id (ObjectManager.userData obj)).
Proof.
  intros Hwf Hup Hobjs Hi Hj Hlt Hfi Hfj.
  destruct (first_fit_exists obj _ i ti Hi Hfi) as (i0 & Hle & Hfirst).
  assert (obj ∈ ObjectManager.getAllObjects om) as Hobj.
  { rewrite Hobjs. apply elem_of_app. right. apply list_elem_of_here. }
  pose proof Hup as Hup'. revert Hup'.
  unfold LevelManager.updateTargetStates. cbn zeta.
  destruct (LevelManager.scanObjects _ _ _) as [states|] eqn:Hscan; [|discriminate].
  cbn [mbind completion_bind JS.bind]. intros [= <-].
  cbn [LevelManager.targetStates LevelManager.set_targetStates].
  exists i0.
  assert (forall j' sj k,
            states !! j' = Some sj -> LevelManager.object sj = Some k ->
            exists o, o ∈ ObjectManager.getAllObjects om /\
              k = ObjectManager.id (ObjectManager.userData o) /\
              Props.first_fit o (LevelManager.targetMeshes lm) j') as Hrec.
  { refine (scanObjects_recorded (ObjectManager.getAllObjects om) _ _ _ _ _ _ Hscan); [auto|].
    intros j' sj k Hj' Hk. apply list_lookup_fmap_Some in Hj' as (? & -> & _).
    discriminate. }
  rewrite Hobjs, scanObjects_app in Hscan.
  destruct (LevelManager.scanObjects before _ _) as [s0|]; [|discriminate].
  cbn [JS.bind LevelManager.scanObjects] in Hscan.
  destruct (LevelManager.scanTargets obj 0 _ s0) as [s1|] eqn:Hobjscan; [|discriminate].
  cbn [mbind completion_bind JS.bind] in Hscan.
  destruct (scanTargets_fit obj _ 0 i0 s0 s1 Hfirst Hobjscan) as [Hsome ->].
  cbn [Nat.add] in Hsome, Hscan.
  destruct (scanObjects_keeps
              (fun x => x = Some (ObjectManager.id (ObjectManager.userData obj)))
              after after (LevelManager.targetMeshes lm) i0
              (<[i0 := {| LevelManager.filled := true;
                          LevelManager.object :=
                            Some (ObjectManager.id (ObjectManager.userData obj)) |}]> s0)
              states (fun o Ho => Ho)) as (si & Hsi & Hf & Hwho); [|exact Hscan|].
  { eexists. split; [apply list_lookup_insert_eq; now apply lookup_lt_is_Some|].
    split; [reflexivity|]. now left. }
  exists si. split; [exact Hle|]. split; [exact Hfirst|]. split; [exact Hsi|].
  split; [exact Hf|]. split; [exact Hwho|].
  intros j' sj Hne Hj' Hk.
  destruct (Hrec j' sj _ Hj' Hk) as (o & Ho & Hid & Hfirst').
  assert (o = obj) as -> by (apply (same_id_same_mesh om); auto).
  apply Hne. exact (first_fit_unique obj _ j' i0 Hfirst' Hfirst).
Qed.

(** C9, amended, at level 6 of the table and a cube that lies on the
    first target, which puts it within the radius of the second target as
    well: the first target is marked filled. *)
Lemma C9_first_fitting_target_only_witness :
  let lm := snd (LevelData.loadLevel 6 0 ObjectManager.constructor
                   LevelManager.constructor) in
  exists i0 si,
    (i0 <= 0)%nat /\
    LevelManager.targetStates
      (LevelManager.set_targetStates
         [{| LevelManager.filled := true; LevelManager.object := Some "obj_1" |};
          {| LevelManager.filled := false; LevelManager.object := None |};
          {| LevelManager.filled := false; LevelManager.object := None |}]
         lm) !! i0 = Some si /\
    LevelManager.filled si = true.
Proof.
  intros lm.
  set (cube := Examples.cube (THREE.Vec3 (-2) 0.15 0) 0.3).
  set (t0 := {| LevelManager.mesh_position := THREE.Vec3 (-2) 0.15 0;
                LevelManager.targetIndex := 0;
                LevelManager.userData :=
                  LevelData.zone (-2) 0.15 0 0.5 ["cube"] None (Some true) |}).
  set (t1 := {| LevelManager.mesh_position := THREE.Vec3 (-2) 0.45 0;
                LevelManager.targetIndex := 1;
                LevelManager.userData :=
                  LevelData.zone (-2) 0.45 0 0.5 ["cube"] None (Some true) |}).
  assert (Props.wf (Examples.holding cube)) as Hwf.
  { split; [apply NoDup_singleton|]. repeat constructor. }
  assert (LevelManager.fits cube t0 = true) as Hfit0.
  { unfold t0. rewrite fits_zone.
    change (ObjectManager.position cube) with (THREE.Vec3 (-2) 0.15 0).
    rewrite distanceTo_self. rewrite bool_decide_eq_true_2 by lra. reflexivity. }
  assert (LevelManager.fits cube t1 = true) as Hfit1.
  { unfold t1. rewrite fits_zone.
    change (ObjectManager.position cube) with (THREE.Vec3 (-2) 0.15 0).
    rewrite bool_decide_eq_true_2; [reflexivity|].
    unfold THREE.distanceTo, THREE.distanceToSquared. cbn zeta.
    cbn [THREE.x THREE.y THREE.z].
    replace 0.5 with (sqrt (0.5 * 0.5)) by (apply sqrt_square; lra).
    apply sqrt_lt_1_alt. lra. }
  assert (LevelManager.targetMeshes lm !! 0%nat = Some t0) as H0
    by (unfold lm; now rewrite level6_targetMeshes).
  assert (LevelManager.targetMeshes lm !! 1%nat = Some t1) as H1
    by (unfold lm; now rewrite level6_targetMeshes).
  assert (LevelManager.updateTargetStates (Examples.holding cube) lm
          = JS.Normal
              (LevelManager.set_targetStates
                 [{| LevelManager.filled := true; LevelManager.object := Some "obj_1" |};
                  {| LevelManager.filled := false; LevelManager.object := None |};
                  {| LevelManager.filled := false; LevelManager.object := None |}]
                 lm)) as Hup.
  { unfold LevelManager.updateTargetStates. cbn zeta.
    unfold lm at 1 2. rewrite level6_targetMeshes. fold t0.
    change (LevelManager.targetStates
              (snd (LevelData.loadLevel 6 0 ObjectManager.constructor
                      LevelManager.constructor)))
      with [{| LevelManager.filled := false; LevelManager.object := None |};
            {| LevelManager.filled := false; LevelManager.object := None |};
            {| LevelManager.filled := false; LevelManager.object := None |}].
    cbn [fmap list_fmap ObjectManager.getAllObjects ObjectManager.objects
         Examples.holding snd LevelManager.scanObjects LevelManager.scanTargets].
    rewrite Hfit0. reflexivity. }
  destruct (C9_first_fitting_target_only (Examples.holding cube) lm _ cube [] []
              0 1 t0 t1 Hwf Hup eq_refl H0 H1 (Nat.lt_0_1) Hfit0 Hfit1)
    as (i0 & si & Hle & _ & Hsi & Hf & _).
  exists i0, si. split; [exact Hle|]. split; [exact Hsi|exact Hf].
Defined.

(** ** Why a completion takes time *)

Lemma LEVELS_targets :
  Forall (fun level =>
            LevelManager.targets level <> [] /\
            Forall (fun target =>
                      THREE.x (LevelManager.position target) <= -1 /\
                      LevelManager.size target <= 0.5)
              (LevelManager.targets level) /\
            Forall (fun obj => 1 <= THREE.x (LevelManager.object_position obj))
              (LevelManager.objects level))
    LevelData.LEVELS.
Proof.
  unfold LevelData.LEVELS.
  repeat (apply Forall_cons; split;
          [cbn [LevelData.level LevelManager.targets LevelManager.objects];
           split; [discriminate|
                   split; repeat (apply Forall_cons; split;
                                  [cbn [LevelData.zone LevelData.item LevelManager.position
                                        LevelManager.size LevelManager.object_position
                                        THREE.x]; try split; lra|]);
                   apply Forall_nil; exact I]|]).
  apply Forall_nil. exact I.
Qed.

Lemma fits_in_range (obj : ObjectManager.Mesh) (target : LevelManager.TargetMesh) :
  LevelManager.fits obj target = true ->
  THREE.distanceTo (ObjectManager.position obj) (LevelManager.mesh_position target)
  < LevelManager.size (LevelManager.userData target).
Proof.
  unfold LevelManager.fits. cbn zeta. case_decide; [auto|discriminate].
Qed.

Lemma distanceTo_x (a b : THREE.Vector3) :
  THREE.x a - THREE.x b <= THREE.distanceTo a b.
Proof.
  unfold THREE.distanceTo, THREE.distanceToSquared. cbn zeta.
  set (dx := THREE.x a - THREE.x b).
  set (dy := THREE.y a - THREE.y b). set (dz := THREE.z a - THREE.z b).
  destruct (Rle_dec 0 dx) as [Hpos|Hneg].
  - rewrite <- (sqrt_square dx Hpos) at 1. apply sqrt_le_1_alt.
    pose proof (Rle_0_sqr dy) as Hy. pose proof (Rle_0_sqr dz) as Hz.
    unfold Rsqr in Hy, Hz. lra.
  - pose proof (sqrt_pos (dx * dx + dy * dy + dz * dz)). lra.
Qed.

(** The levels of the table put their objects at x = 1 or beyond and their
    targets, of a radius of at most 0.5, at x = -1 or beyond on the other
    side: no level of the table is reported as completed while every object
    is at x = -0.5 or beyond, as all are when the level is loaded. *)
Lemma table_level_needs_travel (level : LevelManager.Level) (now start : R) (e : R) (n : Z)
    (om om0 : ObjectManager.t) (lm lm0 lm' : LevelManager.t) :
  level ∈ LevelData.LEVELS ->
  LevelManager.targetMeshes lm
  = LevelManager.targetMeshes (snd (LevelManager.loadLevel (Some level) start om0 lm0)) ->
  (forall obj, obj ∈ ObjectManager.getAllObjects om ->
     -0.5 <= THREE.x (ObjectManager.position obj)) ->
  LevelManager.update now om lm <> JS.Normal (Some (LevelManager.completed e n), lm').
Proof.
  intros Hin Hmeshes Hx.
  destruct (proj1 (Forall_forall _ _) LEVELS_targets level Hin) as (Hne & Htargets & _).
  assert (exists target rest,
            LevelManager.targets level = target :: rest /\
            LevelManager.targetMeshes lm !! 0%nat
            = Some {| LevelManager.mesh_position := LevelManager.position target;
                      LevelManager.targetIndex := 0;
                      LevelManager.userData := target |}) as (target & rest & Heq & H0).
  { rewrite Hmeshes. unfold LevelManager.loadLevel. cbn [snd].
    match goal with |- context [LevelManager.createTargets ?l 0 ?lm1] =>
      destruct (createTargets_spec l 0 lm1) as (-> & _) end.
    destruct (LevelManager.targets level) as [|target rest]; [congruence|].
    exists target, rest. split; reflexivity. }
  rewrite Heq in Htargets. apply Forall_cons in Htargets as [[Htx Hts] _].
  unfold LevelManager.update.
  destruct (LevelManager.isActive lm); [|discriminate].
  destruct (LevelManager.currentLevel lm) as [l0|] eqn:Hlvl; [|discriminate].
  cbn zeta. destruct (negb _ && _); [discriminate|].
  destruct (LevelManager.checkWinCondition _ _) as [[[] lm2]|] eqn:Hwin;
    cbn [mbind completion_bind JS.bind]; try discriminate.
  intros _. revert Hwin. unfold LevelManager.checkWinCondition.
  cbn [LevelManager.currentLevel LevelManager.set_elapsedTime]. rewrite Hlvl.
  destruct (LevelManager.updateTargetStates om _) as [lm1|] eqn:Hup;
    cbn [mbind completion_bind JS.bind]; [|discriminate].
  destruct (LevelManager.allFilled 0 _ _) as [[]|] eqn:Hall;
    cbn [JS.bind]; try discriminate.
  intros _.
  assert (LevelManager.targetMeshes lm1 = LevelManager.targetMeshes lm) as Hm1.
  { revert Hup. unfold LevelManager.updateTargetStates. cbn zeta.
    destruct (LevelManager.scanObjects _ _ _); cbn [mbind completion_bind JS.bind];
      [|discriminate].
    now intros [= <-]. }
  rewrite Hm1 in Hall.
  destruct (allFilled_lookup _ 0 0 _ Hall) as (s0 & Hs0 & Hf0).
  { apply lookup_lt_Some in H0. exact H0. }
  cbn [Nat.add] in Hs0.
  destruct (updateTargetStates_first om _ lm1 0 s0 Hup Hs0 Hf0)
    as (obj & Hobj & _ & (t0 & Ht0 & Hfit & _)).
  cbn [LevelManager.targetMeshes LevelManager.set_elapsedTime] in Ht0.
  rewrite H0 in Ht0. injection Ht0 as <-.
  apply fits_in_range in Hfit.
  cbn [LevelManager.mesh_position LevelManager.userData] in Hfit.
  pose proof (distanceTo_x (ObjectManager.position obj) (LevelManager.position target)).
  specialize (Hx obj Hobj). lra.
Qed.

(** The objects of a level of the table, as [loadLevel] spawns them, are at
    x = 1 or beyond. *)
Lemma table_level_loaded_far (level : LevelManager.Level) (start : R)
    (om0 : ObjectManager.t) (lm0 : LevelManager.t) (obj : ObjectManager.Mesh) :
  level ∈ LevelData.LEVELS ->
  obj ∈ ObjectManager.getAllObjects
          (snd (fst (LevelManager.loadLevel (Some level) start om0 lm0))) ->
  1 <= THREE.x (ObjectManager.position obj).
Proof.
  intros Hin Hobj.
  destruct (proj1 (Forall_forall _ _) LEVELS_targets level Hin) as (_ & _ & Hobjects).
  assert (Props.wf (ObjectManager.clearAll om0)) as Hwf by (split; constructor).
  assert (Props.fresh (ObjectManager.clearAll om0)) as Hfresh
    by (intros n _; apply not_elem_of_nil).
  destruct (spawnObjects_spec (LevelManager.objects level) (ObjectManager.clearAll om0)
              Hwf Hfresh) as (Hspawn & _).
  revert Hobj. unfold LevelManager.loadLevel, ObjectManager.getAllObjects. cbn [fst snd].
  rewrite Hspawn. cbn [ObjectManager.objects ObjectManager.clearAll app].
  rewrite fmap_imap. intros Hobj.
  apply elem_of_lookup_imap_1 in Hobj as (i & o & -> & Hi).
  apply list_elem_of_lookup_2 in Hi.
  exact (proj1 (Forall_forall _ _) Hobjects o Hi).
Qed.
